(** * Demo agents: customer-service tools, chat handler, filesystem organiser
      and dashboard anomaly detector

    A shallow embedding of the Python sources
    - [demos/customer-service/{config,models,tools,agents_def,app}.py]
    - [scripts/custom_agents/filesystem_agent.py]
    - [scripts/custom_agents/data_dashboard_agent.py]
    followed by the properties established about them.

    Conventions.  Python [str] is [string], the bytes of its UTF-8 encoding
    (every literal of the sources is ASCII).  The case conversions [lower]
    and [upper] and [strip] of this file are the built-ins on ASCII text;
    where a tool lowers or strips text that comes from outside (a file name,
    a list of column names), the built-in is a parameter of the model.
    Python [float] is the kernel's binary64 [float].  A module-level object or
    an object reachable from an argument lives in an explicit store that is
    threaded through the monad [M]; an exception is the [Raise] outcome. *)

From Stdlib Require Import ZArith String Ascii List Lia DecimalString.
From Stdlib Require Import Floats.PrimFloat Floats.FloatOps Floats.SpecFloat Uint63.
From Stdlib Require Import Floats.FloatAxioms.
From stdpp Require Import base option list strings.

Set Warnings "-inexact-float".
Local Open Scope Z_scope.

(** ** Python built-ins used by the sources *)

Module Py.

(** [s.startswith(p)] *)
Fixpoint startswith (p s : string) : bool :=
  match p, s with
  | EmptyString, _ => true
  | String a p', String b s' => if Ascii.eqb a b then startswith p' s' else false
  | String _ _, EmptyString => false
  end.

(** [needle in hay] on strings *)
Fixpoint contains (needle hay : string) : bool :=
  startswith needle hay ||
  match hay with
  | EmptyString => false
  | String _ hay' => contains needle hay'
  end.

(** membership of one character, used to reason about [contains] *)
Fixpoint has_char (c : ascii) (s : string) : bool :=
  match s with
  | EmptyString => false
  | String a s' => Ascii.eqb c a || has_char c s'
  end.

Definition is_upper (c : ascii) : bool :=
  let n := nat_of_ascii c in (65 <=? n)%nat && (n <=? 90)%nat.

Definition is_lower (c : ascii) : bool :=
  let n := nat_of_ascii c in (97 <=? n)%nat && (n <=? 122)%nat.

Definition lower_char (c : ascii) : ascii :=
  if is_upper c then ascii_of_nat (nat_of_ascii c + 32) else c.

Definition upper_char (c : ascii) : ascii :=
  if is_lower c then ascii_of_nat (nat_of_ascii c - 32) else c.

Fixpoint map_chars (f : ascii -> ascii) (s : string) : string :=
  match s with
  | EmptyString => EmptyString
  | String c s' => String (f c) (map_chars f s')
  end.

(** [s.lower()] and [s.upper()] of ASCII text: the letters A to Z and a to
    z change, every other character stays *)
Definition lower : string -> string := map_chars lower_char.
Definition upper : string -> string := map_chars upper_char.

(** ["\n"] *)
Definition nl : string := String (ascii_of_nat 10) EmptyString.

(** [sep.join(l)] *)
Fixpoint join (sep : string) (l : list string) : string :=
  match l with
  | [] => EmptyString
  | [x] => x
  | x :: l' => x +:+ sep +:+ join sep l'
  end.

(** [s.rfind(".")], as [None] for Python's [-1] *)
Fixpoint rfind_dot (s : string) : option nat :=
  match s with
  | EmptyString => None
  | String c s' =>
      match rfind_dot s' with
      | Some i => Some (S i)
      | None => if Ascii.eqb c "." then Some O else None
      end
  end.

(** [s[i:]] *)
Fixpoint drop_chars (i : nat) (s : string) : string :=
  match i, s with
  | O, _ => s
  | S i', String _ s' => drop_chars i' s'
  | S _, EmptyString => EmptyString
  end.

(** [s[:i]] *)
Fixpoint take_chars (i : nat) (s : string) : string :=
  match i, s with
  | O, _ => EmptyString
  | S i', String c s' => String c (take_chars i' s')
  | S _, EmptyString => EmptyString
  end.

(** [s.split(",")] *)
Fixpoint split_comma (s : string) : list string :=
  match s with
  | EmptyString => [EmptyString]
  | String c s' =>
      if Ascii.eqb c "," then EmptyString :: split_comma s'
      else
        match split_comma s' with
        | [] => [String c EmptyString]
        | w :: ws => String c w :: ws
        end
  end.

(** the ASCII characters [str.strip()] removes *)
Definition is_space (c : ascii) : bool :=
  let n := nat_of_ascii c in
  ((9 <=? n)%nat && (n <=? 13)%nat) || ((28 <=? n)%nat && (n <=? 32)%nat).

Fixpoint lstrip (s : string) : string :=
  match s with
  | EmptyString => EmptyString
  | String c s' => if is_space c then lstrip s' else s
  end.

Fixpoint rstrip (s : string) : string :=
  match s with
  | EmptyString => EmptyString
  | String c s' =>
      match rstrip s' with
      | EmptyString => if is_space c then EmptyString else String c EmptyString
      | r => String c r
      end
  end.

(** [s.strip()] of ASCII text *)
Definition strip (s : string) : string := rstrip (lstrip s).

(** decimal digits of a natural number, ["0"] for zero *)
Definition digits (n : Z) : string := NilZero.string_of_uint (N.to_uint (Z.to_N n)).

(** [n / d] rounded to the nearest integer, ties to the even one
    ([0 <= n], [0 < d]): the rounding of the correctly rounded [%f]. *)
Definition round_half_even (n d : Z) : Z :=
  let q := n / d in
  let r := n mod d in
  match 2 * r ?= d with
  | Lt => q
  | Gt => q + 1
  | Eq => if Z.even q then q else q + 1
  end.

(** [|x| * 100] rounded to an integer, for the finite [|x| = m * 2^e] *)
Definition hundredths (m : positive) (e : Z) : Z :=
  if 0 <=? e then Z.pos m * 2 ^ e * 100
  else round_half_even (Z.pos m * 100) (2 ^ (- e)).

Definition sign_str (negative : bool) : string := if negative then "-" else EmptyString.

Definition two_digits (n : Z) : string :=
  if n <? 10 then "0" +:+ digits n else digits n.

(** [format(x, ".2f")] for a float [x] *)
Definition format_2f (x : float) : string :=
  match Prim2SF x with
  | S754_nan => "nan"
  | S754_infinity s => sign_str s +:+ "inf"
  | S754_zero s => sign_str s +:+ "0.00"
  | S754_finite s m e =>
      let c := hundredths m e in
      sign_str s +:+ digits (c / 100) +:+ "." +:+ two_digits (c mod 100)
  end.

(** [str(v)] for a value that is [None] or a string *)
Definition str_of (v : option string) : string :=
  match v with
  | None => "None"
  | Some s => s
  end.

(** [d.get(key, default)] for an entry that is absent ([None]) or present
    with a value *)
Definition dict_get {A} (entry : option A) (default : A) : A :=
  match entry with
  | Some v => v
  | None => default
  end.

(** A dict with string keys in insertion order; a key occurs once. *)
Definition dict (V : Type) : Type := list (string * V).

(** [key in d] *)
Fixpoint dict_contains {V} (d : dict V) (key : string) : bool :=
  match d with
  | [] => false
  | (k, _) :: d' => if String.eqb key k then true else dict_contains d' key
  end.

(** [d[key]] when the key is present *)
Fixpoint dict_lookup {V} (d : dict V) (key : string) : option V :=
  match d with
  | [] => None
  | (k, v) :: d' => if String.eqb key k then Some v else dict_lookup d' key
  end.

(** Exceptions the modelled code can meet. *)
Inductive exn :=
| KeyError (key : string)
| AttributeError (name : string)
| InputGuardrailTripwireTriggered
| OtherException (what : string).

Inductive outcome (A : Type) :=
| Return (a : A)
| Raise (e : exn).
Arguments Return {A} a.
Arguments Raise {A} e.

(** Computations over a store [S] that may raise. *)
Definition M (S A : Type) : Type := S -> outcome A * S.

Definition ret {S A} (a : A) : M S A := fun s => (Return a, s).

Definition bind {S A B} (m : M S A) (k : A -> M S B) : M S B :=
  fun s =>
    match m s with
    | (Return a, s') => k a s'
    | (Raise e, s') => (Raise e, s')
    end.

Definition raise {S A} (e : exn) : M S A := fun s => (Raise e, s).

Definition gets {S A} (f : S -> A) : M S A := fun s => (Return (f s), s).

Definition modify {S} (f : S -> S) : M S unit := fun s => (Return tt, f s).

(** [try: body except ...: handler]: [handler e] is [None] for an exception
    that no [except] clause matches. *)
Definition try_except {S A} (body : M S A) (handler : exn -> option (M S A)) : M S A :=
  fun s =>
    match body s with
    | (Return a, s') => (Return a, s')
    | (Raise e, s') =>
        match handler e with
        | Some h => h s'
        | None => (Raise e, s')
        end
    end.

(** a computation that leaves every store as it found it *)
Definition read_only {S A} (m : M S A) : Prop := forall s, snd (m s) = s.

Module Notations.
Notation "'let*' x ':=' m 'in' k" := (bind m (fun x => k))
  (at level 10, x name, m at level 100, k at level 200).
Notation "'let*' ' p ':=' m 'in' k" := (bind m (fun x => match x with p => k end))
  (at level 10, p pattern, m at level 100, k at level 200).
End Notations.

End Py.

Import Py Py.Notations.

(** ** [models.py] *)

Module Models.

Record AbuseCheck := {
  is_abusive : bool;
  reason : string
}.

Record CustomerContext := {
  customer_id : string;
  customer_name : string;
  is_premium : bool
}.

End Models.

(** ** [config.py] *)

Module Config.

(** One value of [ORDERS_DB]: a dict literal with the keys ["customer_id"],
    ["item"], ["price"] and ["status"], and some of ["tracking"], ["eta"] and
    ["delivered_date"].  An optional key is [None] when the dict lacks it and
    [Some v] when it holds [v]; the held value is a string or Python's [None]
    (as ["tracking": None] of ORD-003). *)
Record Order := {
  customer_id : string;
  item : string;
  price : float;
  status : string;
  tracking : option (option string);
  eta : option (option string);
  delivered_date : option (option string)
}.

(** [ORDERS_DB], built when the module is imported; [in_two_days] and
    [three_days_ago] are the two [strftime("%Y-%m-%d")] strings computed from
    [datetime.now()] at that moment. *)
Definition ORDERS_DB (in_two_days three_days_ago : string) : dict Order :=
  [ ("ORD-001",
     {| customer_id := "CUST-123"; item := "Wireless Headphones";
        price := 79.99; status := "shipped";
        tracking := Some (Some "1Z999AA10123456784");
        eta := Some (Some in_two_days); delivered_date := None |});
    ("ORD-002",
     {| customer_id := "CUST-123"; item := "Phone Case";
        price := 19.99; status := "delivered";
        tracking := Some (Some "1Z999AA10123456785");
        eta := None; delivered_date := Some (Some three_days_ago) |});
    ("ORD-003",
     {| customer_id := "CUST-456"; item := "USB Cable";
        price := 12.99; status := "processing";
        tracking := Some None;
        eta := Some (Some "Pending shipment"); delivered_date := None |}) ].

Record Customer := {
  name : string;
  is_premium : bool;
  lifetime_value : float
}.

Definition CUSTOMERS_DB : dict Customer :=
  [ ("CUST-123", {| name := "Alice Johnson"; is_premium := true; lifetime_value := 1250.00 |});
    ("CUST-456", {| name := "Bob Smith"; is_premium := false; lifetime_value := 89.99 |}) ].

(** [get_customer_context(customer_id)]: [CUSTOMERS_DB[customer_id]] raises
    [KeyError] for an unknown id. *)
Definition get_customer_context (customer_id : string) : outcome Models.CustomerContext :=
  match dict_lookup CUSTOMERS_DB customer_id with
  | None => Raise (KeyError customer_id)
  | Some customer =>
      Return {| Models.customer_id := customer_id;
                Models.customer_name := name customer;
                Models.is_premium := is_premium customer |}
  end.

End Config.

(** ** [tools.py] *)

Module Tools.

(** What a tool call can reach: the module-level [ORDERS_DB] and the
    [CustomerContext] object behind [wrapper.context]. *)
Record Store := {
  ORDERS_DB : dict Config.Order;
  context : Models.CustomerContext
}.

(** [wrapper.context] *)
Definition wrapper_context : M Store Models.CustomerContext := gets context.

(** [order_id in ORDERS_DB] *)
Definition db_contains (order_id : string) : M Store bool :=
  gets (fun s => dict_contains (ORDERS_DB s) order_id).

(** [ORDERS_DB[order_id]], a [KeyError] when the key is missing *)
Definition db_getitem (order_id : string) : M Store Config.Order :=
  let* db := gets ORDERS_DB in
  match dict_lookup db order_id with
  | Some order => ret order
  | None => raise (KeyError order_id)
  end.

(** [ORDERS_DB.items()] *)
Definition db_items : M Store (list (string * Config.Order)) := gets ORDERS_DB.

Definition lookup_order (order_id : string) : M Store string :=
  let* ctx := wrapper_context in
  let* present := db_contains order_id in
  if negb present then
    ret ("Order " +:+ order_id +:+ " not found.")
  else
    let* order := db_getitem order_id in
    if negb (String.eqb (Config.customer_id order) (Models.customer_id ctx)) then
      ret ("Order " +:+ order_id +:+ " does not belong to your account.")
    else
      ret (nl +:+
           "Order " +:+ order_id +:+ ":" +:+ nl +:+
           "- Item: " +:+ Config.item order +:+ nl +:+
           "- Price: $" +:+ format_2f (Config.price order) +:+ nl +:+
           "- Status: " +:+ upper (Config.status order) +:+ nl +:+
           "- Tracking: " +:+
             str_of (dict_get (Config.tracking order) (Some "Not yet available")) +:+ nl +:+
           "- ETA: " +:+
             str_of (dict_get (Config.eta order)
                       (dict_get (Config.delivered_date order) (Some "N/A"))) +:+ nl).

Definition list_customer_orders : M Store string :=
  let* ctx := wrapper_context in
  let* items := db_items in
  let customer_orders :=
    map (fun '(oid, o) =>
           "- " +:+ oid +:+ ": " +:+ Config.item o +:+
           " ($" +:+ format_2f (Config.price o) +:+ ") - " +:+ Config.status o)
        (List.filter (fun '(oid, o) =>
                        String.eqb (Config.customer_id o) (Models.customer_id ctx))
                     items) in
  match customer_orders with
  | [] => ret "No orders found for your account."
  | _ => ret ("Your orders:" +:+ nl +:+ join nl customer_orders)
  end.

(** the suffix [calculate_refund] adds when [price > 50] *)
Definition approval_note_text : string := " (Requires manager approval)".

Definition calculate_refund (order_id reason : string) : M Store string :=
  let* ctx := wrapper_context in
  let* present := db_contains order_id in
  if negb present then
    ret ("Order " +:+ order_id +:+ " not found.")
  else
    let* order := db_getitem order_id in
    if negb (String.eqb (Config.customer_id order) (Models.customer_id ctx)) then
      ret "This order does not belong to your account."
    else
      let price := Config.price order in
      let status := Config.status order in
      if String.eqb status "processing" then
        ret ("Order " +:+ order_id +:+ " can be cancelled for a full refund of $" +:+
             format_2f price +:+ ". Reason: " +:+ reason)
      else if String.eqb status "shipped" then
        if Models.is_premium ctx then
          ret ("Premium customer: Eligible for full refund of $" +:+ format_2f price +:+
               " upon return. Reason: " +:+ reason)
        else
          ret ("Order in transit. Please wait for delivery to request refund. Reason: " +:+
               reason)
      else if String.eqb status "delivered" then
        let requires_approval := PrimFloat.ltb 50 price in
        let approval_note := if requires_approval then approval_note_text else EmptyString in
        ret ("Refund eligible: $" +:+ format_2f price +:+ approval_note +:+
             ". Reason: " +:+ reason)
      else
        ret ("Unable to process refund for order " +:+ order_id).

Definition process_refund (order_id : string) : M Store string :=
  let* ctx := wrapper_context in
  let* present := db_contains order_id in
  if negb present then
    ret ("Order " +:+ order_id +:+ " not found.")
  else
    let* order := db_getitem order_id in
    let price := Config.price order in
    ret ("Refund processed successfully!" +:+ nl +:+
         "- Order: " +:+ order_id +:+ nl +:+
         "- Amount: $" +:+ format_2f price +:+ nl +:+
         "- Method: Original payment method" +:+ nl +:+
         "- Timeline: 3-5 business days" +:+ nl +:+
         nl +:+
         "Thank you for your patience, " +:+ Models.customer_name ctx +:+ "!").

End Tools.

(** ** [agents_def.py] *)

Module AgentsDef.

Record GuardrailFunctionOutput := {
  output_info : Models.AbuseCheck;
  tripwire_triggered : bool
}.

Section Guardrail.

(** [Runner.run(abuse_detector, input_data, context=ctx.context)] followed by
    [result.final_output_as(AbuseCheck)]: the framework runs the AbuseDetector
    agent on the input and parses its structured output, or raises. *)
Variable run_abuse_detector : string -> outcome Models.AbuseCheck.

Definition abuse_guardrail (input_data : string) : outcome GuardrailFunctionOutput :=
  match run_abuse_detector input_data with
  | Raise e => Raise e
  | Return check =>
      Return {| output_info := check;
                tripwire_triggered := Models.is_abusive check |}
  end.

End Guardrail.

End AgentsDef.

(** ** [app.py] *)

Module App.

(** What the handler does to the chat display, in order.  A [cl.Message] or
    [cl.Step] object is known by the number it got when it was constructed. *)
Inductive action :=
| MessageSend (widget : nat) (content : string)
| MessageStreamToken (widget : nat) (token : string)
| MessageUpdate (widget : nat)
| StepSend (widget : nat) (name input : option string)
| StepUpdate (widget : nat) (output : string).

Record UI := {
  next_widget : nat;
  log : list action
}.

(** constructing a [cl.Message] or a [cl.Step] *)
Definition new_widget : M UI nat :=
  fun ui => (Return (next_widget ui),
             {| next_widget := S (next_widget ui); log := log ui |}).

Definition emit (a : action) : M UI unit :=
  modify (fun ui => {| next_widget := next_widget ui; log := log ui ++ [a] |}).

(** [item.raw_item]: an object with attributes or a dict with keys; a held
    value is a string or [None]. *)
Inductive raw_item :=
| RawObject (attrs : dict (option string))
| RawDict (entries : dict (option string)).

(** [raw.key if hasattr(raw, "key") else raw.get("key", default)]: a dict has
    none of the attributes asked for, and an object that lacks the attribute
    has no [get] either. *)
Definition raw_field {S} (raw : raw_item) (key : string) (default : option string)
  : M S (option string) :=
  match raw with
  | RawObject attrs =>
      match dict_lookup attrs key with
      | Some v => ret v
      | None => raise (AttributeError "get")
      end
  | RawDict entries => ret (dict_get (dict_lookup entries key) default)
  end.

Inductive item :=
| ToolCallItem (raw : raw_item)
| ToolCallOutputItem (raw : raw_item) (output : string)
| OtherItem (type : string).

(** A stream event; [RawResponseEvent (Some delta)] carries a
    [ResponseTextDeltaEvent], [RawResponseEvent None] any other data. *)
Inductive event :=
| RunItemStreamEvent (it : item)
| RawResponseEvent (text_delta : option string)
| OtherEvent (type : string).

(** What [Runner.run_streamed(...).stream_events()] delivers: events, then the
    end of the stream or an exception. *)
Record stream := {
  events : list event;
  ending : option exn
}.

(** the handler's local variables [tool_steps] and [msg] *)
Record locals := {
  tool_steps : dict nat;
  msg : option nat
}.

(** [tool_steps[call_id] = step] *)
Fixpoint dict_set {V} (d : dict V) (key : string) (v : V) : dict V :=
  match d with
  | [] => [(key, v)]
  | (k, w) :: d' => if String.eqb key k then (k, v) :: d' else (k, w) :: dict_set d' key v
  end.

(** truth value of a call id: [None] and the empty string are false *)
Definition truthy (call_id : option string) : option string :=
  match call_id with
  | Some (String a s) => Some (String a s)
  | _ => None
  end.

Definition _ensure_msg (loc : locals) : M UI (locals * nat) :=
  match msg loc with
  | None =>
      let* m := new_widget in
      let* _ := emit (MessageSend m EmptyString) in
      ret ({| tool_steps := tool_steps loc; msg := Some m |}, m)
  | Some m => ret (loc, m)
  end.

(** the body of [async for event in result.stream_events()] *)
Definition handle_event (loc : locals) (ev : event) : M UI locals :=
  match ev with
  | RunItemStreamEvent (ToolCallItem raw) =>
      let* name := raw_field raw "name" (Some "tool") in
      let* call_id := raw_field raw "call_id" None in
      let* args := raw_field raw "arguments" (Some EmptyString) in
      let* step := new_widget in
      let* _ := emit (StepSend step name args) in
      match truthy call_id with
      | Some cid => ret {| tool_steps := dict_set (tool_steps loc) cid step; msg := msg loc |}
      | None => ret loc
      end
  | RunItemStreamEvent (ToolCallOutputItem raw output) =>
      let* call_id := raw_field raw "call_id" None in
      match truthy call_id with
      | Some cid =>
          match dict_lookup (tool_steps loc) cid with
          | Some step =>
              let* _ := emit (StepUpdate step output) in
              ret loc
          | None => ret loc
          end
      | None => ret loc
      end
  | RunItemStreamEvent (OtherItem _) => ret loc
  | RawResponseEvent (Some delta) =>
      let* '(loc', m) := _ensure_msg loc in
      let* _ := emit (MessageStreamToken m delta) in
      ret loc'
  | RawResponseEvent None => ret loc
  | OtherEvent _ => ret loc
  end.

Fixpoint stream_loop (loc : locals) (evs : list event) : M UI locals :=
  match evs with
  | [] => ret loc
  | ev :: evs' =>
      let* loc' := handle_event loc ev in
      stream_loop loc' evs'
  end.

Definition apology : string :=
  "I'm sorry, but I can't process messages that contain abusive or " +:+
  "inappropriate language. Please rephrase your request and I'll be " +:+
  "happy to help.".

Definition is_tripwire (e : exn) : bool :=
  match e with
  | InputGuardrailTripwireTriggered => true
  | _ => false
  end.

(** [on_message], given the stream that [Runner.run_streamed(triage_agent,
    message.content, context=ctx, session=session)] produces *)
Definition on_message (result : stream) : M UI unit :=
  try_except
    (let* loc := stream_loop {| tool_steps := []; msg := None |} (events result) in
     match ending result with
     | Some e => raise e
     | None =>
         match msg loc with
         | Some m => emit (MessageUpdate m)
         | None => ret tt
         end
     end)
    (fun e =>
       if is_tripwire e then
         Some (let* m := new_widget in
               emit (MessageSend m apology))
       else None).

End App.

(** ** [filesystem_agent.py] *)

Module FilesystemAgent.

Definition FILE_CATEGORIES : dict string :=
  [ (".pdf", "Documents/PDFs"); (".doc", "Documents/Word"); (".docx", "Documents/Word");
    (".txt", "Documents/Text"); (".rtf", "Documents/Text"); (".md", "Documents/Markdown");
    (".xls", "Spreadsheets"); (".xlsx", "Spreadsheets"); (".csv", "Spreadsheets");
    (".jpg", "Images"); (".jpeg", "Images"); (".png", "Images"); (".gif", "Images");
    (".svg", "Images"); (".webp", "Images"); (".heic", "Images");
    (".mp4", "Videos"); (".mov", "Videos"); (".avi", "Videos"); (".mkv", "Videos");
    (".webm", "Videos");
    (".mp3", "Audio"); (".wav", "Audio"); (".flac", "Audio"); (".m4a", "Audio");
    (".aac", "Audio");
    (".zip", "Archives"); (".rar", "Archives"); (".7z", "Archives"); (".tar", "Archives");
    (".gz", "Archives");
    (".py", "Code/Python"); (".js", "Code/JavaScript"); (".ts", "Code/TypeScript");
    (".html", "Code/Web"); (".css", "Code/Web"); (".json", "Code/Data");
    (".yaml", "Code/Data"); (".yml", "Code/Data");
    (".dmg", "Installers"); (".pkg", "Installers"); (".exe", "Installers");
    (".msi", "Installers"); (".app", "Applications") ].

(** [FILE_CATEGORIES.get(extension, "Other")] *)
Definition category_of (extension : string) : string :=
  dict_get (dict_lookup FILE_CATEGORIES extension) "Other".

(** [Path.suffix] of a file name: from the last dot, unless that dot starts
    or ends the name *)
Definition suffix (name : string) : string :=
  match rfind_dot name with
  | Some (S i) => if (S i <? String.length name - 1)%nat then drop_chars (S i) name else EmptyString
  | _ => EmptyString
  end.

(** [Path.stem] *)
Definition stem (name : string) : string :=
  match rfind_dot name with
  | Some (S i) => if (S i <? String.length name - 1)%nat then take_chars (S i) name else name
  | _ => name
  end.

(** the path ends in a slash, as a root does *)
Fixpoint ends_with_slash (p : string) : bool :=
  match p with
  | EmptyString => false
  | String c EmptyString => Ascii.eqb c "/"
  | String _ p' => ends_with_slash p'
  end.

(** [str(p / name)] for a path [p] as [str()] gives it and a relative
    [name]: the current directory ["."] disappears, and no second slash
    follows a root *)
Definition joinpath (p name : string) : string :=
  if String.eqb p "." then name
  else if ends_with_slash p then p +:+ name
  else p +:+ "/" +:+ name.

Record stat_result := {
  st_size : Z;
  st_mtime : Z
}.

(** What a path names: a directory, or a file whose [stat()] gives a result
    or raises [OSError] with a message. *)
Inductive node :=
| Dir
| File (stat : string + stat_result).

(** The file system: what each existing path names, by the path as [str()]
    gives it.  The order of the entries is the order in which a directory
    listing yields them.  Every path can be examined: [exists()], [is_dir()]
    and [iterdir()] answer, and the errors they raise on a path that cannot
    be reached or listed are not part of this model. *)
Record FS := {
  nodes : dict node
}.

Definition path_exists (fs : FS) (p : string) : bool := dict_contains (nodes fs) p.

Definition is_dir (fs : FS) (p : string) : bool :=
  match dict_lookup (nodes fs) p with
  | Some Dir => true
  | _ => false
  end.

(** the name of [p] inside [folder], when [p] is one of its entries *)
Definition child_name (folder p : string) : option string :=
  let prefix :=
    if String.eqb folder "." then EmptyString
    else if ends_with_slash folder then folder
    else folder +:+ "/" in
  if startswith prefix p then
    let name := drop_chars (String.length prefix) p in
    match name with
    | EmptyString => None
    | _ => if has_char "/" name || String.eqb name "." then None else Some name
    end
  else None.

(** [folder.iterdir()]: the names in [folder], listed before the loop runs *)
Definition iterdir (fs : FS) (folder : string) : list string :=
  omap (fun '(p, _) => child_name folder p) (nodes fs).

Inductive file_info :=
| FileInfo (name extension : string) (size_mb : float) (modified_date category full_path : string)
| FileError (name error : string).

Inductive scan_report :=
| ScanError (error : string)
| ScanReport (folder : string) (total_files : nat) (files : list file_info).

Record cleanup_action := {
  file_name : string;
  action : string;
  source : option string;
  destination : option string;
  reason : string
}.

Inductive cleanup_report :=
| CleanupError (error : string)
| CleanupReport (mode source_folder : string)
    (total_files_processed files_organized files_skipped : nat)
    (actions : list cleanup_action).

Section Tools.

(** [str(Path(p).expanduser())] *)
Variable expanduser : string -> string.
(** [s.lower()] *)
Variable str_lower : string -> string.
(** [round(st_size / (1024 * 1024), 2)] *)
Variable size_mb_of : Z -> float.
(** [datetime.fromtimestamp(st_mtime).strftime("%Y-%m-%d %H:%M")]: the
    text, or the message of the [OSError] that [fromtimestamp] raises.  A
    time stamp beyond the years a [datetime] holds, for which it raises
    [ValueError] or [OverflowError] instead, is not part of this model. *)
Variable format_mtime : Z -> string + string.
(** [datetime.now().strftime("%Y%m%d_%H%M%S")], read while the given item is handled *)
Variable timestamp_now : string -> string.
(** [dest_folder.mkdir(parents=True, exist_ok=True)] *)
Variable mkdir_parents : string -> M FS unit.
(** [shutil.move(src, dst)] *)
Variable shutil_move : string -> string -> M FS unit.
(** [str(e)] for a caught exception *)
Variable str_exn : exn -> string.

(** the body of the loop of [scan_folder] *)
Definition scan_item (fs : FS) (folder : string) (include_hidden : bool)
    (files_info : list file_info) (name : string) : list file_info :=
  let item := joinpath folder name in
  if is_dir fs item then files_info
  else if negb include_hidden && startswith "." name then files_info
  else
    match dict_lookup (nodes fs) item with
    | Some (File (inr stat)) =>
        let extension := str_lower (suffix name) in
        let category := category_of extension in
        let size_mb := size_mb_of (st_size stat) in
        match format_mtime (st_mtime stat) with
        | inr modified_date =>
            files_info ++ [FileInfo name extension size_mb modified_date category item]
        | inl e => files_info ++ [FileError name e]
        end
    | Some (File (inl e)) => files_info ++ [FileError name e]
    | _ => files_info ++ [FileError name "No such file or directory"]
    end.

Definition scan_folder (folder_path : string) (include_hidden : bool) : M FS scan_report :=
  let folder := expanduser folder_path in
  let* fs := gets id in
  if negb (path_exists fs folder) then
    ret (ScanError ("Folder does not exist: " +:+ folder_path))
  else if negb (is_dir fs folder) then
    ret (ScanError ("Path is not a folder: " +:+ folder_path))
  else
    let files_info := fold_left (scan_item fs folder include_hidden) (iterdir fs folder) [] in
    ret (ScanReport folder (length files_info) files_info).

(** the accumulators of the loop of [organize_files] *)
Record tally := {
  actions : list cleanup_action;
  moved_count : nat;
  skipped_count : nat
}.

(** the body of the loop of [organize_files] *)
Definition organize_item (folder : string) (dry_run : bool) (acc : tally) (name : string)
  : M FS tally :=
  let item := joinpath folder name in
  let* fs := gets id in
  if is_dir fs item then ret acc
  else if startswith "." name then
    ret {| actions := actions acc ++
             [{| file_name := name; action := "skipped"; source := None;
                 destination := None; reason := "Hidden file" |}];
           moved_count := moved_count acc;
           skipped_count := S (skipped_count acc) |}
  else
    let extension := str_lower (suffix name) in
    let category := category_of extension in
    let dest_folder := joinpath folder category in
    let dest_path := joinpath dest_folder name in
    let dest_path :=
      if path_exists fs dest_path then
        joinpath dest_folder (stem name +:+ "_" +:+ timestamp_now item +:+ extension)
      else dest_path in
    if dry_run then
      ret {| actions := actions acc ++
               [{| file_name := name; action := "would_move"; source := Some item;
                   destination := Some dest_path;
                   reason := "Categorized as " +:+ category |}];
             moved_count := S (moved_count acc);
             skipped_count := skipped_count acc |}
    else
      try_except
        (let* _ := mkdir_parents dest_folder in
         let* _ := shutil_move item dest_path in
         ret {| actions := actions acc ++
                  [{| file_name := name; action := "moved"; source := Some item;
                      destination := Some dest_path;
                      reason := "Categorized as " +:+ category |}];
                moved_count := S (moved_count acc);
                skipped_count := skipped_count acc |})
        (fun e =>
           Some (ret {| actions := actions acc ++
                          [{| file_name := name; action := "error"; source := Some item;
                              destination := None; reason := str_exn e |}];
                        moved_count := moved_count acc;
                        skipped_count := S (skipped_count acc) |})).

Fixpoint organize_loop (folder : string) (dry_run : bool) (acc : tally) (names : list string)
  : M FS tally :=
  match names with
  | [] => ret acc
  | name :: names' =>
      let* acc' := organize_item folder dry_run acc name in
      organize_loop folder dry_run acc' names'
  end.

Definition organize_files (source_folder : string) (dry_run : bool) : M FS cleanup_report :=
  let folder := expanduser source_folder in
  let* fs := gets id in
  if negb (path_exists fs folder) || negb (is_dir fs folder) then
    ret (CleanupError ("Invalid folder: " +:+ source_folder))
  else
    let* acc :=
      organize_loop folder dry_run
        {| actions := []; moved_count := 0; skipped_count := 0 |} (iterdir fs folder) in
    let mode := if dry_run then "DRY RUN" else "EXECUTED" in
    ret (CleanupReport mode folder
           (moved_count acc + skipped_count acc) (moved_count acc) (skipped_count acc)
           (actions acc)).

End Tools.

End FilesystemAgent.

(** ** [data_dashboard_agent.py]: the outlier check of [detect_anomalies] *)

Module DataDashboardAgent.

(** A DataFrame column.  A column of a number dtype is kept as the float64
    values it is compared as, where NaN is the null value; a text column as
    its strings, where [None] is the null value.  Of a column of any other
    dtype (bool, datetime, objects that are not strings) only the number of
    non-null values is kept: what pandas computes on it is left to the
    library. *)
Inductive column :=
| Numeric (values : list float)
| Object (values : list (option string))
| OtherDtype (non_null : nat).

(** The frame read from the file: its columns by name, with the default
    index [0 .. len(df) - 1]. *)
Definition DataFrame : Type := dict column.

Definition is_numeric (c : column) : bool :=
  match c with
  | Numeric _ => true
  | Object _ => false
  | OtherDtype _ => false
  end.

(** [df.select_dtypes(include=[np.number]).columns.tolist()] *)
Definition numeric_column_names (df : DataFrame) : list string :=
  map fst (List.filter (fun '(_, c) => is_numeric c) df).

(** [series.dropna()] on float64 values *)
Definition dropna (values : list float) : list float :=
  List.filter (fun v => negb (PrimFloat.is_nan v)) values.

(** [len(df[col].dropna())] *)
Definition count_non_null (c : column) : nat :=
  match c with
  | Numeric values => length (dropna values)
  | Object values => length (List.filter (fun v => match v with Some _ => true | None => false end) values)
  | OtherDtype non_null => non_null
  end.

(** [(v < lower_bound) | (v > upper_bound)] for one cell; both comparisons
    are false on NaN *)
Definition out_of_bounds (lower_bound upper_bound v : float) : bool :=
  PrimFloat.ltb v lower_bound || PrimFloat.ltb upper_bound v.

(** the index labels of the rows that a boolean mask selects *)
Fixpoint selected_from (i : nat) (mask : list bool) : list nat :=
  match mask with
  | [] => []
  | b :: mask' => if b then i :: selected_from (S i) mask' else selected_from (S i) mask'
  end.

(** The entry appended to [anomalies] for a column with outliers.  The
    ["recommendation"] text quotes [round(lower_bound, 2)] and
    [round(upper_bound, 2)]; the entry keeps the two bounds themselves. *)
Record outlier_anomaly := {
  type : string;
  description : string;
  location : string;
  severity : string;
  lower_bound : float;
  upper_bound : float;
  outlier_indices : list nat
}.

Section Outliers.

(** [data.quantile(q)] of pandas on the non-null values *)
Variable quantile : list float -> float -> float.
(** the rest of the loop body, from [data.quantile(0.25)] on, for a column
    that is neither of a number dtype nor text: the anomaly it appends, if
    any, or the exception pandas raises *)
Variable other_dtype_check : DataFrame -> string -> outcome (option outlier_anomaly).
(** [c.strip()] *)
Variable str_strip : string -> string.

(** the body of [for col in cols_to_check]; [None] stands for [continue] and
    for a column without outliers *)
Definition check_column (df : DataFrame) (col : string) : outcome (option outlier_anomaly) :=
  match dict_lookup df col with
  | None => Return None
  | Some c =>
      if (count_non_null c <? 10)%nat then Return None
      else
        match c with
        | Object _ => Raise (OtherException "TypeError")
        | OtherDtype _ => other_dtype_check df col
        | Numeric values =>
            let data := dropna values in
            let Q1 := quantile data 0.25 in
            let Q3 := quantile data 0.75 in
            let IQR := PrimFloat.sub Q3 Q1 in
            let lower_bound := PrimFloat.sub Q1 (PrimFloat.mul 1.5 IQR) in
            let upper_bound := PrimFloat.add Q3 (PrimFloat.mul 1.5 IQR) in
            let outliers := selected_from 0 (map (out_of_bounds lower_bound upper_bound) values) in
            if (0 <? length outliers)%nat then
              Return (Some
                {| type := "outliers";
                   description := "Column '" +:+ col +:+ "' has " +:+
                                  digits (Z.of_nat (length outliers)) +:+ " potential outliers";
                   location := "Column: " +:+ col;
                   severity := if (length outliers <? 5)%nat then "low" else "medium";
                   lower_bound := lower_bound;
                   upper_bound := upper_bound;
                   outlier_indices := take 10 outliers |})
            else Return None
        end
  end.

(** [cols_to_check] *)
Definition cols_to_check (df : DataFrame) (numeric_columns : option string) : list string :=
  match numeric_columns with
  | Some (String a s) => map str_strip (split_comma (String a s))
  | _ => numeric_column_names df
  end.

Fixpoint check_columns (df : DataFrame) (cols : list string) (anomalies : list outlier_anomaly)
  : outcome (list outlier_anomaly) :=
  match cols with
  | [] => Return anomalies
  | col :: cols' =>
      match check_column df col with
      | Raise e => Raise e
      | Return None => check_columns df cols' anomalies
      | Return (Some a) => check_columns df cols' (anomalies ++ [a])
      end
  end.

(** the block "Check numeric columns for outliers using IQR method" of
    [detect_anomalies], on the frame [df] read from the file *)
Definition detect_outliers (df : DataFrame) (numeric_columns : option string)
  : outcome (list outlier_anomaly) :=
  check_columns df (cols_to_check df numeric_columns) [].

End Outliers.

End DataDashboardAgent.

(** ** Concrete inputs used below *)

Module Demo.

(** the context [on_chat_start] builds with [get_customer_context("CUST-123")] *)
Definition alice : Models.CustomerContext :=
  {| Models.customer_id := "CUST-123";
     Models.customer_name := "Alice Johnson";
     Models.is_premium := true |}.

(** [get_customer_context("CUST-456")] *)
Definition bob : Models.CustomerContext :=
  {| Models.customer_id := "CUST-456";
     Models.customer_name := "Bob Smith";
     Models.is_premium := false |}.

(** [ORDERS_DB] as built on 2026-11-03 *)
Definition orders : dict Config.Order := Config.ORDERS_DB "2026-11-05" "2026-10-31".

Definition alice_store : Tools.Store := {| Tools.ORDERS_DB := orders; Tools.context := alice |}.
Definition bob_store : Tools.Store := {| Tools.ORDERS_DB := orders; Tools.context := bob |}.

Definition ORD_001 : Config.Order :=
  {| Config.customer_id := "CUST-123"; Config.item := "Wireless Headphones";
     Config.price := 79.99; Config.status := "shipped";
     Config.tracking := Some (Some "1Z999AA10123456784");
     Config.eta := Some (Some "2026-11-05"); Config.delivered_date := None |}.

Definition ORD_002 : Config.Order :=
  {| Config.customer_id := "CUST-123"; Config.item := "Phone Case";
     Config.price := 19.99; Config.status := "delivered";
     Config.tracking := Some (Some "1Z999AA10123456785");
     Config.eta := None; Config.delivered_date := Some (Some "2026-10-31") |}.

Definition ORD_003 : Config.Order :=
  {| Config.customer_id := "CUST-456"; Config.item := "USB Cable";
     Config.price := 12.99; Config.status := "processing";
     Config.tracking := Some None;
     Config.eta := Some (Some "Pending shipment"); Config.delivered_date := None |}.

(** when the text starts like the details block of [lookup_order] *)
Definition is_order_details (order_id text : string) : bool :=
  startswith (nl +:+ "Order " +:+ order_id +:+ ":" +:+ nl +:+ "- Item: ") text.

End Demo.

(** ** Notions used to state the properties of the chat handler *)

Module AppTrace.

Import App.

(** the locals [on_message] starts with: [tool_steps = {}], [msg = None] *)
Definition initial_locals : locals := {| tool_steps := []; msg := None |}.

(** the call id the handler reads from a raw item, when it reads one and the
    value is true *)
Definition call_id_of (raw : raw_item) : option string :=
  match fst (raw_field raw "call_id" None tt) with
  | Return call_id => truthy call_id
  | Raise _ => None
  end.

(** the text deltas among the events, in order *)
Fixpoint text_deltas (evs : list event) : list string :=
  match evs with
  | [] => []
  | RawResponseEvent (Some delta) :: evs' => delta :: text_deltas evs'
  | _ :: evs' => text_deltas evs'
  end.

Definition is_message_action (a : action) : bool :=
  match a with
  | MessageSend _ _ | MessageStreamToken _ _ | MessageUpdate _ => true
  | StepSend _ _ _ | StepUpdate _ _ => false
  end.

(** the actions on message widgets among the logged ones *)
Definition message_actions (l : list action) : list action := List.filter is_message_action l.

(** What the display shows of the deltas [ds] when the widget is [m] before
    them and [w] is the widget created if there is none: one send of an empty
    message, then one token per delta, all on the same widget. *)
Definition message_trace (m : option nat) (w : nat) (ds : list string) : list action :=
  match m, ds with
  | Some w0, _ => map (MessageStreamToken w0) ds
  | None, [] => []
  | None, _ :: _ => MessageSend w EmptyString :: map (MessageStreamToken w) ds
  end.

(** the value of [msg] after these deltas *)
Definition message_after (m : option nat) (w : nat) (ds : list string) : option nat :=
  match m, ds with
  | Some w0, _ => Some w0
  | None, [] => None
  | None, _ :: _ => Some w
  end.

(** the widget that holds the text when two runs of deltas follow each other *)
Definition first_widget (m : option nat) (ds : list string) (w1 w2 : nat) : nat :=
  match m, ds with
  | None, _ :: _ => w1
  | _, _ => w2
  end.

(** a tool call carrying the call id of [raw] is among the events [pre] *)
Definition called_before (pre : list event) (raw : raw_item) : Prop :=
  exists cid raw',
    call_id_of raw = Some cid /\
    In (RunItemStreamEvent (ToolCallItem raw')) pre /\
    call_id_of raw' = Some cid.

(** the stream in which the guardrail trips after the events [evs] *)
Definition tripped_after (evs : list event) : stream :=
  {| events := evs; ending := Some InputGuardrailTripwireTriggered |}.

End AppTrace.

(** ** Notions used to state the properties of the filesystem tools *)

Module CleanupSpec.

Import FilesystemAgent.

(** an entry of [folder] that is not a directory and whose name starts with a dot *)
Definition hidden_file (fs : FS) (folder name : string) : bool :=
  negb (is_dir fs (joinpath folder name)) && startswith "." name.

(** an entry of [folder] that is not a directory and is not hidden *)
Definition plain_file (fs : FS) (folder name : string) : bool :=
  negb (is_dir fs (joinpath folder name)) && negb (startswith "." name).




(** Stand-ins for the library calls on the folders below: a path without a
    tilde expands to itself, files of a few kB round to 0.0 MB, and the moves
    are never attempted in a dry run. *)
Definition absolute_path (p : string) : string := p.
Definition few_kilobytes (st_size : Z) : float := 0.
Definition clock_reading (item : string) : string := "20261103_101500".
Definition mtime_text (st_mtime : Z) : string + string := inr "2023-11-14 22:13".
Definition mkdir_ok (p : string) : M FS unit := ret tt.
Definition move_ok (src dst : string) : M FS unit := ret tt.
Definition exn_text (e : exn) : string := "error".

(** a folder with an upper-case PDF, a lower-case one, a hidden file and a
    subfolder *)
Definition downloads : FS :=
  {| nodes :=
       [ ("/home/u/Downloads", Dir);
         ("/home/u/Downloads/Report.PDF", File (inr {| st_size := 2048; st_mtime := 1700000000 |}));
         ("/home/u/Downloads/.DS_Store", File (inr {| st_size := 10; st_mtime := 1700000001 |}));
         ("/home/u/Downloads/old", Dir);
         ("/home/u/Downloads/notes.pdf", File (inr {| st_size := 512; st_mtime := 1700000002 |})) ] |}.

(** the current directory, by relative paths: a text file whose name is
    taken in the folder of its category, and a hidden file *)
Definition here : FS :=
  {| nodes :=
       [ (".", Dir);
         ("a.TXT", File (inr {| st_size := 2048; st_mtime := 1700000000 |}));
         ("Documents", Dir);
         ("Documents/Text", Dir);
         ("Documents/Text/a.TXT", File (inr {| st_size := 1; st_mtime := 1700000000 |}));
         (".hidden", File (inr {| st_size := 10; st_mtime := 1700000001 |})) ] |}.

End CleanupSpec.

(** ** Notions used to state the property of the outlier check *)

Module OutlierSpec.

Import DataDashboardAgent.

(** The IQR rule: with [IQR = Q3 - Q1], the value lies strictly below
    [Q1 - 1.5 * IQR] or strictly above [Q3 + 1.5 * IQR]. *)
Definition iqr_outlier (Q1 Q3 v : float) : Prop :=
  let IQR := PrimFloat.sub Q3 Q1 in
  PrimFloat.ltb v (PrimFloat.sub Q1 (PrimFloat.mul 1.5 IQR)) = true \/
  PrimFloat.ltb (PrimFloat.add Q3 (PrimFloat.mul 1.5 IQR)) v = true.

Fixpoint insert_sorted (x : float) (l : list float) : list float :=
  match l with
  | [] => [x]
  | y :: l' => if PrimFloat.leb x y then x :: l else y :: insert_sorted x l'
  end.

Definition float_of_nat (n : nat) : float := PrimFloat.of_uint63 (Uint63.of_Z (Z.of_nat n)).

(** Stand-in for [Series.quantile] in the example below: linear interpolation
    between the two closest ranks of the sorted values. *)
Definition quantile_linear (data : list float) (q : float) : float :=
  let sorted := fold_right insert_sorted [] data in
  let h := PrimFloat.mul (float_of_nat (length data - 1)) q in
  let below :=
    length (List.filter (fun k => PrimFloat.leb (float_of_nat k) h) (seq 1 (length data - 1))) in
  let lo := nth below sorted PrimFloat.nan in
  let hi := nth (S below) sorted lo in
  PrimFloat.add lo (PrimFloat.mul (PrimFloat.sub h (float_of_nat below)) (PrimFloat.sub hi lo)).

(** Stand-in for pandas on a column of another dtype: it gives up. *)
Definition dtype_refused (df : DataFrame) (col : string) : outcome (option outlier_anomaly) :=
  Raise (OtherException "TypeError").

(** a frame of eleven rows: daily totals, the last one far from the others,
    and a column that is null except in three rows *)
Definition sales : DataFrame :=
  [ ("units", Numeric [10; 11; 12; 13; 14; 15; 16; 17; 18; 19; 100]%float);
    ("returns", Numeric [1; 2; 900; nan; nan; nan; nan; nan; nan; nan; nan]%float) ].

End OutlierSpec.

(** ** Notions used to state further properties of the tools *)

Module ToolsNotions.

(** the entry of [ORDERS_DB] belongs to the customer *)
Definition owned_by (customer : string) (entry : string * Config.Order) : bool :=
  String.eqb (Config.customer_id (snd entry)) customer.

(** the customer's entries of [ORDERS_DB], in its order *)
Definition orders_of (customer : string) (db : dict Config.Order) : dict Config.Order :=
  List.filter (owned_by customer) db.

(** the same database seen by another caller *)
Definition as_caller (caller : Models.CustomerContext) (s : Tools.Store) : Tools.Store :=
  {| Tools.ORDERS_DB := Tools.ORDERS_DB s; Tools.context := caller |}.

(** two calls of [process_refund] for the same order, one after the other *)
Definition refund_twice (order_id : string) : M Tools.Store (string * string) :=
  let* first := Tools.process_refund order_id in
  let* second := Tools.process_refund order_id in
  ret (first, second).

(** the confirmation [process_refund] returns for an order of this price *)
Definition refund_confirmation (order_id : string) (price : float) (customer_name : string)
  : string :=
  "Refund processed successfully!" +:+ nl +:+
  "- Order: " +:+ order_id +:+ nl +:+
  "- Amount: $" +:+ format_2f price +:+ nl +:+
  "- Method: Original payment method" +:+ nl +:+
  "- Timeline: 3-5 business days" +:+ nl +:+
  nl +:+
  "Thank you for your patience, " +:+ customer_name +:+ "!".

(** Alice's database with an order of hers in a status the refund rules do
    not know *)
Definition returned_store : Tools.Store :=
  {| Tools.ORDERS_DB :=
       [ ("ORD-009",
          {| Config.customer_id := "CUST-123"; Config.item := "Desk Lamp";
             Config.price := 34.5; Config.status := "returned";
             Config.tracking := None; Config.eta := None;
             Config.delivered_date := None |}) ];
     Tools.context := Demo.alice |}.

(** the text a tool returned, empty for a raised exception *)
Definition returned_text (r : outcome string) : string :=
  match r with
  | Return text => text
  | Raise _ => EmptyString
  end.

End ToolsNotions.

(** ** Notions used to state further properties of the chat handler *)

Module AppNotions.

Import App.

(** Every [StepUpdate] of the log is for a step that an earlier [StepSend]
    of the log, or one of [sent], put on display. *)
Fixpoint updates_follow_sends (sent : list nat) (l : list action) : Prop :=
  match l with
  | [] => True
  | StepSend w _ _ :: l' => updates_follow_sends (w :: sent) l'
  | StepUpdate w _ :: l' => In w sent /\ updates_follow_sends sent l'
  | _ :: l' => updates_follow_sends sent l'
  end.

(** the stream that ends normally after the events [evs] *)
Definition completed (evs : list event) : stream := {| events := evs; ending := None |}.

(** the stream in which the exception [e] is raised after the events [evs] *)
Definition failed_after (evs : list event) (e : exn) : stream :=
  {| events := evs; ending := Some e |}.

(** a function tool call as the framework delivers it *)
Definition function_call (name call_id arguments : string) : event :=
  RunItemStreamEvent (ToolCallItem
    (RawObject [("name", Some name); ("call_id", Some call_id); ("arguments", Some arguments)])).

(** the output of the call with this call id *)
Definition function_output (call_id output : string) : event :=
  RunItemStreamEvent (ToolCallOutputItem (RawDict [("call_id", Some call_id)]) output).

Definition empty_display : UI := {| next_widget := 0; log := [] |}.

End AppNotions.

(** ** [filesystem_agent.py]: [get_folder_summary] *)

Module FolderSummary.

Import FilesystemAgent.






Section Tool.

(** [str(Path(p).expanduser())] *)
Variable expanduser : string -> string.
(** [s.lower()] *)
Variable str_lower : string -> string.
(** [st_size / (1024 * 1024)] *)
Variable size_in_mb : Z -> float.
(** [round(x, 2)] of a float *)
Variable round_2 : float -> float.




End Tool.

End FolderSummary.

(** ** Notions used to state further properties of the filesystem tools *)

Module FilesystemNotions.

Import FilesystemAgent FolderSummary.

(** the name an entry of a scan report is about *)
Definition info_name (f : file_info) : string :=
  match f with
  | FileInfo name _ _ _ _ _ => name
  | FileError name _ => name
  end.

(** an entry of [folder] that [scan_folder] lists: not a directory, and not
    hidden unless hidden files are asked for *)
Definition listed (fs : FS) (folder : string) (include_hidden : bool) (name : string) : bool :=
  negb (is_dir fs (joinpath folder name)) && (include_hidden || negb (startswith "." name)).

(** the action is a move, proposed or done *)
Definition moves (a : cleanup_action) : bool :=
  String.eqb (action a) "would_move" || String.eqb (action a) "moved".

(** the action leaves the file where it is *)
Definition stays (a : cleanup_action) : bool :=
  String.eqb (action a) "skipped" || String.eqb (action a) "error".

(** a move is for a file that is not hidden, from its place in the folder to
    a path below the folder of its category; a skip is for a hidden file *)
Definition well_placed (str_lower : string -> string) (folder : string)
    (a : cleanup_action) : Prop :=
  (moves a = true ->
   startswith "." (file_name a) = false /\
   source a = Some (joinpath folder (file_name a)) /\
   exists dest,
     destination a = Some dest /\
     startswith (joinpath folder (category_of (str_lower (suffix (file_name a)))) +:+ "/") dest
     = true) /\
  (action a = "skipped" -> startswith "." (file_name a) = true).

(** the counters of [organize_files] count the actions: the moves and the
    files left where they are *)
Definition tally_counts (acc : tally) : Prop :=
  moved_count acc = length (List.filter moves (actions acc)) /\
  skipped_count acc = length (List.filter stays (actions acc)) /\
  length (actions acc) = (moved_count acc + skipped_count acc)%nat.


(** a name fit for a path component that [joinpath] keeps apart from what
    follows: not empty, not the current directory, no slash at its end *)
Definition proper_name (name : string) : bool :=
  negb (String.eqb name EmptyString) && negb (String.eqb name ".") &&
  negb (ends_with_slash name).






(** a library whose calls all fail *)
Definition mkdir_denied (p : string) : M FS unit := raise (OtherException "Permission denied").


End FilesystemNotions.

(** ** Notions used to state further properties of the outlier check *)

Module OutlierNotions.

Import DataDashboardAgent.

(** a text column with enough non-null values for its quantiles to be asked
    for *)
Definition unsuitable (df : DataFrame) (col : string) : Prop :=
  exists values,
    dict_lookup df col = Some (Object values) /\
    (10 <= count_non_null (Object values))%nat.

(** a column of the frame with enough non-null values to be checked *)
Definition checked (df : DataFrame) (col : string) : bool :=
  match dict_lookup df col with
  | Some c => negb (count_non_null c <? 10)%nat
  | None => false
  end.

(** a frame whose "notes" column is text in every one of its eleven rows *)
Definition journal : DataFrame :=
  [ ("units", Numeric [10; 11; 12; 13; 14; 15; 16; 17; 18; 19; 100]%float);
    ("notes", Object [Some "a"; Some "b"; Some "c"; Some "d"; Some "e"; Some "f";
                      Some "g"; Some "h"; Some "i"; Some "j"; Some "k"]) ].

(** a column with a null in row 3 and a far value in row 11 *)
Definition readings : DataFrame :=
  [ ("level", Numeric [10; 11; 12; nan; 13; 14; 15; 16; 17; 18; 19; 100]%float) ].

End OutlierNotions.

(** ** [data_dashboard_agent.py]: loading a file, [load_and_analyze_data] and
       [create_visualization] *)

Module DataFiles.

Import DataDashboardAgent.

(** [s.endswith(suffix)] *)
Definition endswith (suffix s : string) : bool :=
  (String.length suffix <=? String.length s)%nat &&
  String.eqb (drop_chars (String.length s - String.length suffix) s) suffix.

(** [s.capitalize()] on ASCII letters *)
Definition capitalize (s : string) : string :=
  match s with
  | EmptyString => EmptyString
  | String c s' => String (upper_char c) (lower s')
  end.

(** truth value of an optional string argument: [None] and the empty string
    are false *)
Definition given (arg : option string) : option string :=
  match arg with
  | Some (String a s) => Some (String a s)
  | _ => None
  end.

Inductive overview :=
| OverviewError (error : string)
| Overview (file_name : string) (row_count column_count : nat)
    (columns : list (string * string)) (memory_usage_mb : float).

Inductive chart :=
| ChartError (error : string)
| ChartSaved (chart_type output_path message : string).

(** What is asked of matplotlib, by the columns of the frame it is given. *)
Inductive plot_call :=
| Subplots
| PlotXY (x_column y_column : string)
| PlotX (x_column : string)
| BarXY (x_column y_column : string)
| BarCounts (x_column : string)
| ScatterXY (x_column y_column : string)
| Hist (x_column : string)
| Boxplot (x_column : string)
| SetYLabel (label : string)
| SetXLabel (label : string)
| SetTitle (title : string)
| XTicks
| TightLayout
| SaveFig (path : string)
| Close.

Section Tools.

(** [os.path.expanduser] and [os.path.basename] *)
Variable expanduser : string -> string.
Variable basename : string -> string.
(** [pd.read_csv] and [pd.read_excel] *)
Variable read_csv : string -> outcome DataFrame.
Variable read_excel : string -> outcome DataFrame.
(** whether [import pandas] (and matplotlib) succeeds *)
Variable installed : bool.
(** [len(df)] *)
Variable row_count_of : DataFrame -> nat.
(** the statistics of one column (data type, counts, sample values, and
    minimum to standard deviation for a numeric one), kept as their JSON
    text; computing them may raise *)
Variable describe_column : column -> outcome string.
(** [round(df.memory_usage(deep=True).sum() / 1024 / 1024, 2)] *)
Variable memory_usage_mb_of : DataFrame -> float.
(** [str(e)] for a caught exception *)
Variable str_exn : exn -> string.
(** matplotlib, asked for a call after the calls made so far: the exception
    it raises, if it does *)
Variable refuses : list plot_call -> plot_call -> option exn.

(** the uncaught part of a tool body, run as an [outcome] *)
Definition lift {S A} (r : outcome A) : M S A :=
  match r with
  | Return a => ret a
  | Raise e => raise e
  end.

(** the loop [for col in df.columns] *)
Fixpoint describe_columns (df : DataFrame) : outcome (list (string * string)) :=
  match df with
  | [] => Return []
  | (col, col_data) :: df' =>
      match describe_column col_data with
      | Raise e => Raise e
      | Return col_stats =>
          match describe_columns df' with
          | Raise e => Raise e
          | Return columns => Return ((col, col_stats) :: columns)
          end
      end
  end.

Definition load_and_analyze_data (file_path : string) : outcome overview :=
  if negb installed then
    Return (OverviewError "pandas not installed. Run: pip install pandas openpyxl")
  else
    let file_path := expanduser file_path in
    let loaded :=
      if endswith ".csv" file_path then Some (read_csv file_path)
      else if endswith ".xlsx" file_path || endswith ".xls" file_path
           then Some (read_excel file_path)
      else None in
    match loaded with
    | None => Return (OverviewError "Unsupported file format. Use CSV or XLSX.")
    | Some (Raise e) => Return (OverviewError ("Error loading file: " +:+ str_exn e))
    | Some (Return df) =>
        match describe_columns df with
        | Raise e => Return (OverviewError ("Error loading file: " +:+ str_exn e))
        | Return columns =>
            Return (Overview (basename file_path) (row_count_of df) (length df)
                      columns (memory_usage_mb_of df))
        end
    end.

(** one call into matplotlib: it is made, or it raises and leaves no trace *)
Definition call (c : plot_call) : M (list plot_call) unit :=
  fun made =>
    match refuses made c with
    | Some e => (Raise e, made)
    | None => (Return tt, made ++ [c])
    end.

(** [df[col]], a [KeyError] for a name that is no column *)
Definition getitem {S} (df : DataFrame) (col : string) : M S column :=
  match dict_lookup df col with
  | Some c => ret c
  | None => raise (KeyError col)
  end.

(** the chart of the call, or the error the function returns at once;
    [y_column] is the argument when it is true *)
Definition draw (df : DataFrame) (chart_type x_column : string) (y_column : option string)
  : M (list plot_call) (option chart) :=
  if String.eqb chart_type "line" then
    match y_column with
    | Some y =>
        let* _ := getitem df x_column in
        let* _ := getitem df y in
        let* _ := call (PlotXY x_column y) in
        let* _ := call (SetYLabel y) in
        ret None
    | None =>
        let* _ := getitem df x_column in
        let* _ := call (PlotX x_column) in
        ret None
    end
  else if String.eqb chart_type "bar" then
    match y_column with
    | Some y =>
        let* _ := getitem df x_column in
        let* _ := getitem df y in
        let* _ := call (BarXY x_column y) in
        let* _ := call (SetYLabel y) in
        ret None
    | None =>
        let* _ := getitem df x_column in
        let* _ := call (BarCounts x_column) in
        ret None
    end
  else if String.eqb chart_type "scatter" then
    match y_column with
    | Some y =>
        let* _ := getitem df x_column in
        let* _ := getitem df y in
        let* _ := call (ScatterXY x_column y) in
        let* _ := call (SetYLabel y) in
        ret None
    | None => ret (Some (ChartError "Scatter plot requires y_column"))
    end
  else if String.eqb chart_type "histogram" then
    let* _ := getitem df x_column in
    let* _ := call (Hist x_column) in
    let* _ := call (SetYLabel "Frequency") in
    ret None
  else if String.eqb chart_type "box" then
    let* _ := getitem df x_column in
    let* _ := call (Boxplot x_column) in
    let* _ := call (SetYLabel x_column) in
    ret None
  else ret (Some (ChartError ("Unknown chart type: " +:+ chart_type))).

Definition create_visualization (file_path chart_type x_column : string)
    (y_column title output_path : option string) : M (list plot_call) chart :=
  if negb installed then
    ret (ChartError "matplotlib not installed. Run: pip install matplotlib")
  else
    try_except
      (let file_path := expanduser file_path in
       let* df := lift (if endswith ".csv" file_path then read_csv file_path
                        else read_excel file_path) in
       let* _ := call Subplots in
       let* early := draw df chart_type x_column (given y_column) in
       match early with
       | Some error => ret error
       | None =>
           let* _ := call (SetXLabel x_column) in
           let* _ := call (SetTitle
                             match given title with
                             | Some t => t
                             | None => capitalize chart_type +:+ " Chart: " +:+ x_column
                             end) in
           let* _ := call XTicks in
           let* _ := call TightLayout in
           let save_path :=
             match given output_path with
             | Some p => expanduser p
             | None => "./chart_output.png"
             end in
           let* _ := call (SaveFig save_path) in
           let* _ := call Close in
           ret (ChartSaved chart_type save_path ("Chart saved to " +:+ save_path))
       end)
      (fun e => Some (ret (ChartError ("Error creating visualization: " +:+ str_exn e)))).

End Tools.

End DataFiles.

(** ** Notions used to state the properties of the data file tools *)

Module DataFilesNotions.

Import Py DataDashboardAgent DataFiles.

(** the call writes the chart file *)
Definition is_savefig (c : plot_call) : bool :=
  match c with
  | SaveFig _ => true
  | _ => false
  end.

(** the call closes the figure *)
Definition is_close (c : plot_call) : bool :=
  match c with
  | Close => true
  | _ => false
  end.

(** calls that neither write a file nor close the figure *)
Definition drawing_only (calls : list plot_call) : Prop :=
  forallb (fun c => negb (is_savefig c) && negb (is_close c)) calls = true.

(** the calls that a computation adds are drawing calls, and what it
    returns satisfies [P] *)
Definition draws {A} (P : A -> Prop) (m : M (list plot_call) A) : Prop :=
  forall made, exists r added,
    m made = (r, made ++ added) /\ drawing_only added /\
    forall a, r = Return a -> P a.

(** what [draw] hands back early is an error *)
Definition no_early_success (early : option chart) : Prop :=
  match early with
  | Some (ChartSaved _ _ _) => False
  | _ => True
  end.

(** the path the chart is saved to *)
Definition save_path_of (expanduser : string -> string) (output_path : option string)
  : string :=
  match given output_path with
  | Some p => expanduser p
  | None => "./chart_output.png"
  end.

(** what [create_visualization] reports, against the calls it added *)
Definition report_matches_calls (expanduser : string -> string)
    (chart_type : string) (output_path : option string)
    (result : chart) (added : list plot_call) : Prop :=
  match result with
  | ChartSaved ct path message =>
      ct = chart_type /\ path = save_path_of expanduser output_path /\
      message = "Chart saved to " +:+ path /\
      exists drawing,
        added = Subplots :: drawing ++ [SaveFig path; Close] /\ drawing_only drawing
  | ChartError _ => forallb (fun c => negb (is_close c)) added = true
  end.

(** one of the chart types [create_visualization] knows *)
Definition known_chart_type (chart_type : string) : bool :=
  String.eqb chart_type "line" || String.eqb chart_type "bar" ||
  String.eqb chart_type "scatter" || String.eqb chart_type "histogram" ||
  String.eqb chart_type "box".

(** Stand-ins for the libraries in the examples: every path expands to
    itself and reads as the demo frame, matplotlib does all it is asked. *)
Definition same_path (p : string) : string := p.
Definition reads_sales (p : string) : outcome DataFrame := Return OutlierSpec.sales.
Definition unreadable (p : string) : outcome DataFrame := Raise (OtherException "No such file").
Definition rows_of (df : DataFrame) : nat :=
  match df with
  | (_, Numeric values) :: _ => length values
  | (_, Object values) :: _ => length values
  | _ => 0
  end.
Definition column_kind (c : column) : outcome string :=
  Return (if is_numeric c then "numeric" else "text").
Definition no_memory (df : DataFrame) : float := 0.
Definition exception_text (e : exn) : string :=
  match e with
  | KeyError key => "'" +:+ key +:+ "'"
  | AttributeError name => name
  | InputGuardrailTripwireTriggered => "tripwire"
  | OtherException what => what
  end.
Definition willing (made : list plot_call) (c : plot_call) : option exn := None.
(** a backend that cannot write files *)
Definition read_only_disk (made : list plot_call) (c : plot_call) : option exn :=
  if is_savefig c then Some (OtherException "Permission denied") else None.

End DataFilesNotions.

(** * Properties *)

(** ** Facts about the built-ins *)

Module PyFacts.

Example format_2f_79_99 : format_2f 79.99 = "79.99".
Proof. vm_compute. reflexivity. Qed.
Example format_2f_tie : format_2f 0.125 = "0.12".
Proof. vm_compute. reflexivity. Qed.
Example format_2f_tie_up : format_2f 0.375 = "0.38".
Proof. vm_compute. reflexivity. Qed.
Example format_2f_2675 : format_2f 2.675 = "2.67".
Proof. vm_compute. reflexivity. Qed.
Example format_2f_neg : format_2f (-0.001) = "-0.00".
Proof. vm_compute. reflexivity. Qed.
Example format_2f_big : format_2f 1e22 = "10000000000000000000000.00".
Proof. vm_compute. reflexivity. Qed.
Example format_2f_1005 : format_2f 1.005 = "1.00".
Proof. vm_compute. reflexivity. Qed.
Example format_2f_7 : format_2f 7 = "7.00".
Proof. vm_compute. reflexivity. Qed.

Lemma has_char_app c a b : has_char c (a +:+ b) = has_char c a || has_char c b.
Proof.
  induction a as [|x a IH]; simpl; [reflexivity|].
  rewrite IH. apply orb_assoc.
Qed.

Lemma startswith_refl s : startswith s s = true.
Proof. induction s as [|c s IH]; simpl; [reflexivity|]. now rewrite Ascii.eqb_refl. Qed.

Lemma startswith_app p s : startswith p (p +:+ s) = true.
Proof. induction p as [|c p IH]; simpl; [reflexivity|]. now rewrite Ascii.eqb_refl. Qed.

Lemma startswith_app_app p a b : startswith (p +:+ a) (p +:+ b) = startswith a b.
Proof.
  induction p as [|c p IH]; [reflexivity|].
  change (startswith (String c (p +:+ a)) (String c (p +:+ b)) = startswith a b).
  simpl. now rewrite Ascii.eqb_refl.
Qed.

Lemma startswith_has_char c p : forall s,
  startswith p s = true -> has_char c p = true -> has_char c s = true.
Proof.
  induction p as [|a p IH]; intros s Hp Hc; simpl in *; [discriminate|].
  destruct s as [|b s]; [discriminate|]. simpl.
  destruct (Ascii.eqb_spec a b) as [->|Hab]; [|discriminate].
  apply orb_true_iff in Hc as [Hc|Hc]; apply orb_true_iff; [left|right]; eauto.
Qed.

(** A string that contains [needle] has every character of [needle]. *)
Lemma contains_has_char c needle : forall hay,
  contains needle hay = true -> has_char c needle = true -> has_char c hay = true.
Proof.
  induction hay as [|b hay IH]; intros H Hc; simpl in H.
  - rewrite orb_false_r in H. eapply startswith_has_char; eassumption.
  - apply orb_true_iff in H as [H|H].
    + eapply startswith_has_char; eassumption.
    + simpl. rewrite (IH H Hc). apply orb_true_r.
Qed.

Lemma contains_of_startswith needle hay : startswith needle hay = true -> contains needle hay = true.
Proof. intros H. destruct hay; simpl; rewrite H; reflexivity. Qed.

Lemma contains_app_r needle p s : contains needle (p +:+ needle +:+ s) = true.
Proof.
  induction p as [|c p IH].
  - apply contains_of_startswith. exact (startswith_app needle s).
  - change (contains needle (String c (p +:+ needle +:+ s)) = true).
    simpl. rewrite IH. apply orb_true_r.
Qed.

Lemma has_char_uint c (d : Decimal.uint) :
  (nat_of_ascii c < 48 \/ 57 < nat_of_ascii c)%nat ->
  has_char c (NilEmpty.string_of_uint d) = false.
Proof.
  intros Hc.
  assert (Hne : forall k, (48 <= k <= 57)%nat -> Ascii.eqb c (ascii_of_nat k) = false).
  { intros k Hk. apply Ascii.eqb_neq. intros ->.
    rewrite nat_ascii_embedding in Hc; lia. }
  induction d; simpl; [reflexivity|..]; rewrite IHd, orb_false_r.
  - apply (Hne 48%nat); lia.
  - apply (Hne 49%nat); lia.
  - apply (Hne 50%nat); lia.
  - apply (Hne 51%nat); lia.
  - apply (Hne 52%nat); lia.
  - apply (Hne 53%nat); lia.
  - apply (Hne 54%nat); lia.
  - apply (Hne 55%nat); lia.
  - apply (Hne 56%nat); lia.
  - apply (Hne 57%nat); lia.
Qed.

Lemma has_char_digits c n :
  (nat_of_ascii c < 48 \/ 57 < nat_of_ascii c)%nat -> has_char c (digits n) = false.
Proof.
  intros Hc. unfold digits, NilZero.string_of_uint.
  destruct (N.to_uint (Z.to_N n)) eqn:E; try (rewrite <- E); auto using has_char_uint.
  simpl. rewrite orb_false_r. apply Ascii.eqb_neq. intros ->.
  change (nat_of_ascii "0") with 48%nat in Hc. lia.
Qed.

(** [format(x, ".2f")] never prints an opening parenthesis. *)
Lemma format_2f_no_paren x : has_char "(" (format_2f x) = false.
Proof.
  assert (Hd : forall n, has_char "(" (digits n) = false)
    by (intros n; apply has_char_digits; change (nat_of_ascii "(") with 40%nat; lia).
  unfold format_2f, two_digits.
  destruct (Prim2SF x) as [[|]|[|]| |s m e]; try reflexivity.
  destruct (_ <? 10); rewrite !has_char_app, !Hd; destruct s; reflexivity.
Qed.

Lemma append_assoc (a b c : string) : (a +:+ b) +:+ c = a +:+ b +:+ c.
Proof.
  induction a as [|x a IH]; [reflexivity|].
  change (String x ((a +:+ b) +:+ c) = String x (a +:+ b +:+ c)). now rewrite IH.
Qed.

Lemma append_nil_r (a : string) : a +:+ EmptyString = a.
Proof.
  induction a as [|x a IH]; [reflexivity|].
  change (String x (a +:+ EmptyString) = String x a). now rewrite IH.
Qed.

Lemma contains_app_end needle p : contains needle (p +:+ needle) = true.
Proof. rewrite <- (append_nil_r needle) at 2. apply contains_app_r. Qed.

Lemma dict_contains_lookup {V} (d : dict V) key :
  dict_contains d key = match dict_lookup d key with Some _ => true | None => false end.
Proof.
  induction d as [|[k v] d IH]; simpl; [reflexivity|].
  destruct (String.eqb key k); auto.
Qed.

Lemma read_only_ret {S A} (a : A) : read_only (@ret S A a).
Proof. intros s. reflexivity. Qed.

Lemma read_only_raise {S A} e : read_only (@raise S A e).
Proof. intros s. reflexivity. Qed.

Lemma read_only_gets {S A} (f : S -> A) : read_only (gets f).
Proof. intros s. reflexivity. Qed.

Lemma read_only_bind {S A B} (m : M S A) (k : A -> M S B) :
  read_only m -> (forall a, read_only (k a)) -> read_only (bind m k).
Proof.
  intros Hm Hk s. unfold bind. specialize (Hm s).
  destruct (m s) as [[a|e] s']; simpl in Hm; subst s'; [apply Hk | reflexivity].
Qed.

(** Discharges [read_only] for code built from the read-only primitives. *)
Ltac read_only_tac :=
  repeat first
    [ apply read_only_ret
    | apply read_only_raise
    | apply read_only_gets
    | apply read_only_bind; [|intros]
    | match goal with
      | |- read_only (if ?b then _ else _) => destruct b
      | |- read_only (match ?x with _ => _ end) => destruct x
      end ].

End PyFacts.

(** ** The customer-service tools *)

Module ToolsSpec.

Import Tools.

(** The demo contexts are the ones [get_customer_context] builds. *)
Example get_customer_context_alice : Config.get_customer_context "CUST-123" = Return Demo.alice.
Proof. reflexivity. Qed.

Example get_customer_context_bob : Config.get_customer_context "CUST-456" = Return Demo.bob.
Proof. reflexivity. Qed.

Example get_customer_context_unknown :
  Config.get_customer_context "CUST-999" = Raise (KeyError "CUST-999").
Proof. reflexivity. Qed.

Ltac run_tool :=
  unfold lookup_order, list_customer_orders, calculate_refund, process_refund,
    wrapper_context, db_contains, db_getitem, db_items, gets, bind, ret, raise;
  cbn beta iota.

(** The guard [order_id in ORDERS_DB] followed by [ORDERS_DB[order_id]]. *)
Lemma guarded_getitem (s : Store) order_id order :
  dict_lookup (ORDERS_DB s) order_id = Some order ->
  dict_contains (ORDERS_DB s) order_id = true.
Proof. intros H. now rewrite PyFacts.dict_contains_lookup, H. Qed.

Lemma missing_getitem (s : Store) order_id :
  dict_lookup (ORDERS_DB s) order_id = None ->
  dict_contains (ORDERS_DB s) order_id = false.
Proof. intros H. now rewrite PyFacts.dict_contains_lookup, H. Qed.

(** [calculate_refund] on an order of the context customer: the branch on
    the status. *)
Lemma calculate_refund_owned (s : Store) (order_id reason : string) (order : Config.Order) :
  dict_lookup (ORDERS_DB s) order_id = Some order ->
  Config.customer_id order = Models.customer_id (context s) ->
  fst (calculate_refund order_id reason s) =
  let price := format_2f (Config.price order) in
  let status := Config.status order in
  Return
    (if String.eqb status "processing" then
       "Order " +:+ order_id +:+ " can be cancelled for a full refund of $" +:+
       price +:+ ". Reason: " +:+ reason
     else if String.eqb status "shipped" then
       if Models.is_premium (context s) then
         "Premium customer: Eligible for full refund of $" +:+ price +:+
         " upon return. Reason: " +:+ reason
       else
         "Order in transit. Please wait for delivery to request refund. Reason: " +:+ reason
     else if String.eqb status "delivered" then
       "Refund eligible: $" +:+ price +:+
       (if PrimFloat.ltb 50 (Config.price order) then approval_note_text else EmptyString) +:+
       ". Reason: " +:+ reason
     else "Unable to process refund for order " +:+ order_id).
Proof.
  intros Hin Hown. run_tool.
  rewrite (guarded_getitem _ _ _ Hin). cbn [negb].
  rewrite Hin. cbn beta iota.
  rewrite Hown, String.eqb_refl. cbn [negb].
  destruct (String.eqb (Config.status order) "processing"); [reflexivity|].
  destruct (String.eqb (Config.status order) "shipped");
    [destruct (Models.is_premium (context s)); reflexivity|].
  destruct (String.eqb (Config.status order) "delivered"); reflexivity.
Qed.

(** The two tools that check the owner turn away another customer's order. *)
Lemma lookup_order_foreign (s : Store) (order_id : string) (order : Config.Order) :
  dict_lookup (ORDERS_DB s) order_id = Some order ->
  Config.customer_id order <> Models.customer_id (context s) ->
  fst (lookup_order order_id s) =
  Return ("Order " +:+ order_id +:+ " does not belong to your account.").
Proof.
  intros Hin Hown. run_tool.
  rewrite (guarded_getitem _ _ _ Hin). cbn [negb].
  rewrite Hin. cbn beta iota.
  apply String.eqb_neq in Hown. rewrite Hown. reflexivity.
Qed.

Lemma calculate_refund_foreign (s : Store) (order_id reason : string) (order : Config.Order) :
  dict_lookup (ORDERS_DB s) order_id = Some order ->
  Config.customer_id order <> Models.customer_id (context s) ->
  fst (calculate_refund order_id reason s) =
  Return "This order does not belong to your account.".
Proof.
  intros Hin Hown. run_tool.
  rewrite (guarded_getitem _ _ _ Hin). cbn [negb].
  rewrite Hin. cbn beta iota.
  apply String.eqb_neq in Hown. rewrite Hown. reflexivity.
Qed.

Lemma lookup_order_missing (s : Store) (order_id : string) :
  dict_lookup (ORDERS_DB s) order_id = None ->
  fst (lookup_order order_id s) = Return ("Order " +:+ order_id +:+ " not found.").
Proof. intros Hin. run_tool. rewrite (missing_getitem _ _ Hin). reflexivity. Qed.

Lemma lookup_order_owned (s : Store) (order_id : string) (order : Config.Order) :
  dict_lookup (ORDERS_DB s) order_id = Some order ->
  Config.customer_id order = Models.customer_id (context s) ->
  fst (lookup_order order_id s) =
  Return (nl +:+
          "Order " +:+ order_id +:+ ":" +:+ nl +:+
          "- Item: " +:+ Config.item order +:+ nl +:+
          "- Price: $" +:+ format_2f (Config.price order) +:+ nl +:+
          "- Status: " +:+ upper (Config.status order) +:+ nl +:+
          "- Tracking: " +:+
            str_of (dict_get (Config.tracking order) (Some "Not yet available")) +:+ nl +:+
          "- ETA: " +:+
            str_of (dict_get (Config.eta order)
                      (dict_get (Config.delivered_date order) (Some "N/A"))) +:+ nl).
Proof.
  intros Hin Hown. run_tool.
  rewrite (guarded_getitem _ _ _ Hin). cbn [negb].
  rewrite Hin. cbn beta iota.
  rewrite Hown, String.eqb_refl. reflexivity.
Qed.

Lemma process_refund_present (s : Store) (order_id : string) (order : Config.Order) :
  dict_lookup (ORDERS_DB s) order_id = Some order ->
  fst (process_refund order_id s) =
  Return ("Refund processed successfully!" +:+ nl +:+
          "- Order: " +:+ order_id +:+ nl +:+
          "- Amount: $" +:+ format_2f (Config.price order) +:+ nl +:+
          "- Method: Original payment method" +:+ nl +:+
          "- Timeline: 3-5 business days" +:+ nl +:+
          nl +:+
          "Thank you for your patience, " +:+ Models.customer_name (context s) +:+ "!").
Proof.
  intros Hin. run_tool.
  rewrite (guarded_getitem _ _ _ Hin). cbn [negb].
  rewrite Hin. reflexivity.
Qed.

Lemma lookup_order_read_only order_id : read_only (lookup_order order_id).
Proof. unfold lookup_order, wrapper_context, db_contains, db_getitem. PyFacts.read_only_tac. Qed.

Lemma list_customer_orders_read_only : read_only list_customer_orders.
Proof. unfold list_customer_orders, wrapper_context, db_items. PyFacts.read_only_tac. Qed.

Lemma calculate_refund_read_only order_id reason : read_only (calculate_refund order_id reason).
Proof. unfold calculate_refund, wrapper_context, db_contains, db_getitem. PyFacts.read_only_tac. Qed.

Lemma process_refund_read_only order_id : read_only (process_refund order_id).
Proof. unfold process_refund, wrapper_context, db_contains, db_getitem. PyFacts.read_only_tac. Qed.

(** C1 as amended.  For an order of [ORDERS_DB] that belongs to the context
    customer and has status "delivered", [calculate_refund] returns
    "Refund eligible: $" with the full price, then the approval note, then
    ". Reason: " with the caller's reason verbatim; the note is
    " (Requires manager approval)" exactly when the price is greater than 50
    and empty otherwise, so the text before ". Reason: " contains the note
    exactly when the price is greater than 50. *)
Theorem calculate_refund_delivered (s : Store) (order_id reason : string) (order : Config.Order) :
  dict_lookup (ORDERS_DB s) order_id = Some order ->
  Config.customer_id order = Models.customer_id (context s) ->
  Config.status order = "delivered" ->
  let price := Config.price order in
  let note := if PrimFloat.ltb 50 price then approval_note_text else EmptyString in
  let head := "Refund eligible: $" +:+ format_2f price +:+ note in
  fst (calculate_refund order_id reason s) =
    Return ("Refund eligible: $" +:+ format_2f price +:+ note +:+ ". Reason: " +:+ reason) /\
  (note = approval_note_text <-> PrimFloat.ltb 50 price = true) /\
  (contains approval_note_text head = true <-> PrimFloat.ltb 50 price = true).
Proof.
  intros Hin Hown Hst price note head. split; [|split].
  - rewrite (calculate_refund_owned _ _ _ _ Hin Hown). cbn zeta. rewrite Hst. reflexivity.
  - subst note. destruct (PrimFloat.ltb 50 price); split; intros H; try discriminate; reflexivity.
  - subst head note. destruct (PrimFloat.ltb 50 price).
    + split; [reflexivity|]. intros _.
      rewrite <- PyFacts.append_assoc. apply PyFacts.contains_app_end.
    + split; [|discriminate]. intros H.
      apply (PyFacts.contains_has_char "(") in H; [|reflexivity].
      rewrite !PyFacts.has_char_app, PyFacts.format_2f_no_paren in H. discriminate.
Qed.

Lemma calculate_refund_delivered_witness :
  fst (calculate_refund "ORD-002" "arrived broken" Demo.alice_store)
  = Return "Refund eligible: $19.99. Reason: arrived broken".
Proof.
  exact (proj1 (calculate_refund_delivered Demo.alice_store "ORD-002" "arrived broken"
                  Demo.ORD_002 eq_refl eq_refl eq_refl)).
Defined.

(** C1 as stated fails: the reason is echoed verbatim, so a reason that
    quotes the note puts it in the message of the 19.99 order ORD-002. *)
Lemma calculate_refund_note_counterexample :
  dict_lookup (ORDERS_DB Demo.alice_store) "ORD-002" = Some Demo.ORD_002 /\
  Config.customer_id Demo.ORD_002 = Models.customer_id (context Demo.alice_store) /\
  Config.status Demo.ORD_002 = "delivered" /\
  fst (calculate_refund "ORD-002" " (Requires manager approval)" Demo.alice_store)
    = Return "Refund eligible: $19.99. Reason:  (Requires manager approval)" /\
  contains " (Requires manager approval)"
    "Refund eligible: $19.99. Reason:  (Requires manager approval)" = true /\
  PrimFloat.ltb 50 (Config.price Demo.ORD_002) = false.
Proof. repeat split; vm_compute; reflexivity. Qed.

(** C2.  For an order of [ORDERS_DB] that belongs to the context customer, the
    result of [calculate_refund] is decided by the order's status and the
    customer's [is_premium] flag: "processing" gives the cancellation with a
    full refund of the price, "shipped" the refund upon return for a premium
    customer and the instruction to wait otherwise, "delivered" the refund
    eligibility, and any other status the "Unable to process refund" text. *)
Theorem calculate_refund_truth_table (s : Store) (order_id reason : string) (order : Config.Order) :
  dict_lookup (ORDERS_DB s) order_id = Some order ->
  Config.customer_id order = Models.customer_id (context s) ->
  let price := format_2f (Config.price order) in
  let status := Config.status order in
  let premium := Models.is_premium (context s) in
  let result := fst (calculate_refund order_id reason s) in
  (status = "processing" ->
     result = Return ("Order " +:+ order_id +:+ " can be cancelled for a full refund of $" +:+
                      price +:+ ". Reason: " +:+ reason)) /\
  (status = "shipped" -> premium = true ->
     result = Return ("Premium customer: Eligible for full refund of $" +:+ price +:+
                      " upon return. Reason: " +:+ reason)) /\
  (status = "shipped" -> premium = false ->
     result = Return ("Order in transit. Please wait for delivery to request refund. Reason: " +:+
                      reason)) /\
  (status = "delivered" ->
     exists note, (note = EmptyString \/ note = approval_note_text) /\
       result = Return ("Refund eligible: $" +:+ price +:+ note +:+ ". Reason: " +:+ reason)) /\
  (status <> "processing" -> status <> "shipped" -> status <> "delivered" ->
     result = Return ("Unable to process refund for order " +:+ order_id)).
Proof.
  intros Hin Hown price status premium result.
  subst result. rewrite (calculate_refund_owned _ _ _ _ Hin Hown). cbn zeta.
  fold price status premium. clearbody status premium. repeat split.
  - intros ->. reflexivity.
  - intros -> ->. reflexivity.
  - intros -> ->. reflexivity.
  - intros ->.
    destruct (PrimFloat.ltb 50 (Config.price order));
      [exists approval_note_text | exists EmptyString]; split; auto.
  - intros H1 H2 H3.
    apply String.eqb_neq in H1, H2, H3. rewrite H1, H2, H3. reflexivity.
Qed.

Lemma calculate_refund_truth_table_witness :
  fst (calculate_refund "ORD-001" "changed my mind" Demo.alice_store)
  = Return "Premium customer: Eligible for full refund of $79.99 upon return. Reason: changed my mind".
Proof.
  exact (proj1 (proj2
    (calculate_refund_truth_table Demo.alice_store "ORD-001" "changed my mind" Demo.ORD_001
       eq_refl eq_refl)) eq_refl eq_refl).
Defined.

(** C3.  The four tools are stateless: whatever the arguments, each one
    leaves [ORDERS_DB] and the customer context as they were; [process_refund]
    in particular reports "Refund processed successfully" for an order it
    finds while the order keeps its status, price and every other field. *)
Theorem tools_are_stateless (s : Store) (order_id reason : string) :
  snd (lookup_order order_id s) = s /\
  snd (list_customer_orders s) = s /\
  snd (calculate_refund order_id reason s) = s /\
  snd (process_refund order_id s) = s /\
  (forall order, dict_lookup (ORDERS_DB s) order_id = Some order ->
     exists details,
       process_refund order_id s = (Return ("Refund processed successfully!" +:+ details), s) /\
       dict_lookup (ORDERS_DB (snd (process_refund order_id s))) order_id = Some order).
Proof.
  repeat split.
  - apply lookup_order_read_only.
  - apply list_customer_orders_read_only.
  - apply calculate_refund_read_only.
  - apply process_refund_read_only.
  - intros order Hin. eexists. split.
    + rewrite (surjective_pairing (process_refund order_id s)).
      rewrite (process_refund_present _ _ _ Hin), process_refund_read_only. reflexivity.
    + rewrite process_refund_read_only. exact Hin.
Qed.

Lemma tools_are_stateless_witness :
  snd (process_refund "ORD-001" Demo.alice_store) = Demo.alice_store /\
  dict_lookup (ORDERS_DB (snd (process_refund "ORD-001" Demo.alice_store))) "ORD-001"
    = Some Demo.ORD_001.
Proof.
  destruct (tools_are_stateless Demo.alice_store "ORD-001" "late") as (_ & _ & _ & Hframe & Hrefund).
  destruct (Hrefund Demo.ORD_001 eq_refl) as (details & _ & Hkept).
  exact (conj Hframe Hkept).
Defined.

(** C7.  [lookup_order] is a guarded dictionary lookup: it never raises; an
    absent [order_id] gives "Order {order_id} not found.", an order of another
    customer gives the "does not belong to your account" text, and the
    formatted order details are returned exactly when [order_id] is a key of
    [ORDERS_DB] whose order carries the context customer's id. *)
Theorem lookup_order_guarded (s : Store) (order_id : string) :
  let result := fst (lookup_order order_id s) in
  (exists text, result = Return text) /\
  (dict_lookup (ORDERS_DB s) order_id = None ->
     result = Return ("Order " +:+ order_id +:+ " not found.")) /\
  (forall order, dict_lookup (ORDERS_DB s) order_id = Some order ->
     Config.customer_id order <> Models.customer_id (context s) ->
     result = Return ("Order " +:+ order_id +:+ " does not belong to your account.")) /\
  (forall order, dict_lookup (ORDERS_DB s) order_id = Some order ->
     Config.customer_id order = Models.customer_id (context s) ->
     result =
     Return (nl +:+
             "Order " +:+ order_id +:+ ":" +:+ nl +:+
             "- Item: " +:+ Config.item order +:+ nl +:+
             "- Price: $" +:+ format_2f (Config.price order) +:+ nl +:+
             "- Status: " +:+ upper (Config.status order) +:+ nl +:+
             "- Tracking: " +:+
               str_of (dict_get (Config.tracking order) (Some "Not yet available")) +:+ nl +:+
             "- ETA: " +:+
               str_of (dict_get (Config.eta order)
                         (dict_get (Config.delivered_date order) (Some "N/A"))) +:+ nl)) /\
  ((exists text, result = Return text /\ Demo.is_order_details order_id text = true) <->
   (exists order, dict_lookup (ORDERS_DB s) order_id = Some order /\
                  Config.customer_id order = Models.customer_id (context s))).
Proof.
  intros result. subst result.
  destruct (dict_lookup (ORDERS_DB s) order_id) as [order|] eqn:Hin.
  - destruct (String.eqb_spec (Config.customer_id order) (Models.customer_id (context s)))
      as [Hown|Hown].
    + rewrite (lookup_order_owned _ _ _ Hin Hown). repeat split.
      * eexists; reflexivity.
      * discriminate.
      * intros o [= <-] Hne. contradiction.
      * intros o [= <-] _. reflexivity.
      * intros _. exists order. auto.
      * intros _. eexists. split; [reflexivity|].
        unfold Demo.is_order_details.
        rewrite !PyFacts.startswith_app_app. apply PyFacts.startswith_app.
    + rewrite (lookup_order_foreign _ _ _ Hin Hown). repeat split.
      * eexists; reflexivity.
      * discriminate.
      * intros o [= <-] Heq. contradiction.
      * intros (text & [= <-] & Hd). cbv in Hd. discriminate Hd.
      * intros (o & [= <-] & Heq). contradiction.
  - rewrite (lookup_order_missing _ _ Hin). repeat split.
    + eexists; reflexivity.
    + discriminate.
    + discriminate.
    + intros (text & [= <-] & Hd). cbv in Hd. discriminate Hd.
    + intros (o & Ho & _). discriminate Ho.
Qed.

(** Alice finds her order ORD-001; ORD-404 is reported missing. *)
Lemma lookup_order_guarded_witness :
  fst (lookup_order "ORD-001" Demo.alice_store) =
    Return (nl +:+ "Order ORD-001:" +:+ nl +:+
            "- Item: Wireless Headphones" +:+ nl +:+
            "- Price: $79.99" +:+ nl +:+
            "- Status: SHIPPED" +:+ nl +:+
            "- Tracking: 1Z999AA10123456784" +:+ nl +:+
            "- ETA: 2026-11-05" +:+ nl) /\
  fst (lookup_order "ORD-404" Demo.alice_store) = Return "Order ORD-404 not found.".
Proof.
  destruct (lookup_order_guarded Demo.alice_store "ORD-001") as (_ & _ & _ & Hown & _).
  destruct (lookup_order_guarded Demo.alice_store "ORD-404") as (_ & Hmissing & _).
  exact (conj (Hown Demo.ORD_001 eq_refl eq_refl) (Hmissing eq_refl)).
Defined.

(** C9.  [process_refund] does not check who owns the order: for an order of
    [ORDERS_DB] it reports the refund of the order's price to any customer
    context, and the context enters the text only through the customer's name
    in the closing line; [lookup_order] and [calculate_refund] both turn away
    an order whose customer id differs from the context's. *)
Theorem process_refund_ignores_ownership (s : Store) (order_id : string) (order : Config.Order) :
  dict_lookup (ORDERS_DB s) order_id = Some order ->
  fst (process_refund order_id s) =
    Return ("Refund processed successfully!" +:+ nl +:+
            "- Order: " +:+ order_id +:+ nl +:+
            "- Amount: $" +:+ format_2f (Config.price order) +:+ nl +:+
            "- Method: Original payment method" +:+ nl +:+
            "- Timeline: 3-5 business days" +:+ nl +:+
            nl +:+
            "Thank you for your patience, " +:+ Models.customer_name (context s) +:+ "!") /\
  (forall caller : Models.CustomerContext,
     Models.customer_name caller = Models.customer_name (context s) ->
     fst (process_refund order_id {| ORDERS_DB := ORDERS_DB s; context := caller |})
     = fst (process_refund order_id s)) /\
  (Config.customer_id order <> Models.customer_id (context s) ->
     fst (lookup_order order_id s)
       = Return ("Order " +:+ order_id +:+ " does not belong to your account.") /\
     forall reason,
       fst (calculate_refund order_id reason s)
       = Return "This order does not belong to your account.").
Proof.
  intros Hin. split; [|split].
  - apply (process_refund_present _ _ _ Hin).
  - intros caller Hname.
    rewrite (process_refund_present s _ _ Hin).
    rewrite (process_refund_present {| ORDERS_DB := ORDERS_DB s; context := caller |} _ order Hin).
    cbn [context]. rewrite Hname. reflexivity.
  - intros Hown. split.
    + apply (lookup_order_foreign _ _ _ Hin Hown).
    + intros reason. apply (calculate_refund_foreign _ _ _ _ Hin Hown).
Qed.

(** Bob (CUST-456) is refunded for Alice's order ORD-001, which the other
    two tools refuse to show him. *)
Lemma process_refund_ignores_ownership_witness :
  (exists details,
     fst (process_refund "ORD-001" Demo.bob_store)
     = Return ("Refund processed successfully!" +:+ details)) /\
  fst (lookup_order "ORD-001" Demo.bob_store)
    = Return "Order ORD-001 does not belong to your account." /\
  fst (calculate_refund "ORD-001" "not mine" Demo.bob_store)
    = Return "This order does not belong to your account.".
Proof.
  destruct (process_refund_ignores_ownership Demo.bob_store "ORD-001" Demo.ORD_001 eq_refl)
    as (Hok & _ & Hforeign).
  destruct Hforeign as [Hlookup Hcalc]; [discriminate|].
  split; [eexists; exact Hok|]. split; [exact Hlookup | exact (Hcalc "not mine")].
Defined.

End ToolsSpec.

(** ** The guardrail and the chat handler *)

Module AppSpec.

Import App AppTrace.

Lemma dict_lookup_set {V} (d : dict V) key v key' :
  dict_lookup (dict_set d key v) key' =
  if String.eqb key' key then Some v else dict_lookup d key'.
Proof.
  induction d as [|[k w] d IH]; simpl.
  - reflexivity.
  - destruct (String.eqb_spec key k) as [->|Hk]; simpl.
    + destruct (String.eqb key' k); reflexivity.
    + rewrite IH. destruct (String.eqb_spec key' k) as [->|Hk'].
      * apply String.eqb_neq in Hk. rewrite String.eqb_sym in Hk. now rewrite Hk.
      * reflexivity.
Qed.

(** [raw_field] reads: it either returns the value or raises, and leaves the
    store alone. *)
Lemma raw_field_run {S} (raw : raw_item) key default (s : S) :
  raw_field raw key default s = (fst (raw_field raw key default tt), s).
Proof.
  unfold raw_field. destruct raw as [attrs|entries]; [|reflexivity].
  destruct (dict_lookup attrs key); reflexivity.
Qed.

(** The output branch of the loop body, run. *)
Lemma handle_output_run (loc : locals) raw output (ui : UI) :
  handle_event loc (RunItemStreamEvent (ToolCallOutputItem raw output)) ui =
  match fst (raw_field raw "call_id" None tt) with
  | Raise e => (Raise e, ui)
  | Return call_id =>
      match truthy call_id with
      | None => (Return loc, ui)
      | Some cid =>
          match dict_lookup (tool_steps loc) cid with
          | None => (Return loc, ui)
          | Some step =>
              (Return loc,
               {| next_widget := next_widget ui; log := log ui ++ [StepUpdate step output] |})
          end
      end
  end.
Proof.
  unfold handle_event, bind. rewrite raw_field_run.
  destruct (fst (raw_field raw "call_id" None tt)) as [call_id|e]; [|reflexivity].
  destruct (truthy call_id) as [cid|]; [|reflexivity].
  destruct (dict_lookup (tool_steps loc) cid); reflexivity.
Qed.

(** The tool-call branch of the loop body, run. *)
Lemma handle_call_run (loc : locals) raw (ui : UI) :
  handle_event loc (RunItemStreamEvent (ToolCallItem raw)) ui =
  match fst (raw_field raw "name" (Some "tool") tt),
        fst (raw_field raw "call_id" None tt),
        fst (raw_field raw "arguments" (Some EmptyString) tt) with
  | Return name, Return call_id, Return args =>
      (Return match truthy call_id with
              | Some cid =>
                  {| tool_steps := dict_set (tool_steps loc) cid (next_widget ui);
                     msg := msg loc |}
              | None => loc
              end,
       {| next_widget := S (next_widget ui);
          log := log ui ++ [StepSend (next_widget ui) name args] |})
  | Raise e, _, _ => (Raise e, ui)
  | Return _, Raise e, _ => (Raise e, ui)
  | Return _, Return _, Raise e => (Raise e, ui)
  end.
Proof.
  unfold handle_event, bind.
  rewrite (raw_field_run raw "name").
  destruct (fst (raw_field raw "name" (Some "tool") tt)) as [name|e]; [|reflexivity].
  rewrite (raw_field_run raw "call_id").
  destruct (fst (raw_field raw "call_id" None tt)) as [call_id|e]; [|reflexivity].
  rewrite (raw_field_run raw "arguments").
  destruct (fst (raw_field raw "arguments" (Some EmptyString) tt)) as [args|e]; [|reflexivity].
  destruct (truthy call_id); reflexivity.
Qed.

(** The text-delta branch of the loop body, run. *)
Lemma handle_delta_run (loc : locals) delta (ui : UI) :
  handle_event loc (RawResponseEvent (Some delta)) ui =
  match msg loc with
  | Some m =>
      (Return loc,
       {| next_widget := next_widget ui; log := log ui ++ [MessageStreamToken m delta] |})
  | None =>
      (Return {| tool_steps := tool_steps loc; msg := Some (next_widget ui) |},
       {| next_widget := S (next_widget ui);
          log := (log ui ++ [MessageSend (next_widget ui) EmptyString]) ++
                 [MessageStreamToken (next_widget ui) delta] |})
  end.
Proof.
  unfold handle_event, _ensure_msg, bind.
  destruct (msg loc); reflexivity.
Qed.

(** A step found in [tool_steps] after an event was there before it or was
    registered by this event, a tool call carrying that call id. *)
Lemma handle_event_tool_steps (loc loc' : locals) ev (ui ui' : UI) cid step :
  handle_event loc ev ui = (Return loc', ui') ->
  dict_lookup (tool_steps loc') cid = Some step ->
  dict_lookup (tool_steps loc) cid = Some step \/
  exists raw, ev = RunItemStreamEvent (ToolCallItem raw) /\ call_id_of raw = Some cid.
Proof.
  intros Hrun Hstep.
  destruct ev as [[raw|raw output|ty]|[delta|]|ty].
  - rewrite handle_call_run in Hrun.
    destruct (fst (raw_field raw "name" (Some "tool") tt)) as [name|e]; [|discriminate].
    destruct (fst (raw_field raw "call_id" None tt)) as [call_id|e] eqn:Hcid; [|discriminate].
    destruct (fst (raw_field raw "arguments" (Some EmptyString) tt)) as [args|e]; [|discriminate].
    injection Hrun as <- <-.
    destruct (truthy call_id) as [c|] eqn:Htruthy; [|left; exact Hstep].
    cbn [tool_steps] in Hstep. rewrite dict_lookup_set in Hstep.
    destruct (String.eqb_spec cid c) as [->|Hne]; [|left; exact Hstep].
    right. exists raw. split; [reflexivity|].
    unfold call_id_of. rewrite Hcid. exact Htruthy.
  - rewrite handle_output_run in Hrun.
    destruct (fst (raw_field raw "call_id" None tt)) as [call_id|e]; [|discriminate].
    destruct (truthy call_id) as [c|]; [destruct (dict_lookup (tool_steps loc) c)|];
      injection Hrun as <- <-; left; exact Hstep.
  - injection Hrun as <- <-. left; exact Hstep.
  - rewrite handle_delta_run in Hrun.
    destruct (msg loc); injection Hrun as <- <-; left; exact Hstep.
  - injection Hrun as <- <-. left; exact Hstep.
  - injection Hrun as <- <-. left; exact Hstep.
Qed.

(** Every entry of [tool_steps] comes from an earlier tool call with that
    call id. *)
Lemma stream_loop_tool_steps (evs : list event) : forall (loc0 loc : locals) (ui0 ui : UI) cid step,
  stream_loop loc0 evs ui0 = (Return loc, ui) ->
  dict_lookup (tool_steps loc) cid = Some step ->
  dict_lookup (tool_steps loc0) cid = Some step \/
  exists raw, In (RunItemStreamEvent (ToolCallItem raw)) evs /\ call_id_of raw = Some cid.
Proof.
  induction evs as [|ev evs IH]; intros loc0 loc ui0 ui cid step Hrun Hstep.
  - injection Hrun as <- <-. left; exact Hstep.
  - cbn [stream_loop] in Hrun. unfold bind in Hrun.
    destruct (handle_event loc0 ev ui0) as [[loc1|e] ui1] eqn:Hev; [|discriminate].
    destruct (IH _ _ _ _ _ _ Hrun Hstep) as [Hold|(raw & Hin & Hcid)].
    + destruct (handle_event_tool_steps _ _ _ _ _ _ _ Hev Hold) as [H0|(raw & -> & Hcid)].
      * left; exact H0.
      * right. exists raw. split; [left; reflexivity | exact Hcid].
    + right. exists raw. split; [right; exact Hin | exact Hcid].
Qed.

Lemma text_deltas_cons ev evs : text_deltas (ev :: evs) = text_deltas [ev] ++ text_deltas evs.
Proof. destruct ev as [it|[delta|]|ty]; reflexivity. Qed.

Lemma message_actions_app l1 l2 :
  message_actions (l1 ++ l2) = message_actions l1 ++ message_actions l2.
Proof. apply List.filter_app. Qed.

Lemma message_trace_app m w1 w2 ds1 ds2 :
  message_trace m w1 ds1 ++ message_trace (message_after m w1 ds1) w2 ds2
  = message_trace m (first_widget m ds1 w1 w2) (ds1 ++ ds2).
Proof.
  destruct m as [w0|], ds1 as [|d ds1]; simpl; rewrite ?map_app; reflexivity.
Qed.

Lemma message_after_app m w1 w2 ds1 ds2 :
  message_after (message_after m w1 ds1) w2 ds2
  = message_after m (first_widget m ds1 w1 w2) (ds1 ++ ds2).
Proof. destruct m as [w0|], ds1 as [|d ds1]; reflexivity. Qed.

(** One event either raises before it touches the display, or appends
    actions of which those on a message widget are the trace of its delta. *)
Lemma handle_event_messages (loc : locals) ev (ui : UI) r ui' :
  handle_event loc ev ui = (r, ui') ->
  (exists e, r = Raise e /\ ui' = ui) \/
  (exists loc' added,
     r = Return loc' /\
     log ui' = log ui ++ added /\
     message_actions added = message_trace (msg loc) (next_widget ui) (text_deltas [ev]) /\
     msg loc' = message_after (msg loc) (next_widget ui) (text_deltas [ev])).
Proof.
  intros Hrun.
  assert (Hsilent : message_trace (msg loc) (next_widget ui) [] = [])
    by (destruct (msg loc); reflexivity).
  assert (Hsame : message_after (msg loc) (next_widget ui) [] = msg loc)
    by (destruct (msg loc); reflexivity).
  destruct ev as [[raw|raw output|ty]|[delta|]|ty].
  - rewrite handle_call_run in Hrun.
    destruct (fst (raw_field raw "name" (Some "tool") tt)) as [name|e];
      [|injection Hrun as <- <-; left; eauto].
    destruct (fst (raw_field raw "call_id" None tt)) as [call_id|e];
      [|injection Hrun as <- <-; left; eauto].
    destruct (fst (raw_field raw "arguments" (Some EmptyString) tt)) as [args|e];
      [|injection Hrun as <- <-; left; eauto].
    injection Hrun as <- <-. right. do 2 eexists. split; [reflexivity|].
    split; [reflexivity|]. cbn [text_deltas]. rewrite Hsilent, Hsame.
    split; [reflexivity|]. destruct (truthy call_id); reflexivity.
  - rewrite handle_output_run in Hrun.
    destruct (fst (raw_field raw "call_id" None tt)) as [call_id|e];
      [|injection Hrun as <- <-; left; eauto].
    right. cbn [text_deltas]. rewrite Hsilent, Hsame.
    destruct (truthy call_id) as [c|]; [destruct (dict_lookup (tool_steps loc) c)|];
      injection Hrun as <- <-.
    + exists loc, [StepUpdate n output]. auto.
    + exists loc, []. rewrite app_nil_r. auto.
    + exists loc, []. rewrite app_nil_r. auto.
  - injection Hrun as <- <-. right. exists loc, []. cbn [text_deltas].
    rewrite app_nil_r, Hsilent, Hsame. auto.
  - rewrite handle_delta_run in Hrun. right. cbn [text_deltas].
    destruct (msg loc) as [m|] eqn:Hm; injection Hrun as <- <-.
    + exists loc, [MessageStreamToken m delta]. auto.
    + do 2 eexists. split; [reflexivity|]. cbn [log]. rewrite <- app_assoc.
      split; [reflexivity|]. split; reflexivity.
  - injection Hrun as <- <-. right. exists loc, []. cbn [text_deltas].
    rewrite app_nil_r, Hsilent, Hsame. auto.
  - injection Hrun as <- <-. right. exists loc, []. cbn [text_deltas].
    rewrite app_nil_r, Hsilent, Hsame. auto.
Qed.

(** The loop handles a prefix [done] of the events (all of them unless an
    event raises) and appends actions of which those on a message widget are
    the trace of the deltas handled. *)
Lemma stream_loop_messages (evs : list event) : forall (loc0 : locals) (ui0 : UI) r ui,
  stream_loop loc0 evs ui0 = (r, ui) ->
  exists done rest added w,
    evs = done ++ rest /\
    (forall loc, r = Return loc ->
       rest = [] /\ msg loc = message_after (msg loc0) w (text_deltas done)) /\
    log ui = log ui0 ++ added /\
    message_actions added = message_trace (msg loc0) w (text_deltas done).
Proof.
  induction evs as [|ev evs IH]; intros loc0 ui0 r ui Hrun.
  - injection Hrun as <- <-. exists [], [], [], O. cbn [text_deltas].
    split; [reflexivity|]. split; [|split; [now rewrite app_nil_r|]].
    + intros l [= <-]. split; [reflexivity|]. destruct (msg loc0); reflexivity.
    + destruct (msg loc0); reflexivity.
  - cbn [stream_loop] in Hrun. unfold bind in Hrun.
    destruct (handle_event loc0 ev ui0) as [r1 ui1] eqn:Hev.
    destruct (handle_event_messages _ _ _ _ _ Hev)
      as [(e & -> & ->)|(loc1 & added1 & -> & Hlog1 & Hmsg1 & Hafter1)].
    + injection Hrun as <- <-. exists [], (ev :: evs), [], O. cbn [text_deltas].
      split; [reflexivity|]. split; [discriminate|].
      split; [now rewrite app_nil_r|]. destruct (msg loc0); reflexivity.
    + destruct (IH _ _ _ _ Hrun) as (done & rest & added2 & w2 & -> & Hret & Hlog2 & Hmsg2).
      exists (ev :: done), rest, (added1 ++ added2),
        (first_widget (msg loc0) (text_deltas [ev]) (next_widget ui0) w2).
      rewrite (text_deltas_cons ev done), <- message_trace_app, <- message_after_app.
      rewrite <- Hafter1. split; [reflexivity|]. split; [exact Hret|]. split.
      * rewrite Hlog2, Hlog1, app_assoc. reflexivity.
      * rewrite message_actions_app, Hmsg1, Hmsg2. reflexivity.
Qed.

(** The loop only appends to the display log. *)
Lemma stream_loop_appends (evs : list event) (loc0 : locals) (ui0 : UI) r ui :
  stream_loop loc0 evs ui0 = (r, ui) -> exists added, log ui = log ui0 ++ added.
Proof.
  intros Hrun. destruct (stream_loop_messages _ _ _ _ _ Hrun) as (_ & _ & added & _ & _ & _ & H & _).
  exists added. exact H.
Qed.

(** C8.  Over any sequence of events, (1) a tool-output event updates a
    display step only if a tool-call event with the same call id came earlier
    in the stream, and is dropped otherwise: the display is left as it was,
    and the loop goes on whenever the call id could be read; (2) the message
    widget is created at most once, by the first text delta, and every later
    delta is streamed to that same widget. *)
Theorem stream_loop_invariants (evs : list event) (ui0 : UI) :
  (forall pre raw output post loc ui r ui',
     evs = pre ++ RunItemStreamEvent (ToolCallOutputItem raw output) :: post ->
     stream_loop initial_locals pre ui0 = (Return loc, ui) ->
     handle_event loc (RunItemStreamEvent (ToolCallOutputItem raw output)) ui = (r, ui') ->
     (ui' = ui \/
      (called_before pre raw /\
       exists step,
         ui' = {| next_widget := next_widget ui;
                  log := log ui ++ [StepUpdate step output] |})) /\
     (~ called_before pre raw -> ui' = ui) /\
     (forall call_id, fst (raw_field raw "call_id" None tt) = Return call_id ->
        r = Return loc)) /\
  (forall r ui,
     stream_loop initial_locals evs ui0 = (r, ui) ->
     exists done rest added w,
       evs = done ++ rest /\
       (forall loc, r = Return loc -> rest = []) /\
       log ui = log ui0 ++ added /\
       message_actions added =
         match text_deltas done with
         | [] => []
         | first :: later =>
             MessageSend w EmptyString :: MessageStreamToken w first ::
             map (MessageStreamToken w) later
         end).
Proof.
  split.
  - intros pre raw output post loc ui r ui' _ Hpre Hev.
    rewrite handle_output_run in Hev.
    assert (Hcases : (ui' = ui \/
              (called_before pre raw /\
               exists step,
                 ui' = {| next_widget := next_widget ui;
                          log := log ui ++ [StepUpdate step output] |})) /\
            (forall call_id, fst (raw_field raw "call_id" None tt) = Return call_id ->
               r = Return loc)).
    { destruct (fst (raw_field raw "call_id" None tt)) as [call_id|e] eqn:Hread.
      - destruct (truthy call_id) as [cid|] eqn:Htruthy.
        + destruct (dict_lookup (tool_steps loc) cid) as [step|] eqn:Hstep;
            injection Hev as <- <-; (split; [|reflexivity]); [right|left; reflexivity].
          split; [|exists step; reflexivity].
          destruct (stream_loop_tool_steps _ _ _ _ _ _ _ Hpre Hstep) as [H0|(raw' & Hin & Hcid)];
            [discriminate H0|].
          exists cid, raw'. split; [|split; assumption].
          unfold call_id_of. rewrite Hread. exact Htruthy.
        + injection Hev as <- <-. split; [left|]; reflexivity.
      - injection Hev as <- <-. split; [left; reflexivity | discriminate]. }
    destruct Hcases as [Hupd Hret]. split; [exact Hupd|]. split; [|exact Hret].
    intros Hnot. destruct Hupd as [H|[H _]]; [exact H | contradiction].
  - intros r ui Hrun.
    destruct (stream_loop_messages _ _ _ _ _ Hrun)
      as (done & rest & added & w & Hevs & Hret & Hlog & Hmsg).
    exists done, rest, added, w. split; [exact Hevs|]. split; [|split; [exact Hlog|]].
    + intros loc Hr. apply (Hret loc Hr).
    + rewrite Hmsg. cbn [initial_locals msg message_trace].
      destruct (text_deltas done); reflexivity.
Qed.

(** After the tool call "c1", the output for the unknown "c9" is dropped. *)
Lemma stream_loop_invariants_witness :
  let call := RunItemStreamEvent (ToolCallItem
                (RawObject [("name", Some "order_specialist"); ("call_id", Some "c1");
                            ("arguments", Some "{}")])) in
  let unknown := RawDict [("call_id", Some "c9")] in
  let shown := {| next_widget := 1;
                  log := [StepSend 0 (Some "order_specialist") (Some "{}")] |} in
  snd (handle_event {| tool_steps := [("c1", 0%nat)]; msg := None |}
         (RunItemStreamEvent (ToolCallOutputItem unknown "lost")) shown) = shown.
Proof.
  intros call unknown shown.
  destruct (stream_loop_invariants
              [call; RunItemStreamEvent (ToolCallOutputItem unknown "lost")]
              {| next_widget := 0; log := [] |}) as [Houtput _].
  refine (proj1 (proj2 (Houtput [call] unknown "lost" [] _ shown _ _ eq_refl eq_refl
                          (surjective_pairing _))) _).
  intros (cid & raw' & Hcid & [Hin|[]] & Hcid').
  injection Hin as <-. vm_compute in Hcid, Hcid'. congruence.
Defined.

(** C4 as amended.  The guardrail's [tripwire_triggered] is the [is_abusive]
    field of the AbuseDetector's output.  When the tripwire exception ends the
    stream, [on_message] sends the fixed apology as a new message after the
    display updates it had already forwarded, which stay; the apology is the
    only message shown when no text delta came before the exception. *)
Theorem abuse_guardrail_and_apology
    (run_abuse_detector : string -> outcome Models.AbuseCheck) (input_data : string)
    (evs : list event) (ui : UI) :
  (forall check,
     run_abuse_detector input_data = Return check ->
     exists out,
       AgentsDef.abuse_guardrail run_abuse_detector input_data = Return out /\
       AgentsDef.output_info out = check /\
       AgentsDef.tripwire_triggered out = Models.is_abusive check) /\
  (forall loc ui',
     stream_loop initial_locals evs ui = (Return loc, ui') ->
     exists forwarded,
       log ui' = log ui ++ forwarded /\
       on_message (tripped_after evs) ui =
         (Return tt,
          {| next_widget := S (next_widget ui');
             log := (log ui ++ forwarded) ++ [MessageSend (next_widget ui') apology] |}) /\
       (text_deltas evs = [] ->
        message_actions (forwarded ++ [MessageSend (next_widget ui') apology])
        = [MessageSend (next_widget ui') apology])) /\
  on_message (tripped_after []) ui =
    (Return tt,
     {| next_widget := S (next_widget ui);
        log := log ui ++ [MessageSend (next_widget ui) apology] |}).
Proof.
  split; [|split].
  - intros check Hrun. unfold AgentsDef.abuse_guardrail. rewrite Hrun.
    eexists. split; [reflexivity|]. split; reflexivity.
  - intros loc ui' Hloop.
    destruct (stream_loop_messages _ _ _ _ _ Hloop)
      as (done & rest & forwarded & w & Hevs & Hret & Hlog & Hmsg).
    destruct (Hret loc eq_refl) as [-> _]. rewrite app_nil_r in Hevs. subst done.
    exists forwarded. split; [exact Hlog|]. split.
    + unfold initial_locals in Hloop.
      unfold on_message, try_except, bind, tripped_after. cbn [events ending].
      rewrite Hloop. cbn. rewrite Hlog. reflexivity.
    + intros Hnone. rewrite message_actions_app, Hmsg, Hnone. reflexivity.
  - reflexivity.
Qed.

Lemma abuse_guardrail_and_apology_witness :
  (exists out,
     AgentsDef.abuse_guardrail
       (fun _ => Return {| Models.is_abusive := true; Models.reason := "threat" |})
       "you are useless" = Return out /\
     AgentsDef.tripwire_triggered out = true) /\
  on_message (tripped_after [OtherEvent "agent_updated_stream_event"])
    {| next_widget := 0; log := [] |}
  = (Return tt, {| next_widget := 1; log := [MessageSend 0 apology] |}).
Proof.
  destruct (abuse_guardrail_and_apology
              (fun _ => Return {| Models.is_abusive := true; Models.reason := "threat" |})
              "you are useless" [OtherEvent "agent_updated_stream_event"]
              {| next_widget := 0; log := [] |}) as (Hguard & Hstream & _).
  destruct (Hguard _ eq_refl) as (out & Hout & _ & Htrip).
  destruct (Hstream initial_locals {| next_widget := 0; log := [] |} eq_refl)
    as (forwarded & Hlog & Hsent & _).
  split; [exists out; split; assumption|].
  destruct forwarded; [exact Hsent | discriminate Hlog].
Defined.

(** C4 as stated fails: a text delta that arrives before the tripwire
    exception is already on display when the apology is sent. *)
Lemma on_message_tripwire_counterexample :
  on_message (tripped_after [RawResponseEvent (Some "Sure, your refund")])
    {| next_widget := 0; log := [] |}
  = (Return tt,
     {| next_widget := 2;
        log := [ MessageSend 0 EmptyString;
                 MessageStreamToken 0 "Sure, your refund";
                 MessageSend 1 apology ] |}).
Proof. reflexivity. Qed.

End AppSpec.

(** ** The filesystem tools *)

Module FilesystemSpec.

Import FilesystemAgent CleanupSpec.

Section Params.

Variable expanduser : string -> string.
Variable str_lower : string -> string.
Variable size_mb_of : Z -> float.
Variable format_mtime : Z -> string + string.
Variable timestamp_now : string -> string.
Variable mkdir_parents : string -> M FS unit.
Variable shutil_move : string -> string -> M FS unit.
Variable str_exn : exn -> string.

(** One entry handled in a dry run: the file system stays, a directory adds
    nothing, a hidden file one "skipped" action, any other file one
    "would_move" action. *)
Lemma organize_item_dry_run (folder : string) (acc : tally) (name : string) (fs : FS) :
  exists acc',
    organize_item str_lower timestamp_now mkdir_parents shutil_move str_exn folder true acc name fs
      = (Return acc', fs) /\
    moved_count acc' = (moved_count acc + if plain_file fs folder name then 1 else 0)%nat /\
    skipped_count acc' = (skipped_count acc + if hidden_file fs folder name then 1 else 0)%nat /\
    exists added,
      actions acc' = actions acc ++ added /\
      Forall (fun a => action a = "skipped" \/ action a = "would_move") added /\
      (hidden_file fs folder name = true ->
       exists a, In a added /\ file_name a = name /\ action a = "skipped") /\
      (plain_file fs folder name = true ->
       exists a, In a added /\ file_name a = name /\ action a = "would_move").
Proof.
  unfold organize_item, hidden_file, plain_file, bind, gets, id.
  destruct (is_dir fs (joinpath folder name)); cbn [negb andb].
  - exists acc. split; [reflexivity|]. rewrite !Nat.add_0_r. split; [reflexivity|].
    split; [reflexivity|]. exists []. rewrite app_nil_r.
    repeat split; try discriminate. constructor.
  - destruct (startswith "." name); cbn [negb].
    + eexists. split; [reflexivity|]. cbn [moved_count skipped_count actions].
      rewrite Nat.add_0_r, Nat.add_1_r. split; [reflexivity|]. split; [reflexivity|].
      eexists. split; [reflexivity|]. split; [|split]; try discriminate.
      * constructor; [left; reflexivity | constructor].
      * intros _. eexists. split; [left; reflexivity|]. split; reflexivity.
    + eexists. split; [reflexivity|]. cbn [moved_count skipped_count actions].
      rewrite Nat.add_0_r, Nat.add_1_r. split; [reflexivity|]. split; [reflexivity|].
      eexists. split; [reflexivity|]. split; [|split]; try discriminate.
      * constructor; [right; reflexivity | constructor].
      * intros _. eexists. split; [left; reflexivity|]. split; reflexivity.
Qed.

(** The dry-run loop: the file system stays, and the tallies and actions
    grow by what each entry adds. *)
Lemma organize_loop_dry_run (folder : string) (names : list string) : forall (acc : tally) (fs : FS),
  exists acc',
    organize_loop str_lower timestamp_now mkdir_parents shutil_move str_exn folder true acc names fs
      = (Return acc', fs) /\
    moved_count acc' = (moved_count acc + length (List.filter (plain_file fs folder) names))%nat /\
    skipped_count acc' = (skipped_count acc + length (List.filter (hidden_file fs folder) names))%nat /\
    exists added,
      actions acc' = actions acc ++ added /\
      Forall (fun a => action a = "skipped" \/ action a = "would_move") added /\
      (forall name, In name names -> hidden_file fs folder name = true ->
       exists a, In a added /\ file_name a = name /\ action a = "skipped") /\
      (forall name, In name names -> plain_file fs folder name = true ->
       exists a, In a added /\ file_name a = name /\ action a = "would_move").
Proof.
  induction names as [|name names IH]; intros acc fs.
  - exists acc. split; [reflexivity|]. cbn [List.filter length]. rewrite !Nat.add_0_r.
    split; [reflexivity|]. split; [reflexivity|]. exists []. rewrite app_nil_r.
    split; [reflexivity|]. split; [constructor|]. split; intros name [].
  - destruct (organize_item_dry_run folder acc name fs)
      as (acc1 & Hrun1 & Hmoved1 & Hskipped1 & added1 & Hadd1 & Hall1 & Hhid1 & Hplain1).
    destruct (IH acc1 fs)
      as (acc2 & Hrun2 & Hmoved2 & Hskipped2 & added2 & Hadd2 & Hall2 & Hhid2 & Hplain2).
    exists acc2. split.
    { cbn [organize_loop]. unfold bind. rewrite Hrun1. exact Hrun2. }
    split.
    { rewrite Hmoved2, Hmoved1. cbn [List.filter].
      destruct (plain_file fs folder name); cbn [length]; lia. }
    split.
    { rewrite Hskipped2, Hskipped1. cbn [List.filter].
      destruct (hidden_file fs folder name); cbn [length]; lia. }
    exists (added1 ++ added2). split.
    { rewrite Hadd2, Hadd1, app_assoc. reflexivity. }
    split.
    { apply Forall_app. split; assumption. }
    split.
    + intros n [<-|Hin] Hn.
      * destruct (Hhid1 Hn) as (a & Ha & Hrest). exists a. split; [|exact Hrest].
        apply in_or_app. left; exact Ha.
      * destruct (Hhid2 n Hin Hn) as (a & Ha & Hrest). exists a. split; [|exact Hrest].
        apply in_or_app. right; exact Ha.
    + intros n [<-|Hin] Hn.
      * destruct (Hplain1 Hn) as (a & Ha & Hrest). exists a. split; [|exact Hrest].
        apply in_or_app. left; exact Ha.
      * destruct (Hplain2 n Hin Hn) as (a & Ha & Hrest). exists a. split; [|exact Hrest].
        apply in_or_app. right; exact Ha.
Qed.

(** C10.  With [dry_run=True], [organize_files] changes nothing in the file
    system: no file is moved and no directory is created.  For a valid
    folder, every entry that is neither hidden nor a directory is reported
    with action "would_move" and counted in [files_organized], every hidden
    file with action "skipped" and counted in [files_skipped], no other action
    is reported, and [total_files_processed] is the sum of the two counts. *)
Theorem organize_files_dry_run (source_folder : string) (fs : FS) :
  let folder := expanduser source_folder in
  let run := organize_files expanduser str_lower timestamp_now mkdir_parents shutil_move
               str_exn source_folder true fs in
  snd run = fs /\
  (path_exists fs folder = true -> is_dir fs folder = true ->
   exists files_organized files_skipped actions,
     fst run = Return (CleanupReport "DRY RUN" folder (files_organized + files_skipped)
                         files_organized files_skipped actions) /\
     files_organized = length (List.filter (plain_file fs folder) (iterdir fs folder)) /\
     files_skipped = length (List.filter (hidden_file fs folder) (iterdir fs folder)) /\
     (forall name, In name (iterdir fs folder) -> plain_file fs folder name = true ->
        exists a, In a actions /\ file_name a = name /\ action a = "would_move") /\
     (forall name, In name (iterdir fs folder) -> hidden_file fs folder name = true ->
        exists a, In a actions /\ file_name a = name /\ action a = "skipped") /\
     Forall (fun a => action a = "skipped" \/ action a = "would_move") actions).
Proof.
  intros folder run. subst run. unfold organize_files, bind, gets, id. fold folder.
  destruct (organize_loop_dry_run folder (iterdir fs folder)
              {| actions := []; moved_count := 0; skipped_count := 0 |} fs)
    as (acc & Hrun & Hmoved & Hskipped & added & Hadd & Hall & Hhid & Hplain).
  cbn [actions moved_count skipped_count] in Hmoved, Hskipped, Hadd.
  rewrite !Nat.add_0_l in *. cbn [app] in Hadd.
  split.
  - destruct (negb (path_exists fs folder) || negb (is_dir fs folder)); [reflexivity|].
    rewrite Hrun. reflexivity.
  - intros Hex Hdir. rewrite Hex, Hdir. cbn [negb orb]. rewrite Hrun. cbn [fst].
    exists (moved_count acc), (skipped_count acc), (actions acc).
    split; [reflexivity|]. split; [exact Hmoved|]. split; [exact Hskipped|].
    rewrite Hadd. split; [exact Hplain|]. split; [exact Hhid | exact Hall].
Qed.






End Params.


(** The dry run over the demo folder: two files to move, the hidden one
    skipped, the subfolder ignored, and the folder as it was. *)
Lemma organize_files_dry_run_witness :
  snd (organize_files absolute_path lower clock_reading mkdir_ok move_ok exn_text
         "/home/u/Downloads" true downloads) = downloads /\
  exists acts,
    fst (organize_files absolute_path lower clock_reading mkdir_ok move_ok exn_text
           "/home/u/Downloads" true downloads)
    = Return (CleanupReport "DRY RUN" "/home/u/Downloads" 3 2 1 acts).
Proof.
  destruct (organize_files_dry_run absolute_path lower clock_reading mkdir_ok move_ok exn_text
              "/home/u/Downloads" downloads) as [Hframe Hreport].
  destruct (Hreport eq_refl eq_refl) as (organized & skipped & acts & Hrun & -> & -> & _).
  split; [exact Hframe|]. exists acts. exact Hrun.
Defined.

End FilesystemSpec.

(** ** The outlier check of the dashboard agent *)

Module DashboardSpec.

Import DataDashboardAgent OutlierSpec.

(** The rows a mask selects are the positions that hold [true]. *)
Lemma selected_from_In (mask : list bool) : forall k i,
  In i (selected_from k mask) <-> (k <= i)%nat /\ nth_error mask (i - k) = Some true.
Proof.
  induction mask as [|b mask IH]; intros k i; cbn [selected_from].
  - split; [intros []|]. intros [_ H]. destruct (i - k)%nat; discriminate H.
  - assert (Hrest : In i (selected_from (S k) mask) <->
                    (k < i)%nat /\ nth_error (b :: mask) (i - k) = Some true).
    { rewrite IH. split; intros [Hle Hnth]; (split; [lia|]).
      - replace (i - k)%nat with (S (i - S k)) by lia. exact Hnth.
      - replace (i - k)%nat with (S (i - S k)) in Hnth by lia. exact Hnth. }
    destruct b.
    + cbn [In]. rewrite Hrest. split.
      * intros [<-|[Hlt Hnth]]; [|split; [lia|exact Hnth]].
        split; [lia|]. rewrite Nat.sub_diag. reflexivity.
      * intros [Hle Hnth]. destruct (Nat.eq_dec k i) as [->|Hne]; [left; reflexivity|].
        right. split; [lia|exact Hnth].
    + rewrite Hrest. split; intros [Hle Hnth]; [split; [lia|exact Hnth]|].
      split; [|exact Hnth].
      destruct (Nat.eq_dec k i) as [->|Hne]; [|lia].
      rewrite Nat.sub_diag in Hnth. discriminate Hnth.
Qed.

(** No row is selected twice. *)
Lemma selected_from_NoDup (mask : list bool) : forall k, List.NoDup (selected_from k mask).
Proof.
  induction mask as [|b mask IH]; intros k; cbn [selected_from]; [apply List.NoDup_nil|].
  destruct b; [|apply IH].
  apply List.NoDup_cons; [|apply IH].
  rewrite selected_from_In. intros [Hle _]. lia.
Qed.

Lemma out_of_bounds_iqr (Q1 Q3 v : float) :
  out_of_bounds (PrimFloat.sub Q1 (PrimFloat.mul 1.5 (PrimFloat.sub Q3 Q1)))
                (PrimFloat.add Q3 (PrimFloat.mul 1.5 (PrimFloat.sub Q3 Q1))) v = true
  <-> iqr_outlier Q1 Q3 v.
Proof. unfold out_of_bounds, iqr_outlier. cbn zeta. apply orb_true_iff. Qed.

Section Quantile.

Variable quantile : list float -> float -> float.
Variable other_dtype_check : DataFrame -> string -> outcome (option outlier_anomaly).
Variable str_strip : string -> string.

(** The loop over the columns returns what the loop body found for each
    column, in the order of the columns. *)
Lemma check_columns_collects (df : DataFrame) (cols : list string) :
  forall anomalies found,
    check_columns quantile other_dtype_check df cols anomalies = Return found <->
    exists results,
      Forall2 (fun col result =>
                 check_column quantile other_dtype_check df col = Return result)
              cols results /\
      found = anomalies ++ omap id results.
Proof.
  induction cols as [|col cols IH]; intros anomalies found; cbn [check_columns].
  - split.
    + intros [= <-]. exists []. split; [constructor|]. now rewrite app_nil_r.
    + intros (results & Hall & ->). inversion Hall; subst. now rewrite app_nil_r.
  - destruct (check_column quantile other_dtype_check df col) as [[a|]|e] eqn:Hcol.
    + rewrite IH. split.
      * intros (results & Hall & ->). exists (Some a :: results).
        split; [constructor; [exact Hcol | exact Hall]|].
        cbn. now rewrite <- app_assoc.
      * intros (results & Hall & ->). inversion Hall as [|? r ? results' Hr Hall']; subst.
        rewrite Hcol in Hr. injection Hr as <-. exists results'. split; [exact Hall'|].
        cbn. now rewrite <- app_assoc.
    + rewrite IH. split.
      * intros (results & Hall & ->). exists (None :: results).
        split; [constructor; [exact Hcol | exact Hall]|]. reflexivity.
      * intros (results & Hall & ->). inversion Hall as [|? r ? results' Hr Hall']; subst.
        rewrite Hcol in Hr. injection Hr as <-. exists results'. split; [exact Hall'|]. reflexivity.
    + split; [discriminate|].
      intros (results & Hall & _). inversion Hall as [|? r ? results' Hr Hall']; subst.
      rewrite Hcol in Hr. discriminate Hr.
Qed.

(** C6.  The outlier check follows the IQR method.  A column with fewer than
    10 non-null values is skipped: nothing is reported for it and its
    quantiles are not asked for.  For a numeric column with at least 10
    non-null values, with Q1 and Q3 the 0.25 and 0.75 quantiles of the
    non-null values, the rows counted as outliers are exactly the rows whose
    value is strictly below Q1 - 1.5 IQR or strictly above Q3 + 1.5 IQR; an
    anomaly with their number and the first ten of them is found when there
    is at least one.  A name that is no column is passed over, and what
    [detect_anomalies] reports as outliers is what is found for each of the
    columns to check, one after the other in their order. *)
Theorem detect_anomalies_iqr (df : DataFrame) (numeric_columns : option string) :
  (forall col c,
     dict_lookup df col = Some c ->
     ((count_non_null c < 10)%nat ->
      check_column quantile other_dtype_check df col = Return None) /\
     (forall values,
        c = Numeric values ->
        (10 <= length (dropna values))%nat ->
        let Q1 := quantile (dropna values) 0.25 in
        let Q3 := quantile (dropna values) 0.75 in
        let IQR := PrimFloat.sub Q3 Q1 in
        exists rows,
          List.NoDup rows /\
          (forall i, In i rows <->
             exists v, nth_error values i = Some v /\ iqr_outlier Q1 Q3 v) /\
          check_column quantile other_dtype_check df col =
            Return
              match rows with
              | [] => None
              | _ :: _ =>
                  Some {| type := "outliers";
                          description := "Column '" +:+ col +:+ "' has " +:+
                                         digits (Z.of_nat (length rows)) +:+
                                         " potential outliers";
                          location := "Column: " +:+ col;
                          severity := if (length rows <? 5)%nat then "low" else "medium";
                          lower_bound := PrimFloat.sub Q1 (PrimFloat.mul 1.5 IQR);
                          upper_bound := PrimFloat.add Q3 (PrimFloat.mul 1.5 IQR);
                          outlier_indices := take 10 rows |}
              end)) /\
  (forall col,
     dict_lookup df col = None ->
     check_column quantile other_dtype_check df col = Return None) /\
  (forall anomalies,
     detect_outliers quantile other_dtype_check str_strip df numeric_columns
       = Return anomalies <->
     exists results,
       Forall2 (fun col result =>
                  check_column quantile other_dtype_check df col = Return result)
               (cols_to_check str_strip df numeric_columns) results /\
       anomalies = omap id results).
Proof.
  split; [|split].
  - intros col c Hcol. split.
    + intros Hfew. unfold check_column. rewrite Hcol.
      apply Nat.ltb_lt in Hfew. rewrite Hfew. reflexivity.
    + intros values -> Hmany Q1 Q3 IQR.
      set (lower := PrimFloat.sub Q1 (PrimFloat.mul 1.5 IQR)).
      set (upper := PrimFloat.add Q3 (PrimFloat.mul 1.5 IQR)).
      exists (selected_from 0 (map (out_of_bounds lower upper) values)).
      split; [apply selected_from_NoDup|]. split.
      * intros i. rewrite selected_from_In, Nat.sub_0_r, nth_error_map.
        split.
        -- intros [_ Hnth]. destruct (nth_error values i) as [v|]; [|discriminate Hnth].
           exists v. split; [reflexivity|]. injection Hnth as Hv.
           apply out_of_bounds_iqr. exact Hv.
        -- intros (v & -> & Hv). split; [lia|]. cbn [option_map]. f_equal.
           apply out_of_bounds_iqr. exact Hv.
      * unfold check_column. rewrite Hcol. cbn [count_non_null].
        apply Nat.ltb_ge in Hmany. rewrite Hmany. cbn zeta.
        fold Q1. fold Q3. fold IQR. fold lower. fold upper.
        destruct (selected_from 0 (map (out_of_bounds lower upper) values)); reflexivity.
  - intros col Hcol. unfold check_column. rewrite Hcol. reflexivity.
  - intros anomalies. unfold detect_outliers.
    exact (check_columns_collects df _ [] anomalies).
Qed.

End Quantile.

(** In the demo frame the "returns" column, with 3 non-null values, is
    skipped; the "units" column has 11 values, quartiles 12.5 and 17.5, and
    one outlier, the 100 in row 10; asked for "units", a name that is no
    column and "returns", the check reports the anomaly of "units" alone. *)
Lemma detect_anomalies_iqr_witness :
  let units := [10; 11; 12; 13; 14; 15; 16; 17; 18; 19; 100]%float in
  let found :=
    {| type := "outliers";
       description := "Column 'units' has 1 potential outliers";
       location := "Column: units";
       severity := "low";
       lower_bound := 5;
       upper_bound := 25;
       outlier_indices := [10%nat] |} in
  check_column quantile_linear dtype_refused sales "returns" = Return None /\
  (exists rows,
     (forall i, In i rows <->
        exists v, nth_error units i = Some v /\
                  iqr_outlier (quantile_linear (dropna units) 0.25)
                              (quantile_linear (dropna units) 0.75) v) /\
     In 10%nat rows /\ ~ In 0%nat rows) /\
  quantile_linear (dropna units) 0.25 = 12.5%float /\
  quantile_linear (dropna units) 0.75 = 17.5%float /\
  check_column quantile_linear dtype_refused sales "units" = Return (Some found) /\
  detect_outliers quantile_linear dtype_refused strip sales (Some "units, price ,returns")
    = Return [found].
Proof.
  intros units found.
  pose proof (detect_anomalies_iqr quantile_linear dtype_refused strip sales
                (Some "units, price ,returns")) as (Hcolumn & Hmissing & Hreport).
  split; [|split; [|split; [|split; [|split]]]].
  - refine (proj1 (Hcolumn "returns" _ eq_refl) _). vm_compute. lia.
  - destruct (proj2 (Hcolumn "units" _ eq_refl) units eq_refl) as (rows & _ & Hrows & _).
    { vm_compute. lia. }
    exists rows. split; [exact Hrows|]. split.
    + apply Hrows. exists 100%float. split; [reflexivity|]. right. vm_compute. reflexivity.
    + intros Hin. apply Hrows in Hin as (v & Hnth & [Hv|Hv]);
        injection Hnth as <-; vm_compute in Hv; discriminate Hv.
  - vm_compute. reflexivity.
  - vm_compute. reflexivity.
  - vm_compute. reflexivity.
  - apply Hreport. exists [Some found; None; None]. split; [|reflexivity].
    constructor; [vm_compute; reflexivity|].
    constructor; [exact (Hmissing "price" eq_refl)|].
    constructor; [vm_compute; reflexivity | constructor].
Defined.

End DashboardSpec.

(** ** Further properties of the customer-service tools *)

Module ToolsMore.

Import Tools ToolsNotions.

Lemma append_inj_l (a b c : string) : a +:+ b = a +:+ c -> b = c.
Proof.
  induction a as [|x a IH]; intros H; [exact H|].
  apply IH. change (String x (a +:+ b) = String x (a +:+ c)) in H. now injection H.
Qed.

(** Two texts that start differently are different. *)
Lemma startswith_differs (p a b : string) :
  startswith p a = true -> startswith p b = false -> a <> b.
Proof. intros Ha Hb ->. rewrite Ha in Hb. discriminate Hb. Qed.

Lemma calculate_refund_missing (s : Store) (order_id reason : string) :
  dict_lookup (ORDERS_DB s) order_id = None ->
  fst (calculate_refund order_id reason s) = Return ("Order " +:+ order_id +:+ " not found.").
Proof. intros Hin. ToolsSpec.run_tool. rewrite (ToolsSpec.missing_getitem _ _ Hin). reflexivity. Qed.

Lemma process_refund_missing (s : Store) (order_id : string) :
  dict_lookup (ORDERS_DB s) order_id = None ->
  fst (process_refund order_id s) = Return ("Order " +:+ order_id +:+ " not found.").
Proof. intros Hin. ToolsSpec.run_tool. rewrite (ToolsSpec.missing_getitem _ _ Hin). reflexivity. Qed.

(** [list_customer_orders], run: the listing is made from the customer's own
    entries. *)
Lemma list_customer_orders_run (s : Store) :
  fst (list_customer_orders s) =
  Return
    match map (fun '(oid, o) =>
                 "- " +:+ oid +:+ ": " +:+ Config.item o +:+
                 " ($" +:+ format_2f (Config.price o) +:+ ") - " +:+ Config.status o)
              (orders_of (Models.customer_id (context s)) (ORDERS_DB s)) with
    | [] => "No orders found for your account."
    | line :: lines => "Your orders:" +:+ nl +:+ join nl (line :: lines)
    end.
Proof.
  ToolsSpec.run_tool. unfold orders_of.
  replace (List.filter (owned_by (Models.customer_id (context s))) (ORDERS_DB s))
    with (List.filter (fun '(_, o) =>
                         String.eqb (Config.customer_id o) (Models.customer_id (context s)))
                      (ORDERS_DB s)).
  - destruct (map _ _); reflexivity.
  - apply List.filter_ext. intros [oid o]. reflexivity.
Qed.

(** X1.  [list_customer_orders] answers "No orders found for your account."
    exactly when no entry of [ORDERS_DB] carries the context customer's id,
    and what it returns is decided by the customer's own entries alone: two
    databases that agree on them give the same listing, whatever other
    customers' orders they hold. *)
Theorem list_customer_orders_own_only (s : Store) :
  (fst (list_customer_orders s) = Return "No orders found for your account." <->
   forall oid o, In (oid, o) (ORDERS_DB s) ->
                 Config.customer_id o <> Models.customer_id (context s)) /\
  (forall other : dict Config.Order,
     orders_of (Models.customer_id (context s)) other
     = orders_of (Models.customer_id (context s)) (ORDERS_DB s) ->
     fst (list_customer_orders {| ORDERS_DB := other; context := context s |})
     = fst (list_customer_orders s)).
Proof.
  split.
  - rewrite list_customer_orders_run.
    assert (Hnone : orders_of (Models.customer_id (context s)) (ORDERS_DB s) = [] <->
                    forall oid o, In (oid, o) (ORDERS_DB s) ->
                                  Config.customer_id o <> Models.customer_id (context s)).
    { unfold orders_of. split.
      - intros Hnil oid o Hin Heq.
        assert (Hmine : In (oid, o)
                  (List.filter (owned_by (Models.customer_id (context s))) (ORDERS_DB s))).
        { apply List.filter_In. split; [exact Hin|]. unfold owned_by. cbn [snd].
          rewrite Heq. apply String.eqb_refl. }
        rewrite Hnil in Hmine. destruct Hmine.
      - intros Hall.
        destruct (List.filter (owned_by (Models.customer_id (context s))) (ORDERS_DB s))
          as [|[oid o] rest] eqn:Hf; [reflexivity|].
        assert (Hmine : In (oid, o)
                  (List.filter (owned_by (Models.customer_id (context s))) (ORDERS_DB s)))
          by (rewrite Hf; left; reflexivity).
        apply List.filter_In in Hmine as [Hin Hown].
        unfold owned_by in Hown. cbn [snd] in Hown. apply String.eqb_eq in Hown.
        destruct (Hall oid o Hin Hown). }
    rewrite <- Hnone.
    destruct (orders_of (Models.customer_id (context s)) (ORDERS_DB s)) as [|[oid o] rest].
    + split; reflexivity.
    + cbn [map]. split; [|discriminate]. intros H. exfalso.
      apply (f_equal returned_text) in H. revert H.
      apply (startswith_differs "Y"); reflexivity.
  - intros other Hsame. rewrite !list_customer_orders_run. cbn [ORDERS_DB context].
    rewrite Hsame. reflexivity.
Qed.

(** Bob's listing does not change when Alice's two orders are removed. *)
Lemma list_customer_orders_own_only_witness :
  fst (list_customer_orders
         {| ORDERS_DB := [("ORD-003", Demo.ORD_003)]; context := Demo.bob |})
  = fst (list_customer_orders Demo.bob_store) /\
  fst (list_customer_orders Demo.bob_store)
  = Return ("Your orders:" +:+ nl +:+ "- ORD-003: USB Cable ($12.99) - processing").
Proof.
  split; [|reflexivity].
  exact (proj2 (list_customer_orders_own_only Demo.bob_store)
           [("ORD-003", Demo.ORD_003)] eq_refl).
Defined.

(** X2.  An [order_id] that is not a key of [ORDERS_DB] gets the same answer
    "Order {order_id} not found." from [lookup_order], [calculate_refund] and
    [process_refund]; none of them raises on the missing key. *)
Theorem missing_order_not_found (s : Store) (order_id reason : string) :
  dict_lookup (ORDERS_DB s) order_id = None ->
  let not_found := Return ("Order " +:+ order_id +:+ " not found.") in
  fst (lookup_order order_id s) = not_found /\
  fst (calculate_refund order_id reason s) = not_found /\
  fst (process_refund order_id s) = not_found.
Proof.
  intros Hin not_found. split; [|split].
  - apply ToolsSpec.lookup_order_missing, Hin.
  - apply calculate_refund_missing, Hin.
  - apply process_refund_missing, Hin.
Qed.

Lemma missing_order_not_found_witness :
  fst (lookup_order "ORD-404" Demo.alice_store) = Return "Order ORD-404 not found." /\
  fst (calculate_refund "ORD-404" "never arrived" Demo.alice_store)
    = Return "Order ORD-404 not found." /\
  fst (process_refund "ORD-404" Demo.alice_store) = Return "Order ORD-404 not found.".
Proof. exact (missing_order_not_found Demo.alice_store "ORD-404" "never arrived" eq_refl). Defined.

(** X3.  What [lookup_order] and [calculate_refund] say about another
    customer's order does not depend on the order: item, price, status and
    tracking of a foreign order never reach the caller. *)
Theorem foreign_order_not_disclosed
    (s1 s2 : Store) (order_id reason : string) (o1 o2 : Config.Order) :
  context s1 = context s2 ->
  dict_lookup (ORDERS_DB s1) order_id = Some o1 ->
  dict_lookup (ORDERS_DB s2) order_id = Some o2 ->
  Config.customer_id o1 <> Models.customer_id (context s1) ->
  Config.customer_id o2 <> Models.customer_id (context s2) ->
  fst (lookup_order order_id s1) = fst (lookup_order order_id s2) /\
  fst (calculate_refund order_id reason s1) = fst (calculate_refund order_id reason s2).
Proof.
  intros Hctx H1 H2 Hf1 Hf2. split.
  - rewrite (ToolsSpec.lookup_order_foreign _ _ _ H1 Hf1),
            (ToolsSpec.lookup_order_foreign _ _ _ H2 Hf2). reflexivity.
  - rewrite (ToolsSpec.calculate_refund_foreign _ _ _ _ H1 Hf1),
            (ToolsSpec.calculate_refund_foreign _ _ _ _ H2 Hf2). reflexivity.
Qed.

(** Bob learns the same about Alice's ORD-001 and her ORD-002. *)
Lemma foreign_order_not_disclosed_witness :
  fst (lookup_order "ORD-001" Demo.bob_store)
  = fst (lookup_order "ORD-001"
           {| ORDERS_DB := [("ORD-001", Demo.ORD_002)]; context := Demo.bob |}) /\
  fst (calculate_refund "ORD-001" "mine" Demo.bob_store)
  = fst (calculate_refund "ORD-001" "mine"
           {| ORDERS_DB := [("ORD-001", Demo.ORD_002)]; context := Demo.bob |}).
Proof.
  refine (foreign_order_not_disclosed Demo.bob_store
            {| ORDERS_DB := [("ORD-001", Demo.ORD_002)]; context := Demo.bob |}
            "ORD-001" "mine" Demo.ORD_001 Demo.ORD_002 eq_refl eq_refl eq_refl _ _);
    discriminate.
Defined.

(** X4.  The two owner-checking tools still tell a caller whether an order id
    exists: the answer for an absent id differs from the answer for an order
    of another customer. *)
Theorem foreign_order_existence_shows
    (s1 s2 : Store) (order_id reason : string) (o : Config.Order) :
  dict_lookup (ORDERS_DB s1) order_id = None ->
  dict_lookup (ORDERS_DB s2) order_id = Some o ->
  Config.customer_id o <> Models.customer_id (context s2) ->
  fst (lookup_order order_id s1) <> fst (lookup_order order_id s2) /\
  fst (calculate_refund order_id reason s1) <> fst (calculate_refund order_id reason s2).
Proof.
  intros Hnone Hsome Hforeign. split.
  - rewrite (ToolsSpec.lookup_order_missing _ _ Hnone),
            (ToolsSpec.lookup_order_foreign _ _ _ Hsome Hforeign).
    intros H. apply (f_equal returned_text) in H. cbn [returned_text] in H.
    apply append_inj_l, append_inj_l in H. discriminate H.
  - rewrite (calculate_refund_missing _ _ _ Hnone),
            (ToolsSpec.calculate_refund_foreign _ _ _ _ Hsome Hforeign).
    intros H. apply (f_equal returned_text) in H. revert H.
    apply (startswith_differs "O"); reflexivity.
Qed.

Lemma foreign_order_existence_shows_witness :
  fst (lookup_order "ORD-001" {| ORDERS_DB := []; context := Demo.bob |})
  <> fst (lookup_order "ORD-001" Demo.bob_store) /\
  fst (calculate_refund "ORD-001" "mine" {| ORDERS_DB := []; context := Demo.bob |})
  <> fst (calculate_refund "ORD-001" "mine" Demo.bob_store).
Proof.
  refine (foreign_order_existence_shows {| ORDERS_DB := []; context := Demo.bob |}
            Demo.bob_store "ORD-001" "mine" Demo.ORD_001 eq_refl eq_refl _).
  discriminate.
Defined.

(** X5.  [process_refund] keeps no record of a refund: called twice in a row
    for an order of [ORDERS_DB], it confirms the full amount both times and
    leaves the database as it was. *)
Theorem process_refund_repeats (s : Store) (order_id : string) (order : Config.Order) :
  dict_lookup (ORDERS_DB s) order_id = Some order ->
  let confirmation :=
    refund_confirmation order_id (Config.price order) (Models.customer_name (context s)) in
  refund_twice order_id s = (Return (confirmation, confirmation), s).
Proof.
  intros Hin confirmation. unfold refund_twice, bind.
  pose proof (ToolsSpec.process_refund_present s order_id order Hin) as Hfst.
  pose proof (ToolsSpec.process_refund_read_only order_id s) as Hsnd.
  destruct (process_refund order_id s) as [r s'] eqn:Hrun.
  cbn [fst snd] in Hfst, Hsnd. subst r s'. rewrite Hrun. reflexivity.
Qed.

Lemma process_refund_repeats_witness :
  exists confirmation,
    refund_twice "ORD-002" Demo.alice_store
    = (Return (confirmation, confirmation), Demo.alice_store) /\
    startswith "Refund processed successfully!" confirmation = true.
Proof.
  eexists. split.
  - exact (process_refund_repeats Demo.alice_store "ORD-002" Demo.ORD_002 eq_refl).
  - reflexivity.
Defined.

(** X6.  [process_refund] does not ask whether the order is eligible: for the
    customer's own order that [calculate_refund] tells to wait for (shipped,
    not premium) or cannot process (a status other than "processing",
    "shipped" and "delivered"), it still confirms a refund of the full price. *)
Theorem process_refund_skips_eligibility
    (s : Store) (order_id reason : string) (order : Config.Order) :
  dict_lookup (ORDERS_DB s) order_id = Some order ->
  Config.customer_id order = Models.customer_id (context s) ->
  let refunded :=
    Return (refund_confirmation order_id (Config.price order)
              (Models.customer_name (context s))) in
  (Config.status order = "shipped" -> Models.is_premium (context s) = false ->
   fst (calculate_refund order_id reason s)
     = Return ("Order in transit. Please wait for delivery to request refund. Reason: " +:+
               reason) /\
   fst (process_refund order_id s) = refunded) /\
  (Config.status order <> "processing" -> Config.status order <> "shipped" ->
   Config.status order <> "delivered" ->
   fst (calculate_refund order_id reason s)
     = Return ("Unable to process refund for order " +:+ order_id) /\
   fst (process_refund order_id s) = refunded).
Proof.
  intros Hin Hown refunded.
  pose proof (ToolsSpec.process_refund_present s order_id order Hin) as Hrefund.
  pose proof (ToolsSpec.calculate_refund_owned s order_id reason order Hin Hown) as Hcalc.
  cbn zeta in Hcalc. split.
  - intros Hst Hprem. split; [|exact Hrefund].
    rewrite Hcalc, Hst, Hprem. reflexivity.
  - intros H1 H2 H3. split; [|exact Hrefund].
    apply String.eqb_neq in H1, H2, H3. rewrite Hcalc, H1, H2, H3. reflexivity.
Qed.

Lemma process_refund_skips_eligibility_witness :
  fst (calculate_refund "ORD-009" "changed my mind" returned_store)
    = Return "Unable to process refund for order ORD-009" /\
  fst (process_refund "ORD-009" returned_store)
    = Return (refund_confirmation "ORD-009" 34.5 "Alice Johnson").
Proof.
  refine (proj2 (process_refund_skips_eligibility returned_store "ORD-009" "changed my mind"
                   _ eq_refl eq_refl) _ _ _); discriminate.
Defined.

(** X7.  The premium flag matters to [calculate_refund] only for a shipped
    order: for the customer's own order in any other status the answer is the
    same for a premium and a non-premium caller, and for a shipped order the
    two answers differ. *)
Theorem premium_matters_only_when_shipped
    (s : Store) (order_id reason : string) (order : Config.Order)
    (caller : Models.CustomerContext) :
  dict_lookup (ORDERS_DB s) order_id = Some order ->
  Config.customer_id order = Models.customer_id (context s) ->
  Models.customer_id caller = Models.customer_id (context s) ->
  (Config.status order <> "shipped" ->
   fst (calculate_refund order_id reason (as_caller caller s))
   = fst (calculate_refund order_id reason s)) /\
  (Config.status order = "shipped" ->
   Models.is_premium caller <> Models.is_premium (context s) ->
   fst (calculate_refund order_id reason (as_caller caller s))
   <> fst (calculate_refund order_id reason s)).
Proof.
  intros Hin Hown Hcaller.
  assert (Hown' : Config.customer_id order = Models.customer_id (context (as_caller caller s)))
    by (cbn [as_caller context]; congruence).
  rewrite (ToolsSpec.calculate_refund_owned (as_caller caller s) order_id reason order Hin Hown').
  rewrite (ToolsSpec.calculate_refund_owned s order_id reason order Hin Hown).
  cbn zeta. cbn [as_caller context]. split.
  - intros Hst. apply String.eqb_neq in Hst. rewrite Hst.
    destruct (String.eqb (Config.status order) "processing"); reflexivity.
  - intros Hst Hdiff. rewrite Hst. cbn [String.eqb Ascii.eqb Bool.eqb].
    intros H. apply (f_equal returned_text) in H. revert H.
    destruct (Models.is_premium caller), (Models.is_premium (context s));
      try (exfalso; apply Hdiff; reflexivity).
    + apply (startswith_differs "P"); reflexivity.
    + apply not_eq_sym, (startswith_differs "P"); reflexivity.
Qed.

(** Alice's delivered ORD-002 gets the same answer had she no premium
    status; her shipped ORD-001 does not. *)
Lemma premium_matters_only_when_shipped_witness :
  let plain_alice := {| Models.customer_id := "CUST-123";
                        Models.customer_name := "Alice Johnson";
                        Models.is_premium := false |} in
  fst (calculate_refund "ORD-002" "too small" (as_caller plain_alice Demo.alice_store))
  = fst (calculate_refund "ORD-002" "too small" Demo.alice_store) /\
  fst (calculate_refund "ORD-001" "too loud" (as_caller plain_alice Demo.alice_store))
  <> fst (calculate_refund "ORD-001" "too loud" Demo.alice_store).
Proof.
  intros plain_alice. split.
  - refine (proj1 (premium_matters_only_when_shipped Demo.alice_store "ORD-002" "too small"
                     Demo.ORD_002 plain_alice eq_refl eq_refl eq_refl) _).
    discriminate.
  - refine (proj2 (premium_matters_only_when_shipped Demo.alice_store "ORD-001" "too loud"
                     Demo.ORD_001 plain_alice eq_refl eq_refl eq_refl) eq_refl _).
    discriminate.
Defined.

End ToolsMore.

(** ** Further properties of the chat handler *)

Module AppMore.

Import App AppTrace AppNotions.

Lemma ui_eta (ui : UI) : {| next_widget := next_widget ui; log := log ui |} = ui.
Proof. destruct ui; reflexivity. Qed.

(** The only exception the loop body raises itself is the [AttributeError] of
    [raw.get] on an object. *)
Lemma raw_field_raises (raw : raw_item) key default e :
  fst (raw_field raw key default tt) = Raise e -> e = AttributeError "get".
Proof.
  unfold raw_field. destruct raw as [attrs|entries]; [|discriminate].
  destruct (dict_lookup attrs key); [discriminate|]. intros [= <-]. reflexivity.
Qed.

Lemma handle_event_raises (loc : locals) ev (ui : UI) e ui' :
  handle_event loc ev ui = (Raise e, ui') -> e = AttributeError "get" /\ ui' = ui.
Proof.
  intros Hrun. destruct ev as [[raw|raw output|ty]|[delta|]|ty]; try discriminate Hrun.
  - rewrite AppSpec.handle_call_run in Hrun.
    destruct (fst (raw_field raw "name" (Some "tool") tt)) as [name|e1] eqn:H1.
    + destruct (fst (raw_field raw "call_id" None tt)) as [call_id|e2] eqn:H2.
      * destruct (fst (raw_field raw "arguments" (Some EmptyString) tt)) as [args|e3] eqn:H3;
          [discriminate Hrun|].
        injection Hrun as <- <-. split; [|reflexivity]. exact (raw_field_raises _ _ _ _ H3).
      * injection Hrun as <- <-. split; [|reflexivity]. exact (raw_field_raises _ _ _ _ H2).
    + injection Hrun as <- <-. split; [|reflexivity]. exact (raw_field_raises _ _ _ _ H1).
  - rewrite AppSpec.handle_output_run in Hrun.
    destruct (fst (raw_field raw "call_id" None tt)) as [call_id|e2] eqn:H2.
    + destruct (truthy call_id) as [c|]; [destruct (dict_lookup (tool_steps loc) c)|];
        discriminate Hrun.
    + injection Hrun as <- <-. split; [|reflexivity]. exact (raw_field_raises _ _ _ _ H2).
  - rewrite AppSpec.handle_delta_run in Hrun. destruct (msg loc); discriminate Hrun.
Qed.

Lemma stream_loop_raises (evs : list event) : forall (loc0 : locals) (ui0 : UI) e ui,
  stream_loop loc0 evs ui0 = (Raise e, ui) -> e = AttributeError "get".
Proof.
  induction evs as [|ev evs IH]; intros loc0 ui0 e ui Hrun; [discriminate Hrun|].
  cbn [stream_loop] in Hrun. unfold bind in Hrun.
  destruct (handle_event loc0 ev ui0) as [[loc1|e1] ui1] eqn:Hev.
  - exact (IH _ _ _ _ Hrun).
  - injection Hrun as <- <-. exact (proj1 (handle_event_raises _ _ _ _ _ Hev)).
Qed.

(** X8.  When the stream ends normally, [on_message] returns after the
    display updates of the loop and finalizes the message widget with one
    [update] exactly when at least one text delta was streamed, on the widget
    that received the tokens; with no text delta it adds nothing. *)
Theorem on_message_finalizes (evs : list event) (ui : UI) (loc : locals) (ui' : UI) :
  stream_loop initial_locals evs ui = (Return loc, ui') ->
  exists forwarded w,
    log ui' = log ui ++ forwarded /\
    message_actions forwarded = message_trace None w (text_deltas evs) /\
    on_message (completed evs) ui =
      (Return tt,
       {| next_widget := next_widget ui';
          log := (log ui ++ forwarded) ++
                 match text_deltas evs with
                 | [] => []
                 | _ :: _ => [MessageUpdate w]
                 end |}).
Proof.
  intros Hloop.
  destruct (AppSpec.stream_loop_messages _ _ _ _ _ Hloop)
    as (done & rest & forwarded & w & Hevs & Hret & Hlog & Hmsg).
  destruct (Hret loc eq_refl) as [-> Hafter]. rewrite app_nil_r in Hevs. subst done.
  cbn [initial_locals msg] in Hafter, Hmsg.
  exists forwarded, w. split; [exact Hlog|]. split; [exact Hmsg|].
  unfold initial_locals in Hloop.
  unfold on_message, try_except, bind, completed. cbn [events ending].
  rewrite Hloop. cbn beta iota. rewrite Hafter, <- Hlog.
  destruct (text_deltas evs); cbn [message_after].
  - rewrite app_nil_r. unfold ret. now rewrite ui_eta.
  - reflexivity.
Qed.

Lemma on_message_finalizes_witness :
  on_message (completed [RawResponseEvent (Some "Hello"); RawResponseEvent (Some " Alice")])
    empty_display
  = (Return tt,
     {| next_widget := 1;
        log := [ MessageSend 0 EmptyString; MessageStreamToken 0 "Hello";
                 MessageStreamToken 0 " Alice"; MessageUpdate 0 ] |}).
Proof.
  destruct (on_message_finalizes
              [RawResponseEvent (Some "Hello"); RawResponseEvent (Some " Alice")]
              empty_display {| tool_steps := []; msg := Some 0%nat |}
              {| next_widget := 1;
                 log := [ MessageSend 0 EmptyString; MessageStreamToken 0 "Hello";
                          MessageStreamToken 0 " Alice" ] |} eq_refl)
    as (forwarded & w & Hlog & Hmsg & Hrun).
  cbn [log empty_display app] in Hlog. subst forwarded.
  injection Hmsg as <-. exact Hrun.
Defined.

(** X9.  [on_message] catches the guardrail exception only.  Any other
    exception that ends the stream leaves the handler as it is, after the
    display updates already made, with no apology and no final [update]; so
    does the [AttributeError] of a raw item that is an object without the
    attribute asked for, and the events after it are never handled. *)
Theorem on_message_propagates (evs : list event) (ending : option exn) (ui : UI) :
  (forall e loc ui',
     stream_loop initial_locals evs ui = (Return loc, ui') ->
     ending = Some e -> is_tripwire e = false ->
     on_message {| events := evs; ending := ending |} ui = (Raise e, ui')) /\
  (forall e ui',
     stream_loop initial_locals evs ui = (Raise e, ui') ->
     e = AttributeError "get" /\
     on_message {| events := evs; ending := ending |} ui = (Raise e, ui')).
Proof.
  split.
  - intros e loc ui' Hloop -> Hother. unfold initial_locals in Hloop.
    unfold on_message, try_except, bind. cbn [events App.ending].
    rewrite Hloop. unfold raise. cbn beta iota. rewrite Hother. reflexivity.
  - intros e ui' Hloop. pose proof (stream_loop_raises _ _ _ _ _ Hloop) as ->.
    split; [reflexivity|]. unfold initial_locals in Hloop.
    unfold on_message, try_except, bind. cbn [events App.ending].
    rewrite Hloop. reflexivity.
Qed.

(** A hosted tool call without a [name] attribute stops the handler before
    the text that follows it is shown. *)
Lemma on_message_propagates_witness :
  on_message
    (completed [ RunItemStreamEvent (ToolCallItem (RawObject [("call_id", Some "c1")]));
                 RawResponseEvent (Some "Done.") ])
    empty_display
  = (Raise (AttributeError "get"), empty_display) /\
  on_message (failed_after [RawResponseEvent (Some "Hi")] (OtherException "timeout"))
    empty_display
  = (Raise (OtherException "timeout"),
     {| next_widget := 1; log := [MessageSend 0 EmptyString; MessageStreamToken 0 "Hi"] |}).
Proof.
  split.
  - exact (proj2 (proj2 (on_message_propagates
             [ RunItemStreamEvent (ToolCallItem (RawObject [("call_id", Some "c1")]));
               RawResponseEvent (Some "Done.") ] None empty_display)
             (AttributeError "get") empty_display eq_refl)).
  - exact (proj1 (on_message_propagates [RawResponseEvent (Some "Hi")]
                    (Some (OtherException "timeout")) empty_display)
             (OtherException "timeout") {| tool_steps := []; msg := Some 0%nat |}
             {| next_widget := 1;
                log := [MessageSend 0 EmptyString; MessageStreamToken 0 "Hi"] |}
             eq_refl eq_refl eq_refl).
Defined.

Lemma updates_follow_sends_mono (l : list action) : forall sent sent',
  (forall w, In w sent -> In w sent') ->
  updates_follow_sends sent l -> updates_follow_sends sent' l.
Proof.
  induction l as [|a l IH]; intros sent sent' Hincl Hok; [exact I|].
  destruct a; cbn [updates_follow_sends] in *; try (eapply IH; eassumption).
  - eapply IH; [|exact Hok]. intros w [<-|Hw]; [left; reflexivity | right; auto].
  - destruct Hok as [Hin Hok]. split; [auto | eapply IH; eassumption].
Qed.

(** The steps that [tool_steps] holds have been sent, and the loop updates
    only steps that have been sent. *)
Lemma stream_loop_updates (evs : list event) : forall (loc0 : locals) (ui0 : UI) r ui sent,
  stream_loop loc0 evs ui0 = (r, ui) ->
  (forall cid w, dict_lookup (tool_steps loc0) cid = Some w -> In w sent) ->
  exists added, log ui = log ui0 ++ added /\ updates_follow_sends sent added.
Proof.
  induction evs as [|ev evs IH]; intros loc0 ui0 r ui sent Hrun Hsent.
  - injection Hrun as <- <-. exists []. rewrite app_nil_r. split; [reflexivity | exact I].
  - cbn [stream_loop] in Hrun. unfold bind in Hrun.
    destruct (handle_event loc0 ev ui0) as [[loc1|e] ui1] eqn:Hev.
    2:{ injection Hrun as <- <-. apply handle_event_raises in Hev as [_ ->].
        exists []. rewrite app_nil_r. split; [reflexivity | exact I]. }
    destruct ev as [[raw|raw output|ty]|[delta|]|ty].
    + rewrite AppSpec.handle_call_run in Hev.
      destruct (fst (raw_field raw "name" (Some "tool") tt)) as [name|e]; [|discriminate Hev].
      destruct (fst (raw_field raw "call_id" None tt)) as [call_id|e]; [|discriminate Hev].
      destruct (fst (raw_field raw "arguments" (Some EmptyString) tt)) as [args|e];
        [|discriminate Hev].
      injection Hev as <- <-.
      destruct (IH _ _ _ _ (next_widget ui0 :: sent) Hrun) as (added & Hlog & Hok).
      { intros cid w. destruct (truthy call_id) as [c|].
        - cbn [tool_steps]. rewrite AppSpec.dict_lookup_set.
          destruct (String.eqb cid c); [intros [= <-]; left; reflexivity|].
          intros Hw. right. exact (Hsent _ _ Hw).
        - intros Hw. right. exact (Hsent _ _ Hw). }
      exists (StepSend (next_widget ui0) name args :: added).
      split; [|exact Hok]. rewrite Hlog. cbn [log]. now rewrite <- app_assoc.
    + rewrite AppSpec.handle_output_run in Hev.
      destruct (fst (raw_field raw "call_id" None tt)) as [call_id|e]; [|discriminate Hev].
      destruct (truthy call_id) as [c|].
      * destruct (dict_lookup (tool_steps loc0) c) as [step|] eqn:Hstep;
          injection Hev as <- <-; destruct (IH _ _ _ _ sent Hrun Hsent) as (added & Hlog & Hok).
        -- exists (StepUpdate step output :: added). split.
           ++ rewrite Hlog. cbn [log]. now rewrite <- app_assoc.
           ++ split; [exact (Hsent _ _ Hstep) | exact Hok].
        -- exists added. split; assumption.
      * injection Hev as <- <-. exact (IH _ _ _ _ sent Hrun Hsent).
    + injection Hev as <- <-. exact (IH _ _ _ _ sent Hrun Hsent).
    + rewrite AppSpec.handle_delta_run in Hev.
      destruct (msg loc0) as [m|]; injection Hev as <- <-;
        destruct (IH _ _ _ _ sent Hrun) as (added & Hlog & Hok); try exact Hsent.
      * exists (MessageStreamToken m delta :: added). split; [|exact Hok].
        rewrite Hlog. cbn [log]. now rewrite <- app_assoc.
      * exists (MessageSend (next_widget ui0) EmptyString ::
                MessageStreamToken (next_widget ui0) delta :: added).
        split; [|exact Hok]. rewrite Hlog. cbn [log]. now rewrite <- !app_assoc.
    + injection Hev as <- <-. exact (IH _ _ _ _ sent Hrun Hsent).
    + injection Hev as <- <-. exact (IH _ _ _ _ sent Hrun Hsent).
Qed.

(** X10.  Whatever the events, and also when the loop stops on an exception,
    the display log that the loop adds never updates a step before sending
    it: each [update] of a tool step comes after the [send] of that step. *)
Theorem steps_updated_after_sent (evs : list event) (ui : UI) :
  exists added,
    log (snd (stream_loop initial_locals evs ui)) = log ui ++ added /\
    updates_follow_sends [] added.
Proof.
  destruct (stream_loop initial_locals evs ui) as [r ui'] eqn:Hrun.
  apply (stream_loop_updates _ _ _ _ _ [] Hrun).
  intros cid w H. discriminate H.
Qed.

(** X11.  A tool call whose call id is missing, [None] or empty is shown as a
    step but not registered, and an output event with such a call id never
    updates a step: it leaves the display and the registered steps alone. *)
Theorem falsy_call_id_is_not_tracked
    (loc : locals) (ui : UI) (raw : raw_item) (name args call_id : option string)
    (raw_out : raw_item) (output : string) :
  fst (raw_field raw "name" (Some "tool") tt) = Return name ->
  fst (raw_field raw "call_id" None tt) = Return call_id ->
  fst (raw_field raw "arguments" (Some EmptyString) tt) = Return args ->
  call_id = None \/ call_id = Some EmptyString ->
  fst (raw_field raw_out "call_id" None tt) = Return call_id ->
  handle_event loc (RunItemStreamEvent (ToolCallItem raw)) ui =
    (Return loc,
     {| next_widget := S (next_widget ui);
        log := log ui ++ [StepSend (next_widget ui) name args] |}) /\
  handle_event loc (RunItemStreamEvent (ToolCallOutputItem raw_out output)) ui = (Return loc, ui).
Proof.
  intros Hname Hcid Hargs Hfalsy Hout.
  assert (Hnone : truthy call_id = None) by (destruct Hfalsy as [->| ->]; reflexivity).
  split.
  - rewrite AppSpec.handle_call_run, Hname, Hcid, Hargs, Hnone. reflexivity.
  - rewrite AppSpec.handle_output_run, Hout, Hnone. reflexivity.
Qed.

(** A dict item without a ["call_id"] key: the step appears under the default
    name "tool", and an output without a call id goes nowhere. *)
Lemma falsy_call_id_is_not_tracked_witness :
  handle_event initial_locals (RunItemStreamEvent (ToolCallItem (RawDict []))) empty_display
  = (Return initial_locals,
     {| next_widget := 1; log := [StepSend 0 (Some "tool") (Some EmptyString)] |}) /\
  handle_event initial_locals
    (RunItemStreamEvent (ToolCallOutputItem (RawDict []) "42")) empty_display
  = (Return initial_locals, empty_display).
Proof.
  exact (falsy_call_id_is_not_tracked initial_locals empty_display (RawDict [])
           (Some "tool") (Some EmptyString) None (RawDict []) "42"
           eq_refl eq_refl eq_refl (or_introl eq_refl) eq_refl).
Defined.

(** X12.  When a call id is used again, the output goes to the step of the
    latest tool call with that id: right after a tool call with a true call
    id, an output event with the same id updates the step that call created,
    whatever step was registered under the id before. *)
Theorem output_updates_latest_step
    (loc loc1 : locals) (ui ui1 : UI) (raw raw_out : raw_item) (cid output : string) :
  call_id_of raw = Some cid ->
  call_id_of raw_out = Some cid ->
  handle_event loc (RunItemStreamEvent (ToolCallItem raw)) ui = (Return loc1, ui1) ->
  handle_event loc1 (RunItemStreamEvent (ToolCallOutputItem raw_out output)) ui1 =
    (Return loc1,
     {| next_widget := next_widget ui1;
        log := log ui1 ++ [StepUpdate (next_widget ui) output] |}).
Proof.
  unfold call_id_of. intros Hcid Hout Hcall.
  rewrite AppSpec.handle_call_run in Hcall.
  destruct (fst (raw_field raw "name" (Some "tool") tt)) as [name|e]; [|discriminate Hcall].
  destruct (fst (raw_field raw "call_id" None tt)) as [call_id|e]; [|discriminate Hcid].
  destruct (fst (raw_field raw "arguments" (Some EmptyString) tt)) as [args|e];
    [|discriminate Hcall].
  rewrite Hcid in Hcall. injection Hcall as <- <-.
  rewrite AppSpec.handle_output_run.
  destruct (fst (raw_field raw_out "call_id" None tt)) as [call_id'|e]; [|discriminate Hout].
  rewrite Hout. cbn [tool_steps]. rewrite AppSpec.dict_lookup_set, String.eqb_refl.
  reflexivity.
Qed.

(** Two calls reuse the id "c1"; the output lands on the second step. *)
Lemma output_updates_latest_step_witness :
  snd (stream_loop initial_locals
         [ function_call "order_specialist" "c1" "{}";
           function_call "refund_specialist" "c1" "{}";
           function_output "c1" "done" ] empty_display)
  = {| next_widget := 2;
       log := [ StepSend 0 (Some "order_specialist") (Some "{}");
                StepSend 1 (Some "refund_specialist") (Some "{}");
                StepUpdate 1 "done" ] |}.
Proof.
  exact (f_equal snd
    (output_updates_latest_step
       {| tool_steps := [("c1", 0%nat)]; msg := None |}
       {| tool_steps := [("c1", 1%nat)]; msg := None |}
       {| next_widget := 1; log := [StepSend 0 (Some "order_specialist") (Some "{}")] |}
       {| next_widget := 2;
          log := [ StepSend 0 (Some "order_specialist") (Some "{}");
                   StepSend 1 (Some "refund_specialist") (Some "{}") ] |}
       (RawObject [("name", Some "refund_specialist"); ("call_id", Some "c1");
                   ("arguments", Some "{}")])
       (RawDict [("call_id", Some "c1")]) "c1" "done" eq_refl eq_refl eq_refl)).
Defined.

End AppMore.

(** ** Further properties of the filesystem tools *)

Module FilesystemMore.

Import FilesystemAgent FolderSummary CleanupSpec FilesystemNotions.







Lemma length_append (a b : string) :
  String.length (a +:+ b) = (String.length a + String.length b)%nat.
Proof.
  induction a as [|c a IH]; [reflexivity|].
  change (String c a +:+ b) with (String c (a +:+ b)). cbn [String.length]. now rewrite IH.
Qed.


Lemma ends_with_slash_app (a b : string) :
  b <> EmptyString -> ends_with_slash (a +:+ b) = ends_with_slash b.
Proof.
  intros Hb. induction a as [|c a IH]; [reflexivity|].
  change (String c a +:+ b) with (String c (a +:+ b)).
  cbn [ends_with_slash]. destruct (a +:+ b) eqn:Hab; [|exact IH].
  destruct a; [|discriminate Hab]. contradiction.
Qed.

Lemma proper_name_inv (name : string) :
  proper_name name = true ->
  name <> EmptyString /\ name <> "." /\ ends_with_slash name = false.
Proof.
  unfold proper_name. intros H.
  apply andb_prop in H as [H Hslash]. apply andb_prop in H as [Hempty Hdot].
  apply negb_true_iff in Hslash, Hempty, Hdot.
  apply String.eqb_neq in Hempty, Hdot. auto.
Qed.

(** A proper name joined to a path gives a proper name. *)
Lemma joinpath_proper (p name : string) :
  proper_name name = true -> proper_name (joinpath p name) = true.
Proof.
  intros Hname. destruct (proper_name_inv _ Hname) as (Hempty & Hdot & Hslash).
  unfold joinpath. destruct (String.eqb p "."); [exact Hname|].
  assert (Hlong : forall a b : string,
            a <> EmptyString -> b <> EmptyString -> ends_with_slash b = false ->
            proper_name (a +:+ b) = true).
  { intros a b Ha Hb Hs. unfold proper_name. rewrite (ends_with_slash_app a b Hb), Hs.
    destruct a as [|c a]; [contradiction|]. destruct b as [|d b]; [contradiction|].
    change (String c a +:+ String d b) with (String c (a +:+ String d b)).
    destruct a as [|c' a].
    - change (EmptyString +:+ String d b) with (String d b).
      cbn [String.eqb negb andb]. destruct (Ascii.eqb c "."); reflexivity.
    - change (String c' a +:+ String d b) with (String c' (a +:+ String d b)).
      cbn [String.eqb negb andb]. destruct (Ascii.eqb c "."); reflexivity. }
  destruct (ends_with_slash p) eqn:Hp.
  - apply Hlong; [intros Hnil; subst p; discriminate Hp | exact Hempty | exact Hslash].
  - rewrite <- PyFacts.append_assoc. apply Hlong; [|exact Hempty | exact Hslash].
    intros Hnil. apply (f_equal String.length) in Hnil.
    rewrite length_append in Hnil. cbn [String.length] in Hnil. lia.
Qed.

(** What is joined to a proper name lies below it. *)
Lemma startswith_joinpath (p name : string) :
  proper_name p = true -> startswith (p +:+ "/") (joinpath p name) = true.
Proof.
  intros Hp. destruct (proper_name_inv _ Hp) as (_ & Hdot & Hslash).
  unfold joinpath. apply String.eqb_neq in Hdot. rewrite Hdot, Hslash.
  rewrite <- PyFacts.append_assoc. apply PyFacts.startswith_app.
Qed.

(** Every category is a proper name. *)
Lemma category_of_proper (extension : string) : proper_name (category_of extension) = true.
Proof.
  assert (Hall : forallb (fun entry => proper_name (snd entry)) FILE_CATEGORIES = true)
    by (vm_compute; reflexivity).
  unfold category_of, dict_get.
  destruct (dict_lookup FILE_CATEGORIES extension) as [category|] eqn:Hlookup; [|reflexivity].
  assert (Hin : In (extension, category) FILE_CATEGORIES).
  { clear Hall. revert Hlookup. generalize FILE_CATEGORIES.
    induction d as [|[k w] d IH]; cbn [dict_lookup]; [discriminate|].
    destruct (String.eqb extension k) eqn:Hk.
    - apply String.eqb_eq in Hk. subst k. intros [= <-]. left; reflexivity.
    - intros H. right. exact (IH H). }
  exact (proj1 (forallb_forall _ _) Hall _ Hin).
Qed.

Section Params.

Variable expanduser : string -> string.
Variable str_lower : string -> string.
Variable size_mb_of : Z -> float.
Variable format_mtime : Z -> string + string.
Variable timestamp_now : string -> string.
Variable mkdir_parents : string -> M FS unit.
Variable shutil_move : string -> string -> M FS unit.
Variable str_exn : exn -> string.
Variable size_in_mb : Z -> float.
Variable round_2 : float -> float.

(** The names a scan reports are the listed entries, in the order of the
    directory listing. *)
Lemma scan_fold_names (fs : FS) (folder : string) (include_hidden : bool) (names : list string) :
  forall files_info,
    map info_name
      (fold_left (scan_item str_lower size_mb_of format_mtime fs folder include_hidden) names files_info)
    = map info_name files_info ++ List.filter (listed fs folder include_hidden) names.
Proof.
  induction names as [|name names IH]; intros files_info; cbn [fold_left List.filter].
  - now rewrite app_nil_r.
  - rewrite IH. unfold scan_item, listed.
    destruct (is_dir fs (joinpath folder name)); cbn [negb andb]; [reflexivity|].
    destruct include_hidden; cbn [negb andb orb].
    + destruct (dict_lookup (nodes fs) (joinpath folder name)) as [[|[e|stat]]|];
        [| |destruct (format_mtime (st_mtime stat))|];
        rewrite map_app, <- app_assoc; reflexivity.
    + destruct (startswith "." name); cbn [negb]; [reflexivity|].
      destruct (dict_lookup (nodes fs) (joinpath folder name)) as [[|[e|stat]]|];
        [| |destruct (format_mtime (st_mtime stat))|];
        rewrite map_app, <- app_assoc; reflexivity.
Qed.

(** [scan_folder], run on a folder that exists. *)
Lemma scan_folder_run (folder_path : string) (include_hidden : bool) (fs : FS) :
  path_exists fs (expanduser folder_path) = true ->
  is_dir fs (expanduser folder_path) = true ->
  scan_folder expanduser str_lower size_mb_of format_mtime folder_path include_hidden fs =
  let files := fold_left (scan_item str_lower size_mb_of format_mtime fs (expanduser folder_path)
                            include_hidden)
                 (iterdir fs (expanduser folder_path)) [] in
  (Return (ScanReport (expanduser folder_path) (length files) files), fs).
Proof.
  intros Hex Hdir. unfold scan_folder, bind, gets, id. rewrite Hex, Hdir. reflexivity.
Qed.


Lemma tally_counts_move (acc : tally) (a : cleanup_action) :
  moves a = true -> stays a = false -> tally_counts acc ->
  tally_counts {| actions := actions acc ++ [a];
                  moved_count := S (moved_count acc);
                  skipped_count := skipped_count acc |}.
Proof.
  intros Hm Hs (H1 & H2 & H3). unfold tally_counts. cbn [actions moved_count skipped_count].
  rewrite !List.filter_app, !length_app. cbn [List.filter]. rewrite Hm, Hs. cbn [length].
  lia.
Qed.

Lemma tally_counts_stay (acc : tally) (a : cleanup_action) :
  moves a = false -> stays a = true -> tally_counts acc ->
  tally_counts {| actions := actions acc ++ [a];
                  moved_count := moved_count acc;
                  skipped_count := S (skipped_count acc) |}.
Proof.
  intros Hm Hs (H1 & H2 & H3). unfold tally_counts. cbn [actions moved_count skipped_count].
  rewrite !List.filter_app, !length_app. cbn [List.filter]. rewrite Hm, Hs. cbn [length].
  lia.
Qed.

Lemma well_placed_add (folder : string) (l : list cleanup_action) (a : cleanup_action) :
  well_placed str_lower folder a -> Forall (well_placed str_lower folder) l ->
  Forall (well_placed str_lower folder) (l ++ [a]).
Proof. intros Ha Hl. apply Forall_app. split; [exact Hl|]. constructor; [exact Ha|constructor]. Qed.

(** One entry of [organize_files], in either mode: it returns, keeps the
    counters in step with the actions and places every action well. *)
Lemma organize_item_keeps (folder : string) (dry_run : bool) (acc : tally)
    (name : string) (fs : FS) :
  exists acc' fs',
    organize_item str_lower timestamp_now mkdir_parents shutil_move str_exn folder dry_run acc name fs
      = (Return acc', fs') /\
    (tally_counts acc -> tally_counts acc') /\
    (Forall (well_placed str_lower folder) (actions acc) ->
     Forall (well_placed str_lower folder) (actions acc')).
Proof.
  assert (Hmove : forall act dest,
            startswith "." name = false ->
            (act = "would_move" \/ act = "moved") ->
            startswith (joinpath folder (category_of (str_lower (suffix name))) +:+ "/") dest
            = true ->
            well_placed str_lower folder
              {| file_name := name; action := act; source := Some (joinpath folder name);
                 destination := Some dest;
                 reason := "Categorized as " +:+ category_of (str_lower (suffix name)) |}).
  { intros act dest Hvis Hact Hdest. split; cbn [file_name action source destination].
    - intros _. split; [exact Hvis|]. split; [reflexivity|]. exists dest. auto.
    - intros ->. destruct Hact as [H|H]; discriminate H. }
  assert (Herror : forall e,
            well_placed str_lower folder
              {| file_name := name; action := "error"; source := Some (joinpath folder name);
                 destination := None; reason := str_exn e |}).
  { intros e. split; cbn [file_name action]; [intros H|intros H]; discriminate H. }
  unfold organize_item, bind, gets, id.
  destruct (is_dir fs (joinpath folder name)); [exists acc, fs; auto|].
  destruct (startswith "." name) eqn:Hhidden.
  { do 2 eexists. split; [reflexivity|]. split.
    - apply tally_counts_stay; reflexivity.
    - apply well_placed_add. split; cbn [file_name action]; [intros H; discriminate H|auto]. }
  set (dest_folder := joinpath folder (category_of (str_lower (suffix name)))).
  set (dest_path :=
         if path_exists fs (joinpath dest_folder name)
         then joinpath dest_folder
                (stem name +:+ "_" +:+ timestamp_now (joinpath folder name) +:+
                 str_lower (suffix name))
         else joinpath dest_folder name).
  assert (Hdest : startswith (dest_folder +:+ "/") dest_path = true).
  { subst dest_path. destruct (path_exists fs (joinpath dest_folder name));
      apply startswith_joinpath, joinpath_proper, category_of_proper. }
  destruct dry_run.
  { do 2 eexists. split; [reflexivity|]. split.
    - apply tally_counts_move; reflexivity.
    - apply well_placed_add, Hmove; auto. }
  unfold try_except, bind.
  destruct (mkdir_parents dest_folder fs) as [[[]|e1] fs1].
  - destruct (shutil_move (joinpath folder name) dest_path fs1) as [[[]|e2] fs2].
    + do 2 eexists. split; [reflexivity|]. split.
      * apply tally_counts_move; reflexivity.
      * apply well_placed_add, Hmove; auto.
    + do 2 eexists. split; [reflexivity|]. split.
      * apply tally_counts_stay; reflexivity.
      * apply well_placed_add, Herror.
  - do 2 eexists. split; [reflexivity|]. split.
    + apply tally_counts_stay; reflexivity.
    + apply well_placed_add, Herror.
Qed.

Lemma organize_loop_keeps (folder : string) (dry_run : bool) (names : list string) :
  forall (acc : tally) (fs : FS),
  exists acc' fs',
    organize_loop str_lower timestamp_now mkdir_parents shutil_move str_exn folder dry_run acc names fs
      = (Return acc', fs') /\
    (tally_counts acc -> tally_counts acc') /\
    (Forall (well_placed str_lower folder) (actions acc) ->
     Forall (well_placed str_lower folder) (actions acc')).
Proof.
  induction names as [|name names IH]; intros acc fs.
  - exists acc, fs. auto.
  - destruct (organize_item_keeps folder dry_run acc name fs) as (acc1 & fs1 & Hrun1 & Ht1 & Hw1).
    destruct (IH acc1 fs1) as (acc2 & fs2 & Hrun2 & Ht2 & Hw2).
    exists acc2, fs2. split; [|auto].
    cbn [organize_loop]. unfold bind. rewrite Hrun1. exact Hrun2.
Qed.

(** The files a dry run reports on, and the ones it would move. *)
Lemma organize_loop_dry_names (folder : string) (fs : FS) (names : list string) :
  forall acc : tally,
  exists acc',
    organize_loop str_lower timestamp_now mkdir_parents shutil_move str_exn folder true acc names fs
      = (Return acc', fs) /\
    map file_name (actions acc')
      = map file_name (actions acc) ++ List.filter (listed fs folder true) names /\
    map file_name (List.filter moves (actions acc'))
      = map file_name (List.filter moves (actions acc)) ++
        List.filter (listed fs folder false) names.
Proof.
  induction names as [|name names IH]; intros acc.
  - exists acc. cbn [List.filter]. rewrite !app_nil_r. auto.
  - assert (Hitem : exists acc1,
              organize_item str_lower timestamp_now mkdir_parents shutil_move str_exn folder true acc name fs
                = (Return acc1, fs) /\
              map file_name (actions acc1)
                = map file_name (actions acc) ++
                  (if listed fs folder true name then [name] else []) /\
              map file_name (List.filter moves (actions acc1))
                = map file_name (List.filter moves (actions acc)) ++
                  (if listed fs folder false name then [name] else [])).
    { unfold organize_item, listed, bind, gets, id.
      destruct (is_dir fs (joinpath folder name)); cbn [negb andb orb].
      - exists acc. rewrite !app_nil_r. auto.
      - destruct (startswith "." name); cbn [negb].
        + eexists. split; [reflexivity|]. cbn [actions].
          rewrite List.filter_app, !map_app. cbn. rewrite !app_nil_r. auto.
        + eexists. split; [reflexivity|]. cbn [actions].
          rewrite List.filter_app, !map_app. cbn. auto. }
    destruct Hitem as (acc1 & Hrun1 & Hall1 & Hmov1).
    destruct (IH acc1) as (acc2 & Hrun2 & Hall2 & Hmov2).
    exists acc2. split; [|split].
    + cbn [organize_loop]. unfold bind. rewrite Hrun1. exact Hrun2.
    + rewrite Hall2, Hall1, <- app_assoc. cbn [List.filter].
      destruct (listed fs folder true name); reflexivity.
    + rewrite Hmov2, Hmov1, <- app_assoc. cbn [List.filter].
      destruct (listed fs folder false name); reflexivity.
Qed.

(** X14.  [scan_folder] and a dry run of [organize_files] see a folder the
    same way: the files a scan with hidden files lists are the files the dry
    run reports on, and the files a scan without them lists are the files it
    would move, in the same order. *)
Theorem scan_agrees_with_dry_run (folder_path : string) (fs : FS) :
  path_exists fs (expanduser folder_path) = true ->
  is_dir fs (expanduser folder_path) = true ->
  exists everything visible mode folder processed organized skipped acts,
    fst (scan_folder expanduser str_lower size_mb_of format_mtime folder_path true fs)
      = Return (ScanReport folder (length everything) everything) /\
    fst (scan_folder expanduser str_lower size_mb_of format_mtime folder_path false fs)
      = Return (ScanReport folder (length visible) visible) /\
    fst (organize_files expanduser str_lower timestamp_now mkdir_parents shutil_move str_exn
           folder_path true fs)
      = Return (CleanupReport mode folder processed organized skipped acts) /\
    map info_name everything = map file_name acts /\
    map info_name visible = map file_name (List.filter moves acts).
Proof.
  intros Hex Hdir.
  destruct (organize_loop_dry_names (expanduser folder_path) fs
              (iterdir fs (expanduser folder_path))
              {| actions := []; moved_count := 0; skipped_count := 0 |})
    as (acc & Hrun & Hall & Hmov).
  cbn [actions List.filter map app] in Hall, Hmov.
  do 8 eexists. split; [|split; [|split; [|split]]].
  - rewrite (scan_folder_run _ _ _ Hex Hdir). reflexivity.
  - rewrite (scan_folder_run _ _ _ Hex Hdir). reflexivity.
  - unfold organize_files, bind, gets, id. rewrite Hex, Hdir. cbn [negb orb].
    rewrite Hrun. reflexivity.
  - rewrite Hall. apply (scan_fold_names fs _ true _ []).
  - rewrite Hmov. apply (scan_fold_names fs _ false _ []).
Qed.


(** X16.  In either mode, every move that [organize_files] reports is for a
    file that is not hidden, from its place in the source folder to a path
    below the subfolder of its category, and every "skipped" action is for a
    hidden file: hidden files are never moved and nothing is moved out of the
    source folder. *)
Theorem moves_stay_under_folder (source_folder : string) (dry_run : bool) (fs : FS)
    (mode folder : string) (processed organized skipped : nat) (acts : list cleanup_action) :
  fst (organize_files expanduser str_lower timestamp_now mkdir_parents shutil_move str_exn
         source_folder dry_run fs)
    = Return (CleanupReport mode folder processed organized skipped acts) ->
  folder = expanduser source_folder /\
  forall a, In a acts ->
    (moves a = true ->
     startswith "." (file_name a) = false /\
     source a = Some (joinpath folder (file_name a)) /\
     exists dest,
       destination a = Some dest /\
       startswith (joinpath folder (category_of (str_lower (suffix (file_name a)))) +:+ "/") dest
       = true) /\
    (action a = "skipped" -> startswith "." (file_name a) = true).
Proof.
  unfold organize_files, bind, gets, id. intros Hrun.
  destruct (negb (path_exists fs (expanduser source_folder)) ||
            negb (is_dir fs (expanduser source_folder))); [discriminate Hrun|].
  destruct (organize_loop_keeps (expanduser source_folder) dry_run
              (iterdir fs (expanduser source_folder))
              {| actions := []; moved_count := 0; skipped_count := 0 |} fs)
    as (acc & fs' & Hloop & _ & Hplaced).
  rewrite Hloop in Hrun. injection Hrun as _ <- _ _ _ <-. split; [reflexivity|].
  intros a Hin.
  exact (proj1 (List.Forall_forall _ _) (Hplaced (List.Forall_nil _)) a Hin).
Qed.

(** X17.  When the destination folder cannot be created, the file is not
    moved: [shutil.move] is not called, the file is reported with action
    "error", the exception's text as reason and no destination, and it is
    counted as skipped.  A failing [shutil.move] is reported the same way. *)
Theorem failed_move_is_reported (folder name : string) (acc : tally) (fs fs1 : FS) (e : exn) :
  is_dir fs (joinpath folder name) = false ->
  startswith "." name = false ->
  let dest_folder := joinpath folder (category_of (str_lower (suffix name))) in
  let reported :=
    {| actions := actions acc ++
         [{| file_name := name; action := "error"; source := Some (joinpath folder name);
             destination := None; reason := str_exn e |}];
       moved_count := moved_count acc;
       skipped_count := S (skipped_count acc) |} in
  (mkdir_parents dest_folder fs = (Raise e, fs1) ->
   organize_item str_lower timestamp_now mkdir_parents shutil_move str_exn folder false
     acc name fs
   = (Return reported, fs1)) /\
  (forall fs2 dest,
     mkdir_parents dest_folder fs = (Return tt, fs1) ->
     dest = (if path_exists fs (joinpath dest_folder name)
             then joinpath dest_folder
                    (stem name +:+ "_" +:+ timestamp_now (joinpath folder name) +:+
                     str_lower (suffix name))
             else joinpath dest_folder name) ->
     shutil_move (joinpath folder name) dest fs1 = (Raise e, fs2) ->
     organize_item str_lower timestamp_now mkdir_parents shutil_move str_exn folder false
       acc name fs
     = (Return reported, fs2)).
Proof.
  intros Hfile Hvisible dest_folder reported. subst reported.
  unfold organize_item, try_except, bind, gets, id. rewrite Hfile, Hvisible. fold dest_folder.
  split.
  - intros Hmk. rewrite Hmk. reflexivity.
  - intros fs2 dest Hmk -> Hmv. rewrite Hmk, Hmv. reflexivity.
Qed.











End Params.


(** The scan and the dry run of the demo folder. *)
Lemma scan_agrees_with_dry_run_witness :
  exists everything visible mode folder processed organized skipped acts,
    fst (scan_folder absolute_path lower few_kilobytes mtime_text "/home/u/Downloads" true
           downloads)
      = Return (ScanReport folder (length everything) everything) /\
    fst (scan_folder absolute_path lower few_kilobytes mtime_text "/home/u/Downloads" false
           downloads)
      = Return (ScanReport folder (length visible) visible) /\
    fst (organize_files absolute_path lower clock_reading mkdir_ok move_ok exn_text
           "/home/u/Downloads" true downloads)
      = Return (CleanupReport mode folder processed organized skipped acts) /\
    map info_name everything = map file_name acts /\
    map info_name visible = map file_name (List.filter moves acts).
Proof.
  exact (scan_agrees_with_dry_run absolute_path lower few_kilobytes mtime_text clock_reading
           mkdir_ok move_ok exn_text "/home/u/Downloads" downloads eq_refl eq_refl).
Defined.


(** With a library that refuses [mkdir], [Report.PDF] stays and is reported. *)
Lemma failed_move_is_reported_witness :
  organize_item lower clock_reading mkdir_denied move_ok exn_text "/home/u/Downloads" false
    {| actions := []; moved_count := 0; skipped_count := 0 |} "Report.PDF" downloads
  = (Return {| actions :=
                 [{| file_name := "Report.PDF"; action := "error";
                     source := Some "/home/u/Downloads/Report.PDF";
                     destination := None; reason := "error" |}];
               moved_count := 0; skipped_count := 1 |},
     downloads).
Proof.
  exact (proj1 (failed_move_is_reported lower clock_reading mkdir_denied move_ok exn_text
                  "/home/u/Downloads" "Report.PDF"
                  {| actions := []; moved_count := 0; skipped_count := 0 |}
                  downloads downloads (OtherException "Permission denied") eq_refl eq_refl)
           eq_refl).
Defined.



(** In the dry run of the demo folder every proposed move is for a visible
    file of the folder; in the dry run of the current directory the text
    file is moved from [a.TXT] to a new name in [Documents/Text]. *)
Lemma moves_stay_under_folder_witness :
  (exists acts,
     fst (organize_files absolute_path lower clock_reading mkdir_ok move_ok exn_text
            "/home/u/Downloads" true downloads)
       = Return (CleanupReport "DRY RUN" "/home/u/Downloads" 3 2 1 acts) /\
     forall a, In a acts -> moves a = true ->
       startswith "." (file_name a) = false /\
       source a = Some (joinpath "/home/u/Downloads" (file_name a))) /\
  (exists acts,
     fst (organize_files absolute_path lower clock_reading mkdir_ok move_ok exn_text
            "." true here)
       = Return (CleanupReport "DRY RUN" "." 2 1 1 acts) /\
     In {| file_name := "a.TXT"; action := "would_move"; source := Some "a.TXT";
           destination := Some "Documents/Text/a_20261103_101500.txt";
           reason := "Categorized as Documents/Text" |} acts /\
     forall a, In a acts -> moves a = true ->
       source a = Some (file_name a) /\
       exists dest,
         destination a = Some dest /\
         startswith (category_of (lower (suffix (file_name a))) +:+ "/") dest = true).
Proof.
  split.
  - eexists. split; [reflexivity|]. intros a Hin Hmove.
    destruct (proj1 (proj2 (moves_stay_under_folder absolute_path lower clock_reading mkdir_ok
                              move_ok exn_text "/home/u/Downloads" true downloads
                              _ _ _ _ _ _ eq_refl) a Hin) Hmove) as (Hvisible & Hsource & _).
    split; assumption.
  - eexists. split; [reflexivity|]. split; [left; reflexivity|]. intros a Hin Hmove.
    destruct (proj1 (proj2 (moves_stay_under_folder absolute_path lower clock_reading mkdir_ok
                              move_ok exn_text "." true here
                              _ _ _ _ _ _ eq_refl) a Hin) Hmove) as (_ & Hsource & Hdest).
    split; [exact Hsource | exact Hdest].
Defined.

End FilesystemMore.

(** ** Further properties of the outlier check *)

Module DashboardMore.

Import DataDashboardAgent OutlierSpec OutlierNotions.

(** NaN compares false with everything. *)
Lemma nan_unordered (v x : float) :
  PrimFloat.is_nan v = true -> PrimFloat.ltb v x = false /\ PrimFloat.ltb x v = false.
Proof.
  unfold PrimFloat.is_nan. intros Hnan. apply negb_true_iff in Hnan.
  rewrite FloatAxioms.eqb_spec in Hnan. rewrite !FloatAxioms.ltb_spec.
  assert (Hv : Prim2SF v = S754_nan).
  { unfold SFeqb in Hnan. destruct (Prim2SF v) as [s|s| |s m e]; cbn in Hnan.
    - discriminate Hnan.
    - destruct s; discriminate Hnan.
    - reflexivity.
    - rewrite Z.compare_refl in Hnan.
      change (PosDef.Pos.compare_cont Eq m m) with (Pos.compare m m) in Hnan.
      rewrite Pos.compare_refl in Hnan. destruct s; discriminate Hnan. }
  rewrite Hv. split; [reflexivity|].
  unfold SFltb. destruct (Prim2SF x); reflexivity.
Qed.

Lemma In_take {A} (n : nat) (l : list A) (x : A) : In x (take n l) -> In x l.
Proof. intros H. rewrite <- (List.firstn_skipn n l). apply in_or_app. left; exact H. Qed.

Section Quantile.

Variable quantile : list float -> float -> float.
Variable other_dtype_check : DataFrame -> string -> outcome (option outlier_anomaly).
Variable str_strip : string -> string.

(** X20.  An outlier anomaly is reported for a numeric column only when the
    column has at least 10 non-null values, and the rows it names, at most
    ten, all hold a value: a null (NaN) cell is never an outlier. *)
Theorem outlier_rows_hold_values (df : DataFrame) (col : string) (values : list float)
    (anomaly : outlier_anomaly) :
  dict_lookup df col = Some (Numeric values) ->
  check_column quantile other_dtype_check df col = Return (Some anomaly) ->
  (10 <= length (dropna values))%nat /\
  (length (outlier_indices anomaly) <= 10)%nat /\
  forall i, In i (outlier_indices anomaly) ->
    exists v, nth_error values i = Some v /\ PrimFloat.is_nan v = false.
Proof.
  intros Hcol Hrun. unfold check_column in Hrun. rewrite Hcol in Hrun.
  cbn [count_non_null] in Hrun.
  destruct (length (dropna values) <? 10)%nat eqn:Hfew; [discriminate Hrun|].
  apply Nat.ltb_ge in Hfew. split; [exact Hfew|].
  cbn zeta in Hrun.
  destruct (0 <? length _)%nat; [|discriminate Hrun].
  injection Hrun as <-. cbn [outlier_indices]. split; [apply List.firstn_le_length|].
  intros i Hi. apply In_take, DashboardSpec.selected_from_In in Hi as [_ Hnth].
  rewrite Nat.sub_0_r, nth_error_map in Hnth.
  destruct (nth_error values i) as [v|]; [|discriminate Hnth].
  exists v. split; [reflexivity|]. injection Hnth as Hv.
  destruct (PrimFloat.is_nan v) eqn:Hnan; [|reflexivity].
  unfold out_of_bounds in Hv.
  destruct (nan_unordered v (PrimFloat.sub (quantile (dropna values) 0.25)
              (PrimFloat.mul 1.5 (PrimFloat.sub (quantile (dropna values) 0.75)
                                    (quantile (dropna values) 0.25)))) Hnan) as [H1 _].
  destruct (nan_unordered v (PrimFloat.add (quantile (dropna values) 0.75)
              (PrimFloat.mul 1.5 (PrimFloat.sub (quantile (dropna values) 0.75)
                                    (quantile (dropna values) 0.25)))) Hnan) as [_ H2].
  rewrite H1, H2 in Hv. discriminate Hv.
Qed.

(** The loop body raises on a text column with enough values, and raises
    only on a column that is not of a number dtype. *)
Lemma check_column_raises (df : DataFrame) (col : string) :
  (unsuitable df col ->
   check_column quantile other_dtype_check df col = Raise (OtherException "TypeError")) /\
  (forall e, check_column quantile other_dtype_check df col = Raise e ->
   exists c, dict_lookup df col = Some c /\ is_numeric c = false /\
             (10 <= count_non_null c)%nat).
Proof.
  unfold check_column, unsuitable. split.
  - intros (values & -> & Hmany). apply Nat.ltb_ge in Hmany. rewrite Hmany. reflexivity.
  - intros e Hrun. destruct (dict_lookup df col) as [c|]; [|discriminate Hrun].
    destruct (count_non_null c <? 10)%nat eqn:Hfew; [discriminate Hrun|].
    apply Nat.ltb_ge in Hfew. exists c. split; [reflexivity|]. split; [|exact Hfew].
    destruct c as [values|values|n]; [|reflexivity|reflexivity].
    cbn zeta in Hrun. destruct (0 <? length _)%nat; discriminate Hrun.
Qed.

Lemma check_columns_raises (df : DataFrame) (cols : list string) : forall anomalies,
  ((exists col, In col cols /\ unsuitable df col) ->
   exists e, check_columns quantile other_dtype_check df cols anomalies = Raise e) /\
  (forall e, check_columns quantile other_dtype_check df cols anomalies = Raise e ->
   exists col c, In col cols /\ dict_lookup df col = Some c /\ is_numeric c = false /\
                 (10 <= count_non_null c)%nat).
Proof.
  induction cols as [|col cols IH]; intros anomalies; cbn [check_columns].
  - split; [intros (col & [] & _) | discriminate].
  - destruct (check_column quantile other_dtype_check df col) as [[a|]|e0] eqn:Hcol.
    + split.
      * intros (c & [<-|Hin] & Hc).
        -- rewrite (proj1 (check_column_raises df col) Hc) in Hcol. discriminate Hcol.
        -- apply (proj1 (IH _)). exists c. auto.
      * intros e He. destruct (proj2 (IH _) e He) as (c & k & Hin & Hrest).
        exists c, k. split; [right; exact Hin | exact Hrest].
    + split.
      * intros (c & [<-|Hin] & Hc).
        -- rewrite (proj1 (check_column_raises df col) Hc) in Hcol. discriminate Hcol.
        -- apply (proj1 (IH _)). exists c. auto.
      * intros e He. destruct (proj2 (IH _) e He) as (c & k & Hin & Hrest).
        exists c, k. split; [right; exact Hin | exact Hrest].
    + split; [eauto|]. intros e _.
      destruct (proj2 (check_column_raises df col) e0 Hcol) as (k & Hrest).
      exists col, k. split; [left; reflexivity | exact Hrest].
Qed.

(** Names that are no column and columns with too few values do not count. *)
Lemma check_columns_skips (df : DataFrame) (cols : list string) : forall anomalies,
  check_columns quantile other_dtype_check df cols anomalies
  = check_columns quantile other_dtype_check df (List.filter (checked df) cols) anomalies.
Proof.
  induction cols as [|col cols IH]; intros anomalies; [reflexivity|].
  cbn [List.filter]. destruct (checked df col) eqn:Hchecked.
  - cbn [check_columns].
    destruct (check_column quantile other_dtype_check df col) as [[a|]|e]; auto.
  - cbn [check_columns]. unfold checked in Hchecked. unfold check_column at 1.
    destruct (dict_lookup df col) as [c|]; [|apply IH].
    apply negb_false_iff in Hchecked. rewrite Hchecked. apply IH.
Qed.

Lemma check_columns_length (df : DataFrame) (cols : list string) : forall anomalies found,
  check_columns quantile other_dtype_check df cols anomalies = Return found ->
  (length found <= length anomalies + length cols)%nat.
Proof.
  induction cols as [|col cols IH]; intros anomalies found; cbn [check_columns length].
  - intros [= <-]. lia.
  - destruct (check_column quantile other_dtype_check df col) as [[a|]|e]; [| |discriminate].
    + intros H. apply IH in H. rewrite length_app in H. cbn [length] in H. lia.
    + intros H. apply IH in H. lia.
Qed.

Lemma dict_lookup_unique {V} (d : dict V) key v :
  List.NoDup (map fst d) -> In (key, v) d -> dict_lookup d key = Some v.
Proof.
  induction d as [|[k w] d IH]; intros Hnd Hin; [destruct Hin|].
  cbn [map fst] in Hnd. apply List.NoDup_cons_iff in Hnd as [Hk Hnd].
  cbn [dict_lookup]. destruct Hin as [[= -> ->]|Hin].
  - now rewrite String.eqb_refl.
  - destruct (String.eqb_spec key k) as [->|Hne]; [|exact (IH Hnd Hin)].
    exfalso. apply Hk. apply (List.in_map fst) in Hin. exact Hin.
Qed.

(** X21.  A text column with at least 10 non-null values among the columns
    to check makes the outlier check fail, since its quantiles cannot be
    taken, and the check fails only on a column of the frame that is not of a
    number dtype and has at least 10 non-null values.  A name that is no
    column of the frame, and a column with fewer than 10 non-null values, are
    passed over: leaving them out of the columns to check changes nothing. *)
Theorem outlier_check_fails_on_text (df : DataFrame) (numeric_columns : option string) :
  ((exists col, In col (cols_to_check str_strip df numeric_columns) /\ unsuitable df col) ->
   exists e,
     detect_outliers quantile other_dtype_check str_strip df numeric_columns = Raise e) /\
  (forall e,
     detect_outliers quantile other_dtype_check str_strip df numeric_columns = Raise e ->
     exists col c,
       In col (cols_to_check str_strip df numeric_columns) /\
       dict_lookup df col = Some c /\ is_numeric c = false /\
       (10 <= count_non_null c)%nat) /\
  detect_outliers quantile other_dtype_check str_strip df numeric_columns
  = check_columns quantile other_dtype_check df
      (List.filter (checked df) (cols_to_check str_strip df numeric_columns)) [].
Proof.
  unfold detect_outliers. split; [|split].
  - apply (check_columns_raises df _ []).
  - apply (check_columns_raises df _ []).
  - apply check_columns_skips.
Qed.

(** X22.  When [numeric_columns] is omitted or empty, the columns checked are
    the numeric columns of the frame, and the outlier check cannot fail: it
    returns at most one anomaly for each numeric column. *)
Theorem default_outlier_check_succeeds (df : DataFrame) (numeric_columns : option string) :
  List.NoDup (map fst df) ->
  numeric_columns = None \/ numeric_columns = Some EmptyString ->
  exists anomalies,
    detect_outliers quantile other_dtype_check str_strip df numeric_columns = Return anomalies /\
    (length anomalies <= length (numeric_column_names df))%nat.
Proof.
  intros Hkeys Hdefault.
  assert (Hcols : cols_to_check str_strip df numeric_columns = numeric_column_names df)
    by (destruct Hdefault as [->| ->]; reflexivity).
  destruct (detect_outliers quantile other_dtype_check str_strip df numeric_columns) as [anomalies|e] eqn:Hrun.
  - exists anomalies. split; [reflexivity|].
    unfold detect_outliers in Hrun. rewrite Hcols in Hrun.
    apply check_columns_length in Hrun. exact Hrun.
  - exfalso.
    unfold detect_outliers in Hrun.
    destruct (proj2 (check_columns_raises df _ []) e Hrun)
      as (col & k & Hin & Hlookup & Hoff & _).
    rewrite Hcols in Hin. unfold numeric_column_names in Hin.
    apply List.in_map_iff in Hin as ([name c] & Hname & Hin). cbn [fst] in Hname. subst name.
    apply List.filter_In in Hin as [Hin Hnum].
    rewrite (dict_lookup_unique df col c Hkeys Hin) in Hlookup.
    injection Hlookup as ->. rewrite Hnum in Hoff. discriminate Hoff.
Qed.

End Quantile.

(** The "level" column: the null in row 3 is passed over, the 100 in row 11
    is the outlier. *)
Lemma outlier_rows_hold_values_witness :
  exists anomaly,
    check_column quantile_linear dtype_refused readings "level" = Return (Some anomaly) /\
    outlier_indices anomaly = [11%nat] /\
    forall i, In i (outlier_indices anomaly) ->
      exists v, nth_error [10; 11; 12; nan; 13; 14; 15; 16; 17; 18; 19; 100]%float i = Some v /\
                PrimFloat.is_nan v = false.
Proof.
  eexists. split; [vm_compute; reflexivity|]. split; [reflexivity|].
  refine (proj2 (proj2 (outlier_rows_hold_values quantile_linear dtype_refused readings "level" _ _
                          eq_refl _))).
  vm_compute. reflexivity.
Defined.

(** Asked to check "notes", the outlier check of the journal fails. *)
Lemma outlier_check_fails_on_text_witness :
  exists e,
    detect_outliers quantile_linear dtype_refused strip journal (Some "units, notes")
    = Raise e.
Proof.
  apply (proj1 (outlier_check_fails_on_text quantile_linear dtype_refused strip journal
                  (Some "units, notes"))).
  exists "notes". split; [right; left; reflexivity|].
  eexists. split; [reflexivity|]. vm_compute. lia.
Defined.

Lemma default_outlier_check_succeeds_witness :
  exists anomalies,
    detect_outliers quantile_linear dtype_refused strip journal None = Return anomalies /\
    (length anomalies <= length (numeric_column_names journal))%nat.
Proof.
  apply (default_outlier_check_succeeds quantile_linear dtype_refused strip journal None);
    [|left; reflexivity].
  repeat constructor; cbn; intuition discriminate.
Defined.

End DashboardMore.

(** ** The data file tools: [load_and_analyze_data] and [create_visualization] *)

Module DataFilesMore.

Import Py Py.Notations DataDashboardAgent DataFiles DataFilesNotions.

Lemma drawing_only_app (a b : list plot_call) :
  drawing_only a -> drawing_only b -> drawing_only (a ++ b).
Proof.
  unfold drawing_only. intros Ha Hb. rewrite forallb_app, Ha, Hb. reflexivity.
Qed.

Lemma drawing_only_open (l : list plot_call) :
  drawing_only l -> forallb (fun c => negb (is_close c)) (Subplots :: l) = true.
Proof.
  intros Hl. cbn. unfold drawing_only in Hl.
  rewrite forallb_forall in *. intros c Hc. specialize (Hl c Hc).
  now apply andb_prop in Hl.
Qed.

Section Params.

Variable expanduser basename : string -> string.
Variable read_csv read_excel : string -> outcome DataFrame.
Variable installed : bool.
Variable row_count_of : DataFrame -> nat.
Variable describe_column : column -> outcome string.
Variable memory_usage_mb_of : DataFrame -> float.
Variable str_exn : exn -> string.
Variable refuses : list plot_call -> plot_call -> option exn.

(** a call is appended to the calls made, or it raises and none is *)
Lemma call_run (c : plot_call) (made : list plot_call) :
  call refuses c made = (Return tt, made ++ [c]) \/
  exists e, call refuses c made = (Raise e, made).
Proof.
  unfold call. destruct (refuses made c) as [e|]; [right; now exists e | now left].
Qed.

Lemma getitem_run (df : DataFrame) (col : string) (made : list plot_call) :
  (exists c, getitem df col made = (Return c, made)) \/
  getitem df col made = (Raise (KeyError col), made).
Proof.
  unfold getitem. destruct (dict_lookup df col) as [c|]; [left; now exists c | now right].
Qed.

Lemma draws_ret {A} (P : A -> Prop) (a : A) : P a -> draws P (ret a).
Proof.
  intros Ha made. exists (Return a), []. rewrite app_nil_r.
  repeat split. now intros ? [= <-].
Qed.

Lemma draws_bind {A B} (Q : A -> Prop) (P : B -> Prop)
    (m : M (list plot_call) A) (k : A -> M (list plot_call) B) :
  draws Q m -> (forall a, draws P (k a)) -> draws P (bind m k).
Proof.
  intros Hm Hk made. unfold bind.
  destruct (Hm made) as (r & added & -> & Ha & _).
  destruct r as [a|e].
  - destruct (Hk a (made ++ added)) as (r' & added' & -> & Ha' & HP).
    exists r', (added ++ added'). rewrite app_assoc. split; [reflexivity|].
    split; [now apply drawing_only_app | exact HP].
  - exists (Raise e), added. repeat split; [exact Ha | discriminate].
Qed.

Lemma draws_getitem (df : DataFrame) (col : string) :
  draws (fun _ => True) (getitem df col).
Proof.
  intros made. destruct (getitem_run df col made) as [[c ->] | ->].
  - exists (Return c), []. now rewrite app_nil_r.
  - exists (Raise (KeyError col)), []. now rewrite app_nil_r.
Qed.

Lemma draws_call (c : plot_call) :
  is_savefig c = false -> is_close c = false ->
  draws (fun _ => True) (call refuses c).
Proof.
  intros Hs Hc made. destruct (call_run c made) as [-> | [e ->]].
  - exists (Return tt), [c]. split; [reflexivity|]. split; [|easy].
    unfold drawing_only. cbn. now rewrite Hs, Hc.
  - exists (Raise e), []. now rewrite app_nil_r.
Qed.

Lemma draw_draws (df : DataFrame) (chart_type x_column : string) (y_column : option string) :
  draws no_early_success (draw refuses df chart_type x_column y_column).
Proof.
  unfold draw.
  repeat match goal with
         | |- draws _ (if ?b then _ else _) => destruct b
         | |- draws _ (match ?y with Some _ => _ | None => _ end) => destruct y
         | |- draws _ (bind _ _) => apply (draws_bind (fun _ => True)); [|intros ?]
         | |- draws _ (ret _) => apply draws_ret; exact I
         | |- draws _ (getitem _ _) => apply draws_getitem
         | |- draws _ (call _ _) => apply draws_call; reflexivity
         end.
Qed.

(** X23. [create_visualization] never raises, and it reports success only
    when the chart file was written: on success the calls it made to
    matplotlib are [subplots], drawing calls, then [savefig] at the reported
    path and [close], in this order; when it reports an error the figure it
    may have opened was not closed. *)
Theorem create_visualization_saves_then_closes
    (file_path chart_type x_column : string) (y_column title output_path : option string)
    (made : list plot_call) :
  exists result added,
    create_visualization expanduser read_csv read_excel installed str_exn refuses
      file_path chart_type x_column y_column title output_path made
    = (Return result, made ++ added) /\
    report_matches_calls expanduser chart_type output_path result added.
Proof.
  unfold create_visualization. destruct installed; cbn [negb].
  2: { eexists _, []. rewrite app_nil_r. split; reflexivity. }
  unfold try_except, bind at 1.
  destruct (if endswith ".csv" (expanduser file_path)
            then read_csv (expanduser file_path)
            else read_excel (expanduser file_path)) as [df|e]; cbn [lift ret raise].
  2: { eexists _, []. rewrite app_nil_r. split; reflexivity. }
  unfold bind at 1.
  destruct (call_run Subplots made) as [-> | [e ->]].
  2: { eexists _, []. rewrite app_nil_r. split; reflexivity. }
  unfold bind at 1.
  destruct (draw_draws df chart_type x_column (given y_column) (made ++ [Subplots]))
    as (r & drawn & -> & Hdrawn & Hearly).
  assert (Herr : forall text w l, w = (made ++ [Subplots]) ++ l -> drawing_only l ->
            exists result added,
              (Return (ChartError text), w) = (Return result, made ++ added) /\
              report_matches_calls expanduser chart_type output_path result added).
  { intros text w l -> Hl. exists (ChartError text), (Subplots :: l).
    split; [now rewrite <- app_assoc | now apply drawing_only_open]. }
  assert (Hnil : drawing_only drawn -> drawing_only (drawn ++ [])).
  { now rewrite app_nil_r. }
  destruct r as [[error|]|e]; cbn [ret].
  - destruct error as [text|ct p m].
    + apply (Herr _ _ drawn); [reflexivity | exact Hdrawn].
    + destruct (Hearly _ eq_refl).
  - set (w0 := (made ++ [Subplots]) ++ drawn).
    match goal with |- context [call refuses (SetTitle ?t)] => set (the_title := t) end.
    fold (save_path_of expanduser output_path).
    set (save_path := save_path_of expanduser output_path).
    unfold bind at 1.
    destruct (call_run (SetXLabel x_column) w0) as [-> | [e ->]].
    2: { apply (Herr _ _ drawn); [reflexivity | exact Hdrawn]. }
    unfold bind at 1.
    destruct (call_run (SetTitle the_title) (w0 ++ [SetXLabel x_column])) as [-> | [e ->]].
    2: { apply (Herr _ _ (drawn ++ [SetXLabel x_column])).
         - subst w0. now rewrite <- !app_assoc.
         - now apply drawing_only_app. }
    unfold bind at 1.
    destruct (call_run XTicks ((w0 ++ [SetXLabel x_column]) ++ [SetTitle the_title]))
      as [-> | [e ->]].
    2: { apply (Herr _ _ (drawn ++ [SetXLabel x_column; SetTitle the_title])).
         - subst w0. now rewrite <- !app_assoc.
         - now apply drawing_only_app. }
    unfold bind at 1.
    destruct (call_run TightLayout
                (((w0 ++ [SetXLabel x_column]) ++ [SetTitle the_title]) ++ [XTicks]))
      as [-> | [e ->]].
    2: { apply (Herr _ _ (drawn ++ [SetXLabel x_column; SetTitle the_title; XTicks])).
         - subst w0. now rewrite <- !app_assoc.
         - now apply drawing_only_app. }
    set (styling := [SetXLabel x_column; SetTitle the_title; XTicks; TightLayout]).
    assert (Hstyled : (((w0 ++ [SetXLabel x_column]) ++ [SetTitle the_title]) ++ [XTicks])
                      ++ [TightLayout] = (made ++ [Subplots]) ++ (drawn ++ styling)).
    { subst w0 styling. now rewrite <- !app_assoc. }
    assert (Hquiet : drawing_only (drawn ++ styling)).
    { now apply drawing_only_app. }
    rewrite Hstyled. clear Hstyled.
    unfold bind at 1.
    destruct (call_run (SaveFig save_path) ((made ++ [Subplots]) ++ drawn ++ styling))
      as [-> | [e ->]].
    2: { apply (Herr _ _ (drawn ++ styling)); [reflexivity | exact Hquiet]. }
    unfold bind at 1.
    destruct (call_run Close
                (((made ++ [Subplots]) ++ drawn ++ styling) ++ [SaveFig save_path]))
      as [-> | [e ->]].
    + cbn [ret].
      exists (ChartSaved chart_type save_path ("Chart saved to " +:+ save_path)),
             (Subplots :: (drawn ++ styling) ++ [SaveFig save_path; Close]).
      split.
      * now rewrite <- !app_assoc.
      * cbn. repeat split. exists (drawn ++ styling). now split.
    + eexists _, (Subplots :: (drawn ++ styling) ++ [SaveFig save_path]). split.
      * now rewrite <- !app_assoc.
      * cbn [report_matches_calls].
        pose proof (drawing_only_open _ Hquiet) as H.
        change (Subplots :: (drawn ++ styling) ++ [SaveFig save_path])
          with ((Subplots :: drawn ++ styling) ++ [SaveFig save_path]).
        rewrite forallb_app, H. reflexivity.
  - apply (Herr _ _ drawn); [reflexivity | exact Hdrawn].
Qed.


(** X24. The chart type is checked only after the file was read and a figure
    opened: for a type that is none of the five, or a scatter plot without
    [y_column], a file that cannot be read gives the read error, and one that
    can gives the chart error with the figure opened and left open. *)
Theorem rejected_chart_is_read_first
    (file_path chart_type x_column : string) (y_column title output_path : option string)
    (made : list plot_call) :
  installed = true ->
  known_chart_type chart_type = false \/
  (chart_type = "scatter" /\ given y_column = None) ->
  match (if endswith ".csv" (expanduser file_path)
         then read_csv (expanduser file_path)
         else read_excel (expanduser file_path)) with
  | Raise e =>
      create_visualization expanduser read_csv read_excel installed str_exn refuses
        file_path chart_type x_column y_column title output_path made
      = (Return (ChartError ("Error creating visualization: " +:+ str_exn e)), made)
  | Return df =>
      refuses made Subplots = None ->
      create_visualization expanduser read_csv read_excel installed str_exn refuses
        file_path chart_type x_column y_column title output_path made
      = (Return (ChartError (if String.eqb chart_type "scatter"
                             then "Scatter plot requires y_column"
                             else "Unknown chart type: " +:+ chart_type)),
         made ++ [Subplots])
  end.
Proof.
  intros Hinst Hbad. unfold create_visualization. rewrite Hinst. cbn [negb].
  unfold try_except, bind at 1.
  destruct (if endswith ".csv" (expanduser file_path)
            then read_csv (expanduser file_path)
            else read_excel (expanduser file_path)) as [df|e]; cbn [lift ret raise].
  2: reflexivity.
  intros Hopen. unfold bind at 1. unfold call at 1. rewrite Hopen.
  unfold bind at 1.
  destruct Hbad as [Hunknown | [-> Hy]].
  - unfold known_chart_type in Hunknown.
    repeat (apply orb_false_elim in Hunknown; destruct Hunknown as [Hunknown ?]).
    unfold draw.
    repeat match goal with H : String.eqb _ _ = false |- _ => rewrite H; clear H end.
    reflexivity.
  - rewrite Hy. reflexivity.
Qed.

(** X25. [load_and_analyze_data] never raises.  It gives an overview only
    for a path that, expanded, ends in [.csv], [.xlsx] or [.xls] and was read
    by the reader of that format; the overview then has one entry per column
    of the frame, in the frame's order, and [column_count] counts them. *)
Theorem load_and_analyze_data_overview (file_path : string) :
  exists result,
    load_and_analyze_data expanduser basename read_csv read_excel installed
      row_count_of describe_column memory_usage_mb_of str_exn file_path
    = Return result /\
    forall file_name row_count column_count columns memory_usage_mb,
      result = Overview file_name row_count column_count columns memory_usage_mb ->
      exists df,
        (endswith ".csv" (expanduser file_path) = true /\
         read_csv (expanduser file_path) = Return df \/
         endswith ".csv" (expanduser file_path) = false /\
         endswith ".xlsx" (expanduser file_path) || endswith ".xls" (expanduser file_path)
           = true /\
         read_excel (expanduser file_path) = Return df) /\
        file_name = basename (expanduser file_path) /\
        map fst columns = map fst df /\
        column_count = length columns.
Proof.
  unfold load_and_analyze_data.
  destruct installed; cbn [negb]; [|eexists; split; [reflexivity | discriminate]].
  assert (Hcols : forall df columns,
            describe_columns describe_column df = Return columns ->
            map fst columns = map fst df).
  { induction df as [|[col c] df IH]; cbn; intros columns H.
    - now injection H as <-.
    - destruct (describe_column c); [|discriminate].
      destruct (describe_columns describe_column df) as [l|]; [|discriminate].
      injection H as <-. cbn. f_equal. now apply IH. }
  destruct (endswith ".csv" (expanduser file_path)) eqn:Hcsv.
  - destruct (read_csv (expanduser file_path)) as [df|e] eqn:Hread;
      [|eexists; split; [reflexivity | discriminate]].
    destruct (describe_columns describe_column df) as [columns|e] eqn:Hd;
      [|eexists; split; [reflexivity | discriminate]].
    eexists; split; [reflexivity|].
    intros ? ? ? ? ? [= <- <- <- <- <-]. exists df.
    pose proof (Hcols _ _ Hd) as Hm.
    repeat split; [now left | exact Hm |].
    now rewrite <- (length_map fst df), <- Hm, length_map.
  - destruct (endswith ".xlsx" (expanduser file_path) || endswith ".xls" (expanduser file_path))
      eqn:Hxl; [|eexists; split; [reflexivity | discriminate]].
    destruct (read_excel (expanduser file_path)) as [df|e] eqn:Hread;
      [|eexists; split; [reflexivity | discriminate]].
    destruct (describe_columns describe_column df) as [columns|e] eqn:Hd;
      [|eexists; split; [reflexivity | discriminate]].
    eexists; split; [reflexivity|].
    intros ? ? ? ? ? [= <- <- <- <- <-]. exists df.
    pose proof (Hcols _ _ Hd) as Hm.
    repeat split; [now right | exact Hm |].
    now rewrite <- (length_map fst df), <- Hm, length_map.
Qed.

(** X26. The tools do not agree on the files they take.  For a path that
    ends in none of [.csv], [.xlsx], [.xls], [load_and_analyze_data] answers
    that the format is unsupported without reading anything, whatever the
    readers would do, while [create_visualization] hands the file to
    [read_excel] and reports what that raises. *)
Theorem unsupported_format_only_for_overview
    (file_path chart_type x_column : string) (y_column title output_path : option string)
    (made : list plot_call) (e : exn) :
  installed = true ->
  endswith ".csv" (expanduser file_path) = false ->
  endswith ".xlsx" (expanduser file_path) = false ->
  endswith ".xls" (expanduser file_path) = false ->
  read_excel (expanduser file_path) = Raise e ->
  load_and_analyze_data expanduser basename read_csv read_excel installed
    row_count_of describe_column memory_usage_mb_of str_exn file_path
  = Return (OverviewError "Unsupported file format. Use CSV or XLSX.") /\
  create_visualization expanduser read_csv read_excel installed str_exn refuses
    file_path chart_type x_column y_column title output_path made
  = (Return (ChartError ("Error creating visualization: " +:+ str_exn e)), made).
Proof.
  intros Hinst Hcsv Hxlsx Hxls Hread.
  unfold load_and_analyze_data, create_visualization.
  rewrite Hinst, Hcsv, Hxlsx, Hxls. cbn [negb orb]. split; [reflexivity|].
  unfold try_except, bind at 1. rewrite Hread. reflexivity.
Qed.

End Params.

(** A line chart of the demo frame, saved where asked. *)
Lemma create_visualization_saves_then_closes_witness :
  exists result added,
    create_visualization same_path reads_sales reads_sales true exception_text willing
      "sales.csv" "line" "units" (Some "returns") None (Some "out.png") []
    = (Return result, [] ++ added) /\
    report_matches_calls same_path "line" (Some "out.png") result added.
Proof.
  exact (create_visualization_saves_then_closes same_path reads_sales reads_sales true
           exception_text willing "sales.csv" "line" "units" (Some "returns") None
           (Some "out.png") []).
Defined.

(** The overview of the demo frame, read as CSV, has its two columns. *)
Lemma load_and_analyze_data_overview_witness :
  exists df,
    (endswith ".csv" (same_path "sales.csv") = true /\
     reads_sales (same_path "sales.csv") = Return df \/
     endswith ".csv" (same_path "sales.csv") = false /\
     endswith ".xlsx" (same_path "sales.csv") || endswith ".xls" (same_path "sales.csv")
       = true /\
     unreadable (same_path "sales.csv") = Return df) /\
    "sales.csv" = same_path (same_path "sales.csv") /\
    map fst [("units", "numeric"); ("returns", "numeric")] = map fst df /\
    2%nat = length [("units", "numeric"); ("returns", "numeric")].
Proof.
  destruct (load_and_analyze_data_overview same_path same_path reads_sales unreadable true
              rows_of column_kind no_memory exception_text "sales.csv")
    as (result & Hrun & Hoverview).
  vm_compute in Hrun. injection Hrun as <-.
  exact (Hoverview _ _ _ _ _ eq_refl).
Defined.

Lemma rejected_chart_is_read_first_witness :
  create_visualization same_path reads_sales reads_sales true exception_text willing
    "sales.csv" "pie" "units" (Some "returns") None None []
  = (Return (ChartError "Unknown chart type: pie"), [Subplots]).
Proof.
  exact (rejected_chart_is_read_first same_path reads_sales reads_sales true
           exception_text willing "sales.csv" "pie" "units" (Some "returns") None None []
           eq_refl (or_introl eq_refl) eq_refl).
Defined.

Lemma unsupported_format_only_for_overview_witness :
  load_and_analyze_data same_path same_path reads_sales unreadable true
    rows_of column_kind no_memory exception_text "notes.txt"
  = Return (OverviewError "Unsupported file format. Use CSV or XLSX.") /\
  create_visualization same_path reads_sales unreadable true exception_text willing
    "notes.txt" "bar" "units" None None None []
  = (Return (ChartError "Error creating visualization: No such file"), []).
Proof.
  exact (unsupported_format_only_for_overview same_path same_path reads_sales unreadable
           true rows_of column_kind no_memory exception_text willing
           "notes.txt" "bar" "units" None None None [] (OtherException "No such file")
           eq_refl eq_refl eq_refl eq_refl eq_refl).
Defined.

End DataFilesMore.
